(** * bench/bench.py: the convolution benchmark driver, as a call-trace model

    The driver is glue around external collaborators (TVM, topi, autotvm,
    the RPC proxy, numpy and the repository's own helper modules).  The
    embedding keeps the control flow of bench.py as it is written -- the
    [with] scopes, the [try]/[except]/[else] statements, the loops -- over a
    state-and-exception monad.  Every call that leaves bench.py appends an
    event to a chronological trace, and what the callee answers is read from
    an environment record [Env], so that the theorems hold whatever the
    collaborators do. *)

From Stdlib Require Import DecimalString DecimalNat.
From stdpp Require Import base option list strings gmap.

Open Scope string_scope.
Open Scope Z_scope.
Open Scope list_scope.

(** ** Values *)

(** A Python exception object: any [BaseException]. *)
Inductive exn := Exception (kind msg : string).

Inductive result (A : Type) :=
| Ok (a : A)
| Raise (e : exn).
Arguments Ok {A} a.
Arguments Raise {A} e.

Definition shape := list Z.

(** [tvm.placeholder] and the operators of topi produce tensors; bench.py
    reads their [.shape] and [.dtype]. *)
Record tensor := Tensor { t_shape : shape; t_dtype : string }.

(** The object returned by [data_type.get_data_type]: bench.py calls its
    methods [tvm_type()] and [np_type()]. *)
Record data_type := DataType { tvm_type : string; np_type : string }.

(** One entry of [workloads.get_workloads]; bench.py reads it through the
    accessor methods of the same names. *)
Record workload := Workload {
  space : Z;
  input_channel : Z;
  output_channel : Z;
  kernel : Z;
  pad : Z;
  stride : Z;
  warmup : Z;
  run : Z;
  depthwise : bool
}.

(** numpy arrays, kept symbolic: where the numbers come from, with the
    shape and element type numpy tracks. *)
Inductive content :=
| CRandom (draw : nat)                 (* the draw-th call of np.random.random *)
| CZeros                               (* np.zeros *)
| CCast (c : content) (to : string)    (* ndarray.astype *)
| CKernel (tag : nat).                 (* written by a compiled kernel *)

Record ndarray := NdArray {
  nd_shape : shape;
  nd_dtype : string;
  nd_content : content
}.

Definition astype (a : ndarray) (dt : string) : ndarray :=
  NdArray (nd_shape a) dt (CCast (nd_content a) dt).

Definition np_zeros (s : shape) (dt : string) : ndarray :=
  NdArray s dt CZeros.

(** A device buffer ([tvm.nd.array]) is a handle into the device store. *)
Definition buffer := nat.

Inductive schedule := Schedule (tag : nat).

Record module := TvmModule { mod_name : string; entry_name : string }.

Inductive remote_session := Remote (key : string).

Inductive tracker_session := Tracker (host : string) (port : Z).

(** The operator constructors of [topi.nn] that [get_conv_ts] calls, with
    the arguments it passes. *)
Inductive topi_call :=
| Conv2d (input filter : tensor) (strides padding : Z * Z)
    (layout : string) (out_dtype : string)
| DepthwiseConv2dNchw (input filter : tensor) (strides : Z * Z)
    (padding : Z) (out_dtype : string)
| DepthwiseConv2dNhwc (input filter : tensor) (strides : Z * Z)
    (padding : Z) (out_dtype : string)
| DepthwiseConv2dHwcn (input filter : tensor) (strides : Z * Z)
    (padding : Z) (out_dtype : string).

(** The schedule routines of [topi.generic]. *)
Inductive sched_fn :=
| schedule_conv2d_nchw
| schedule_conv2d_nhwc
| schedule_conv2d_hwcn
| schedule_depthwise_conv2d_nchw
| schedule_depthwise_conv2d_nhwc
| schedule_depthwise_conv2d_hwcn.

(** The context managers bench.py enters. *)
Inductive context :=
| CtxHistory (log_name : string)       (* autotvm.apply_history_best *)
| CtxDummy                             (* dummy_context_mgr *)
| CtxTarget (target : string)          (* tvm.target.create *)
| CtxBuildConfig.                      (* tvm.build_config *)

(** What the timer reports: a float, kept as the text [str] gives for it. *)
Inductive cost := Cost (repr : string).

(** What [print] writes.  A formatted line keeps the pieces of its format
    string apart: the text before [--], the [name: value] fields in order,
    and what follows [->], a fixed text or the measured cost. *)
Inductive field_value :=
| VStr (s : string)
| VInt (z : Z)
| VShape (s : shape)
| VCost (c : cost).

Inductive line :=
| LExn (e : exn)
| LFormat (label : string) (fields : list (string * field_value))
    (tail : field_value).

(** The arguments of [correctness.test_correctness]. *)
Record check_args := CheckArgs {
  chk_input_channel : Z;
  chk_output_channel : Z;
  chk_kernel : Z;
  chk_stride : Z;
  chk_pad : Z;
  chk_input : ndarray;
  chk_filter : ndarray;
  chk_output : ndarray;
  chk_dtype : string;
  chk_order : string;
  chk_depthwise : bool
}.

(** ** The trace *)

Inductive event :=
| EvBenchTvm (arch tgt : string) (dtype : data_type) (layout : string)
    (workloads : list workload) (remote : option remote_session)
    (sched : string)                                 (* bench_tvm is entered *)
| EvGetConvTs (layout : string) (dtype : data_type)
    (dw : bool)                                      (* get_conv_ts is entered *)
| EvRandom (s : shape)                               (* np.random.random *)
| EvEnter (c : context)
| EvExit (c : context)
| EvTopi (c : topi_call)
| EvSchedule (fn : sched_fn) (outs : list tensor)
| EvNdArray (a : ndarray) (ctx : string)             (* tvm.nd.array *)
| EvBuild (ts : schedule) (args : list tensor) (target : string)
    (target_host : option string) (name : string)    (* tvm.build *)
| EvExport (f : module) (path : string)              (* f.export_library *)
| EvUpload (path : string)                           (* remote.upload *)
| EvLoadModule (so_name : string)                    (* remote.load_module *)
| EvInvoke (f : module) (i fl o : buffer)            (* f(input, filter, output) *)
| EvTimeEvaluator (f : module) (entry : string) (ctx : string)
    (number : Z)                                     (* f.time_evaluator *)
| EvTimer (f : module) (i fl o : buffer)             (* timer(input, filter, output) *)
| EvCheck (c : check_args)                           (* test_correctness *)
| EvPrint (l : line)
| EvConnectTracker (host : string) (port : Z)        (* rpc.connect_tracker *)
| EvRequest (key : string).                          (* tracker.request *)

Definition history := list event.

(** ** The collaborators

    The helpers of the repository that bench.py imports (data_type,
    workloads, utils) are functions of their arguments.  The libraries and
    the device answer as a function of everything that happened before, so
    the same call may succeed once and fail later.  All of them may raise. *)
Record Env := {
  (* data_type.get_data_type, workloads.get_workloads, utils.* *)
  get_data_type : string -> result data_type;
  get_workloads : string -> result (list workload);
  config_arch : string -> string -> string -> option remote_session ->
                result (option string * option string * string);
  get_input_and_filter_shape :
    string -> Z -> Z -> Z -> Z -> bool -> result (shape * shape);
  get_num_ops : Z -> Z -> Z -> Z -> bool -> result Z;
  (* int(...) on a string *)
  py_int : string -> result Z;
  (* topi *)
  topi_nn : history -> topi_call -> result tensor;
  topi_generic : history -> sched_fn -> list tensor -> result schedule;
  (* tvm *)
  nd_array : history -> ndarray -> string -> result unit;
  tvm_build : history -> schedule -> list tensor -> string ->
              option string -> string -> result module;
  export_library : history -> module -> string -> result unit;
  tempdir : history -> string;
  invoke : history -> module -> buffer -> buffer -> buffer -> result content;
  time_evaluator : history -> module -> string -> string -> Z -> result unit;
  timer : history -> module -> buffer -> buffer -> buffer ->
          result (cost * content);
  (* rpc *)
  connect_tracker : history -> string -> Z -> result tracker_session;
  request : history -> tracker_session -> string -> result remote_session;
  upload : history -> remote_session -> string -> result unit;
  load_module : history -> remote_session -> string -> result module;
  (* correctness.test_correctness *)
  test_correctness : history -> check_args -> result unit
}.

(** ** The interpreter state and the monad *)

Record world := World {
  trace : history;          (* everything that happened, oldest first *)
  heap : list ndarray;      (* the device store, indexed by buffer handle *)
  draws : nat               (* how often np.random.random was called *)
}.

Definition M (A : Type) := world -> result A * world.

Definition ret {A} (a : A) : M A := fun w => (Ok a, w).

Definition raise {A} (e : exn) : M A := fun w => (Raise e, w).

Definition bind {A B} (m : M A) (k : A -> M B) : M B := fun w =>
  match m w with
  | (Ok a, w') => k a w'
  | (Raise e, w') => (Raise e, w')
  end.

Notation "x <- m ; k" := (bind m (fun x => k))
  (at level 20, m at level 100, k at level 200, only parsing).
Notation "' pat <- m ; k" := (bind m (fun x => match x with pat => k end))
  (at level 20, pat pattern, m at level 100, k at level 200, only parsing).
Notation "m >> k" := (bind m (fun _ => k))
  (at level 100, k at level 200, right associativity, only parsing).

Definition emit (ev : event) (w : world) : world :=
  World (trace w ++ [ev]) (heap w) (draws w).

Definition log (ev : event) : M unit := fun w => (Ok tt, emit ev w).

(** A result computed outside the monad, lifted. *)
Definition lift {A} (r : result A) : M A := fun w => (r, w).

(** An external call: the call is recorded, then the collaborator answers
    from the history before the call. *)
Definition call {A} (ev : event) (answer : history -> result A) : M A :=
  fun w => (answer (trace w), emit ev w).

(** [try: m  except BaseException as e: handler e  else: els a].  The
    [else] block runs outside the protection of the handler. *)
Definition try_except_else {A B} (m : M A) (handler : exn -> M B)
    (els : A -> M B) : M B := fun w =>
  match m w with
  | (Ok a, w') => els a w'
  | (Raise e, w') => handler e w'
  end.

(** [with c: body].  None of the context managers used here swallows an
    exception: the scope is left, and the exception goes on. *)
Definition with_ctx {A} (c : context) (body : M A) : M A := fun w =>
  let (r, w') := body (emit (EvEnter c) w) in (r, emit (EvExit c) w').

(** [for x in l: f x] *)
Fixpoint for_each {A} (f : A -> M unit) (l : list A) : M unit :=
  match l with
  | [] => ret tt
  | x :: l' => f x >> for_each f l'
  end.

(** [for _ in range(n): m] *)
Fixpoint repeat_m (n : nat) (m : M unit) : M unit :=
  match n with
  | O => ret tt
  | S n' => m >> repeat_m n' m
  end.

(** [enumerate(l)], counting from [start]. *)
Fixpoint enumerate_from {A} (start : nat) (l : list A) : list (nat * A) :=
  match l with
  | [] => []
  | x :: l' => (start, x) :: enumerate_from (S start) l'
  end.

Definition enumerate {A} (l : list A) : list (nat * A) := enumerate_from 0 l.

Definition print (l : line) : M unit := log (EvPrint l).

(** [str] on the integers bench.py formats. *)
Definition str_Z (z : Z) : string := NilZero.string_of_int (Z.to_int z).
Definition str_nat (n : nat) : string := NilZero.string_of_uint (Nat.to_uint n).

(** ** bench.py *)

Section Bench.

Context (E : Env).

(** Module-level constant of bench.py. *)
Definition log_file : string := "convolutions.log".

(** The two errors Python itself raises in this code. *)
Definition UnboundLocalError (name : string) : exn :=
  Exception "UnboundLocalError" name.
Definition IndexError (what : string) : exn := Exception "IndexError" what.
Definition KeyError (k : string) : exn := Exception "KeyError" k.

(** [np.random.random(s)]: a fresh draw of float64 numbers. *)
Definition np_random (s : shape) : M ndarray := fun w =>
  (Ok (NdArray s "float64" (CRandom (draws w))),
   World (trace w ++ [EvRandom s]) (heap w) (S (draws w))).

(** [tvm.nd.array(a, ctx)]: a new device buffer holding a copy of [a]. *)
Definition tvm_nd_array (a : ndarray) (ctx : string) : M buffer := fun w =>
  match nd_array E (trace w) a ctx with
  | Ok _ => (Ok (length (heap w)),
             World (trace w ++ [EvNdArray a ctx]) (heap w ++ [a]) (draws w))
  | Raise e => (Raise e, emit (EvNdArray a ctx) w)
  end.

(** [b.asnumpy()]: what the device buffer holds now. *)
Definition read_buffer (w : world) (b : buffer) : ndarray :=
  default (NdArray [] "" CZeros) (heap w !! b).

Definition asnumpy (b : buffer) : M ndarray := fun w => (Ok (read_buffer w b), w).

(** [b.dtype] *)
Definition buffer_dtype (b : buffer) : M string := fun w =>
  (Ok (nd_dtype (read_buffer w b)), w).

(** A kernel writes its result into the output buffer; the buffer keeps its
    shape and element type. *)
Definition overwrite (c : content) (a : ndarray) : ndarray :=
  NdArray (nd_shape a) (nd_dtype a) c.

Definition store_output (o : buffer) (c : content) (w : world) : world :=
  World (trace w) (alter (overwrite c) o (heap w)) (draws w).

(** [f(tvm_input, tvm_filter, tvm_output)] *)
Definition invoke_kernel (f : module) (i fl o : buffer) : M unit := fun w =>
  match invoke E (trace w) f i fl o with
  | Ok c => (Ok tt, store_output o c (emit (EvInvoke f i fl o) w))
  | Raise e => (Raise e, emit (EvInvoke f i fl o) w)
  end.

(** [timer(tvm_input, tvm_filter, tvm_output).mean] *)
Definition call_timer (f : module) (i fl o : buffer) : M cost := fun w =>
  match timer E (trace w) f i fl o with
  | Ok (c, out) => (Ok c, store_output o out (emit (EvTimer f i fl o) w))
  | Raise e => (Raise e, emit (EvTimer f i fl o) w)
  end.

(** *** build_and_run (lines 42-106) *)

Definition config_fields (target dt layout : string) (stride pad : Z)
    (input_holder filter_holder : tensor) : list (string * field_value) :=
  [("target", VStr target); ("dtype", VStr dt); ("layout", VStr layout);
   ("stride", VInt stride); ("pad", VInt pad);
   ("input_shape", VShape (t_shape input_holder));
   ("filter_shape", VShape (t_shape filter_holder))].

(** Line 65: "{0}--target: {1}, dtype: {2}, layout: {3}, stride: {4},
    pad: {5}, input_shape: {6}, filter_shape: {7} -> failed" *)
Definition failed_line (phase target dt layout : string) (stride pad : Z)
    (input_holder filter_holder : tensor) : line :=
  LFormat phase
    (config_fields target dt layout stride pad input_holder filter_holder)
    (VStr "failed").

(** Line 88: the same fields, then "ops: {8} -> {9}" with the cost. *)
Definition cost_line (phase target dt layout : string) (stride pad : Z)
    (input_holder filter_holder : tensor) (ops : Z) (c : cost) : line :=
  LFormat phase
    (config_fields target dt layout stride pad input_holder filter_holder
       ++ [("ops", VInt ops)])
    (VCost c).

(** [util.tempdir().relpath(so_name)] *)
Definition temp_relpath (so_name : string) : M string := fun w =>
  (Ok (tempdir E (trace w) +:+ "/" +:+ so_name), w).

(** Lines 72-78, "Upload code". *)
Definition upload_code (f : module) (f_name : string)
    (remote : option remote_session) : M module :=
  match remote with
  | Some r =>
      let so_name := f_name +:+ ".so" in
      path_so <- temp_relpath so_name ;
      call (EvExport f path_so) (fun h => export_library E h f path_so) >>
      call (EvUpload path_so) (fun h => upload E h r path_so) >>
      call (EvLoadModule so_name) (fun h => load_module E h r so_name)
  | None => ret f
  end.

(** Lines 81-82, "Warmup runs". *)
Definition warmup_runs (f : module) (warmup : Z)
    (tvm_input tvm_filter tvm_output : buffer) : M unit :=
  repeat_m (Z.to_nat warmup) (invoke_kernel f tvm_input tvm_filter tvm_output).

(** Lines 85-86, "Evaluate runs". *)
Definition evaluate_runs (f : module) (ctx : string) (run : Z)
    (tvm_input tvm_filter tvm_output : buffer) : M cost :=
  call (EvTimeEvaluator f (entry_name f) ctx run)
       (fun h => time_evaluator E h f (entry_name f) ctx run) >>
  call_timer f tvm_input tvm_filter tvm_output.

(** Lines 95-106, "Test correctness by comparing to caffe2 results". *)
Definition check_correctness (phase : string)
    (input_channel output_channel kernel stride pad : Z) (layout : string)
    (tvm_input tvm_filter tvm_output : buffer) : M unit :=
  i <- asnumpy tvm_input ;
  fl <- asnumpy tvm_filter ;
  o <- asnumpy tvm_output ;
  dt <- buffer_dtype tvm_input ;
  let args :=
    CheckArgs input_channel output_channel kernel stride pad i fl o dt layout
      (if String.eqb phase "depthwise" then true else false) in
  call (EvCheck args) (fun h => test_correctness E h args).

(** The [else] block of the build [try] (lines 71-106). *)
Definition run_built (f : module) (f_name phase : string)
    (input_holder filter_holder : tensor)
    (kernel input_channel output_channel stride pad : Z) (layout : string)
    (tvm_input tvm_filter tvm_output : buffer) (ctx target : string)
    (warmup run ops : Z) (remote : option remote_session) : M unit :=
  f <- upload_code f f_name remote ;
  warmup_runs f warmup tvm_input tvm_filter tvm_output >>
  c <- evaluate_runs f ctx run tvm_input tvm_filter tvm_output ;
  dt <- buffer_dtype tvm_input ;
  print (cost_line phase target dt layout stride pad
           input_holder filter_holder ops c) >>
  check_correctness phase input_channel output_channel kernel stride pad
    layout tvm_input tvm_filter tvm_output.

(** Lines 52-53. *)
Definition f_name_of (idx : nat) (phase : string)
    (kernel space input_channel output_channel : Z) : string :=
  str_nat idx +:+ "_" +:+ phase +:+ "_" +:+ str_Z kernel +:+ "_"
  +:+ str_Z space +:+ "_" +:+ str_Z input_channel +:+ "_"
  +:+ str_Z output_channel.

Definition build_and_run (phase : string) (idx : nat)
    (input_holder filter_holder : tensor) (kernel space : Z)
    (input_channel output_channel : Z)
    (stride pad : Z) (layout : string)
    (tvm_input tvm_filter tvm_output : buffer)
    (ctx : string) (ts : schedule) (conv : tensor)
    (target : string) (target_host : option string)
    (warmup run ops : Z)
    (remote : option remote_session) : M unit :=
  with_ctx CtxBuildConfig (
    let f_name := f_name_of idx phase kernel space input_channel
                    output_channel in
    let args := [input_holder; filter_holder; conv] in
    try_except_else
      (call (EvBuild ts args target target_host f_name)
            (fun h => tvm_build E h ts args target target_host f_name))
      (fun e =>
         print (LExn e) >>
         dt <- buffer_dtype tvm_input ;
         print (failed_line phase target dt layout stride pad
                  input_holder filter_holder))
      (fun f =>
         run_built f f_name phase input_holder filter_holder
           kernel input_channel output_channel stride pad layout
           tvm_input tvm_filter tvm_output ctx target
           warmup run ops remote)).

(** *** get_conv_ts (lines 109-155) *)

(** Lines 117-120. *)
Definition output_type (dtype : data_type) : string :=
  if String.eqb (tvm_type dtype) "int8" then "int32" else tvm_type dtype.

Definition topi_op (c : topi_call) : M tensor :=
  call (EvTopi c) (fun h => topi_nn E h c).

Definition topi_schedule (fn : sched_fn) (outs : list tensor) : M schedule :=
  call (EvSchedule fn outs) (fun h => topi_generic E h fn outs).

Definition get_conv_ts (input_holder filter_holder : tensor)
    (stride pad : Z) (layout : string) (dtype : data_type)
    (depthwise : bool) : M (tensor * schedule) :=
  log (EvGetConvTs layout dtype depthwise) >>
  let output_type := output_type dtype in
  if negb depthwise then
    conv <- topi_op (Conv2d input_holder filter_holder (stride, stride)
                       (pad, pad) layout output_type) ;
    if String.eqb layout "NCHW" then
      ts <- topi_schedule schedule_conv2d_nchw [conv] ; ret (conv, ts)
    else if String.eqb layout "NHWC" then
      ts <- topi_schedule schedule_conv2d_nhwc [conv] ; ret (conv, ts)
    else if String.eqb layout "HWCN" then
      ts <- topi_schedule schedule_conv2d_hwcn [conv] ; ret (conv, ts)
    else raise (UnboundLocalError "ts")
  else
    if String.eqb layout "NCHW" then
      conv <- topi_op (DepthwiseConv2dNchw input_holder filter_holder
                         (stride, stride) pad output_type) ;
      ts <- topi_schedule schedule_depthwise_conv2d_nchw [conv] ;
      ret (conv, ts)
    else if String.eqb layout "NHWC" then
      conv <- topi_op (DepthwiseConv2dNhwc input_holder filter_holder
                         (stride, stride) pad output_type) ;
      ts <- topi_schedule schedule_depthwise_conv2d_nhwc [conv] ;
      ret (conv, ts)
    else if String.eqb layout "HWCN" then
      conv <- topi_op (DepthwiseConv2dHwcn input_holder filter_holder
                         (stride, stride) pad output_type) ;
      ts <- topi_schedule schedule_depthwise_conv2d_hwcn [conv] ;
      ret (conv, ts)
    else raise (UnboundLocalError "conv").

(** *** bench_tvm (lines 158-251) *)

Definition skip_fields (target dt layout : string)
    (input_holder filter_holder : tensor) : list (string * field_value) :=
  [("target", VStr target); ("dtype", VStr dt); ("layout", VStr layout);
   ("input_shape", VShape (t_shape input_holder));
   ("filter_shape", VShape (t_shape filter_holder))].

(** Line 201: "standard--target: {0}, dtype: {1}, layout: {2},
    input_shape: {3}, filter_shape: {4} -> schedule skip" *)
Definition schedule_skip_line (target layout : string)
    (input_holder filter_holder : tensor) : line :=
  LFormat "standard"
    (skip_fields target (t_dtype input_holder) layout
       input_holder filter_holder)
    (VStr "schedule skip").

(** Line 245: "{0}--target: {1}, dtype: {2}, layout: {3}, input_shape: {4},
    filter_shape: {5} -> run skip" *)
Definition run_skip_line (phase target layout : string)
    (input_holder filter_holder : tensor) : line :=
  LFormat phase
    (skip_fields target (t_dtype input_holder) layout
       input_holder filter_holder)
    (VStr "run skip").

(** [get_const_tuple(conv.shape)[k]] with [k] chosen by the layout
    (lines 219-224); another layout leaves [output_space] unbound. *)
Definition output_space_of (layout : string) (conv : tensor) : M Z :=
  let index (k : nat) : M Z :=
    match t_shape conv !! k with
    | Some d => ret d
    | None => raise (IndexError "tuple index out of range")
    end in
  if String.eqb layout "NCHW" then index 2%nat
  else if String.eqb layout "NHWC" then index 1%nat
  else if String.eqb layout "HWCN" then index 0%nat
  else raise (UnboundLocalError "output_space").

(** Lines 209-230 of the inner [try] block: the three device buffers and
    the operation count. *)
Definition bind_buffers (wl : workload) (input_data filter_data : ndarray)
    (layout : string) (dtype : data_type) (ctx : string) (conv : tensor)
    : M (buffer * buffer * buffer * Z) :=
  tvm_input <- tvm_nd_array (astype input_data (np_type dtype)) ctx ;
  tvm_filter <- tvm_nd_array (astype filter_data (np_type dtype)) ctx ;
  tvm_output <- tvm_nd_array (np_zeros (t_shape conv) (t_dtype conv)) ctx ;
  output_space <- output_space_of layout conv ;
  ops <- lift (get_num_ops E output_space (input_channel wl)
                 (output_channel wl) (kernel wl) (depthwise wl)) ;
  ret (tvm_input, tvm_filter, tvm_output, ops).

(** The inner [try] block, lines 209-241. *)
Definition bind_and_run (phase : string) (idx : nat) (wl : workload)
    (input_holder filter_holder : tensor) (input_data filter_data : ndarray)
    (layout : string) (dtype : data_type) (ctx : string)
    (ts : schedule) (conv : tensor)
    (target : string) (target_host : option string)
    (remote : option remote_session) : M unit :=
  '(tvm_input, tvm_filter, tvm_output, ops) <-
     bind_buffers wl input_data filter_data layout dtype ctx conv ;
  build_and_run phase idx input_holder filter_holder
    (kernel wl) (space wl) (input_channel wl) (output_channel wl)
    (stride wl) (pad wl) layout
    tvm_input tvm_filter tvm_output
    ctx ts conv target target_host
    (warmup wl) (run wl) ops remote.

(** The scope around operator construction, line 193. *)
Definition history_scope (key sched : string) : context :=
  let log_name := "../configs/" +:+ key +:+ "." +:+ log_file in
  if String.eqb sched "manual" then CtxHistory log_name else CtxDummy.

(** The [try] statement of lines 195-251: construct the operator and its
    schedule, then bind the buffers, build and run.  Both handlers print and
    go on to the next workload. *)
Definition schedule_and_run (phase : string) (idx : nat) (wl : workload)
    (input_holder filter_holder : tensor) (input_data filter_data : ndarray)
    (layout : string) (dtype : data_type) (ctx : string)
    (target : string) (target_host : option string)
    (remote : option remote_session) : M unit :=
  try_except_else
    (get_conv_ts input_holder filter_holder (stride wl) (pad wl)
       layout dtype (depthwise wl))
    (fun e =>
       print (LExn e) >>
       print (schedule_skip_line target layout input_holder filter_holder))
    (fun '(conv, ts) =>
       try_except_else
         (bind_and_run phase idx wl input_holder filter_holder
            input_data filter_data layout dtype ctx ts conv
            target target_host remote)
         (fun e =>
            print (LExn e) >>
            print (run_skip_line phase target layout
                     input_holder filter_holder))
         (fun _ => ret tt)).

(** The body of the loop over the workloads, lines 171-251.  [key] is the
    module-level variable of that name, read when the body runs. *)
Definition bench_workload (key : string)
    (target : string) (target_host : option string) (ctx : string)
    (dtype : data_type) (layout : string)
    (remote : option remote_session) (sched : string)
    (idx : nat) (wl : workload) : M unit :=
  let phase := if depthwise wl then "depthwise" else "standard" in
  '(input_shape, filter_shape) <-
     lift (get_input_and_filter_shape E layout (space wl) (input_channel wl)
             (output_channel wl) (kernel wl) (depthwise wl)) ;
  let input_holder := Tensor input_shape (tvm_type dtype) in
  let filter_holder := Tensor filter_shape (tvm_type dtype) in
  input_data <- np_random input_shape ;
  filter_data <- np_random filter_shape ;
  with_ctx (history_scope key sched)
    (with_ctx (CtxTarget target)
       (schedule_and_run phase idx wl input_holder filter_holder
          input_data filter_data layout dtype ctx target target_host remote)).

(** The loop of line 170 over the numbered workloads. *)
Definition workload_loop (key target : string)
    (target_host : option string) (ctx : string) (dtype : data_type)
    (layout : string) (remote : option remote_session) (sched : string)
    (l : list (nat * workload)) : M unit :=
  for_each
    (fun '(idx, wl) =>
       bench_workload key target target_host ctx dtype layout remote
         sched idx wl) l.

Definition bench_tvm (key : string) (arch tgt : string) (dtype : data_type)
    (layout : string) (workloads : list workload)
    (remote : option remote_session) (sched : string) : M unit :=
  log (EvBenchTvm arch tgt dtype layout workloads remote sched) >>
  '(target, target_host, ctx) <- lift (config_arch E tgt arch sched remote) ;
  match target with
  | None => ret tt
  | Some target =>
      workload_loop key target target_host ctx dtype layout remote sched
        (enumerate workloads)
  end.

(** *** The module level and the main block (lines 30-34, 254-295) *)

Definition environ_get (environ : gmap string string) (k : string) : M string :=
  match environ !! k with
  | Some v => ret v
  | None => raise (KeyError k)
  end.

Definition argv_get (argv : list string) (i : nat) : M string :=
  match argv !! i with
  | Some v => ret v
  | None => raise (IndexError "list index out of range")
  end.

(** One cell of the sweep, lines 288-295: the arguments are evaluated left
    to right, then bench_tvm is called. *)
Definition sweep_cell (key arch : string) (remote : option remote_session)
    (target dtype layout workloads sched : string) : M unit :=
  dt <- lift (get_data_type E dtype) ;
  wls <- lift (get_workloads E workloads) ;
  bench_tvm key arch target dt layout wls remote sched.

(** Lines 280-295. *)
Definition sweep (key arch : string) (remote : option remote_session) : M unit :=
  for_each (fun target =>
    for_each (fun dtype =>
      for_each (fun layout =>
        for_each (fun workloads =>
          for_each (fun sched =>
            sweep_cell key arch remote target dtype layout workloads sched)
            ["auto"; "manual"])
          ["caffe2_depthwise"; "caffe2_standard"; "mobilenet"])
        ["NCHW"; "NHWC"; "HWCN"])
      ["int8"; "float"])
    ["cpu"].

(** Running [python bench.py ...] with the given environment variables and
    [sys.argv]. *)
Definition program (environ : gmap string string) (argv : list string) : M unit :=
  (* lines 31-34 *)
  tracker_host <- environ_get environ "TVM_TRACKER_HOST" ;
  port <- environ_get environ "TVM_TRACKER_PORT" ;
  tracker_port <- lift (py_int E port) ;
  let key := "android" in
  (* lines 255-262 *)
  arch <- argv_get argv 1 ;
  mode <- argv_get argv 2 ;
  '(key, remote) <-
     (if String.eqb mode "remote" then
        key <- argv_get argv 3 ;
        tracker <- call (EvConnectTracker tracker_host tracker_port)
                     (fun h => connect_tracker E h tracker_host tracker_port) ;
        remote <- call (EvRequest key) (fun h => request E h tracker key) ;
        ret (key, Some remote)
      else ret (key, None)) ;
  (* lines 264-295 *)
  if (4 <? length argv)%nat then
    target <- argv_get argv 4 ;
    a5 <- argv_get argv 5 ;
    dtype <- lift (get_data_type E a5) ;
    layout <- argv_get argv 6 ;
    a7 <- argv_get argv 7 ;
    workloads <- lift (get_workloads E a7) ;
    sched <- argv_get argv 8 ;
    bench_tvm key arch target dtype layout workloads remote sched
  else
    sweep key arch remote.

End Bench.

Definition initial : world := World [] [] 0.

(** ** A concrete environment

    A small world to run the driver in, for the examples: every collaborator
    answers, unless its stage is listed as failing. *)

Inductive stage :=
| StTarget | StShapes | StOperator | StSchedule | StAlloc | StOps | StBuild
| StExport | StUpload | StLoad | StInvoke | StTimeEvaluator | StTimer
| StCheck | StConnect.

Definition stage_eqb (a b : stage) : bool :=
  match a, b with
  | StTarget, StTarget | StShapes, StShapes | StOperator, StOperator
  | StSchedule, StSchedule | StAlloc, StAlloc | StOps, StOps
  | StBuild, StBuild | StExport, StExport | StUpload, StUpload
  | StLoad, StLoad | StInvoke, StInvoke
  | StTimeEvaluator, StTimeEvaluator | StTimer, StTimer
  | StCheck, StCheck | StConnect, StConnect => true
  | _, _ => false
  end.

Definition failing (faults : list stage) (s : stage) : bool :=
  existsb (stage_eqb s) faults.

Definition answer {A} (faults : list stage) (s : stage) (what : string)
    (a : A) : result A :=
  if failing faults s then Raise (Exception "RuntimeError" what) else Ok a.

(** Modelled from the spec: utils.get_input_and_filter_shape is not part of
    the sources.  Scenario A fixes the NCHW shapes of a dense convolution,
    input (1, C_in, S, S) and filter (C_out, C_in, K, K); the other layouts
    permute the same axes. *)
Definition demo_shapes (layout : string) (space ic oc k : Z) (dw : bool)
    : shape * shape :=
  if String.eqb layout "NHWC" then
    ([1; space; space; ic], if dw then [k; k; ic; 1] else [k; k; ic; oc])
  else if String.eqb layout "HWCN" then
    ([space; space; ic; 1], if dw then [k; k; ic; 1] else [k; k; ic; oc])
  else
    ([1; ic; space; space], if dw then [ic; 1; k; k] else [oc; ic; k; k]).

Definition topi_input (c : topi_call) : tensor :=
  match c with
  | Conv2d i _ _ _ _ _ | DepthwiseConv2dNchw i _ _ _ _
  | DepthwiseConv2dNhwc i _ _ _ _ | DepthwiseConv2dHwcn i _ _ _ _ => i
  end.

Definition topi_out_dtype (c : topi_call) : string :=
  match c with
  | Conv2d _ _ _ _ _ d | DepthwiseConv2dNchw _ _ _ _ d
  | DepthwiseConv2dNhwc _ _ _ _ d | DepthwiseConv2dHwcn _ _ _ _ d => d
  end.

(** Modelled from the spec: workloads.get_workloads is not part of the
    sources; the workload sets are plain lists of convolution problems.  The
    first entries are those of scenarios C and A. *)
Definition demo_workloads (name : string) : list workload :=
  if String.eqb name "caffe2_depthwise" then
    [Workload 56 32 32 3 1 2 1 2 true]
  else if String.eqb name "caffe2_standard" then
    [Workload 56 32 64 3 1 1 1 2 false; Workload 28 64 64 1 0 1 0 1 false]
  else
    [Workload 112 32 32 3 1 1 2 3 true; Workload 112 32 64 1 0 1 2 3 false].

(** [int] on a decimal numeral. *)
Definition demo_int (s : string) : result Z :=
  match NilZero.int_of_string s with
  | Some i => Ok (Z.of_int i)
  | None => Raise (Exception "ValueError" s)
  end.

(** Modelled from the spec: the helpers data_type.get_data_type,
    utils.config_arch and utils.get_num_ops are not part of the sources.
    [config_arch] answers with a target for an architecture it knows and
    with [None] as target for one it does not (section 4.1); the fault
    [StTarget] stands for an unknown architecture.  The libraries succeed
    unless their stage is listed in [faults]; topi returns an operator of
    the requested [out_dtype]. *)
Definition demo_env (faults : list stage) : Env := {|
  get_data_type := fun s =>
    if String.eqb s "int8" then Ok (DataType "int8" "int8")
    else if String.eqb s "float" then Ok (DataType "float32" "float32")
    else Raise (Exception "ValueError" s);
  get_workloads := fun s => Ok (demo_workloads s);
  config_arch := fun tgt arch sched remote =>
    if failing faults StTarget then Ok (None, None, "")
    else Ok (Some "llvm", None, "cpu(0)");
  get_input_and_filter_shape := fun layout space ic oc k dw =>
    answer faults StShapes "shapes" (demo_shapes layout space ic oc k dw);
  get_num_ops := fun os ic oc k dw =>
    answer faults StOps "ops"
      (if dw then 2 * os * os * k * k * ic else 2 * os * os * k * k * ic * oc);
  py_int := demo_int;
  topi_nn := fun h c =>
    answer faults StOperator "operator"
      (Tensor (t_shape (topi_input c)) (topi_out_dtype c));
  topi_generic := fun h fn outs =>
    answer faults StSchedule "schedule" (Schedule (length h));
  nd_array := fun h a ctx => answer faults StAlloc "alloc" tt;
  tvm_build := fun h ts args target target_host name =>
    answer faults StBuild "build" (TvmModule name name);
  export_library := fun h f path => answer faults StExport "export" tt;
  tempdir := fun h => "/tmp/tvm";
  invoke := fun h f i fl o => answer faults StInvoke "invoke" (CKernel (length h));
  time_evaluator := fun h f entry ctx n =>
    answer faults StTimeEvaluator "time_evaluator" tt;
  timer := fun h f i fl o =>
    answer faults StTimer "timer" (Cost "0.001", CKernel (length h));
  connect_tracker := fun h host port =>
    answer faults StConnect "connect" (Tracker host port);
  request := fun h t key => Ok (Remote key);
  upload := fun h r path => answer faults StUpload "upload" tt;
  load_module := fun h r so_name =>
    answer faults StLoad "load" (TvmModule so_name so_name);
  test_correctness := fun h c => answer faults StCheck "mismatch" tt
|}.

Definition demo_environ : gmap string string :=
  list_to_map [("TVM_TRACKER_HOST", "0.0.0.0"); ("TVM_TRACKER_PORT", "9090")].

Definition float32 : data_type := DataType "float32" "float32".
Definition int8 : data_type := DataType "int8" "int8".

(** Scenario A and scenario C of the specification. *)
Definition scenario_a : workload := Workload 56 32 64 3 1 1 1 2 false.
Definition scenario_c : workload := Workload 56 32 32 3 1 2 1 2 true.


(** * The vocabulary of the statements *)

Definition count (p : event -> bool) (h : history) : nat :=
  length (List.filter p h).

Definition is_random (ev : event) : bool :=
  match ev with EvRandom _ => true | _ => false end.
Definition is_get_conv_ts (ev : event) : bool :=
  match ev with EvGetConvTs _ _ _ => true | _ => false end.
Definition is_bench_tvm (ev : event) : bool :=
  match ev with EvBenchTvm _ _ _ _ _ _ _ => true | _ => false end.
Definition is_build (ev : event) : bool :=
  match ev with EvBuild _ _ _ _ _ => true | _ => false end.
Definition is_check (ev : event) : bool :=
  match ev with EvCheck _ => true | _ => false end.
Definition is_invocation (ev : event) : bool :=
  match ev with EvInvoke _ _ _ _ | EvTimer _ _ _ _ => true | _ => false end.

(** [emits P m]: whatever the collaborators answer, [m] only appends events
    that satisfy [P] to the trace, and the random draws it makes are the
    [EvRandom] events among them. *)
Definition emits {A} (P : event -> Prop) (m : M A) : Prop :=
  forall w r w', m w = (r, w') ->
    exists seg, trace w' = trace w ++ seg /\ Forall P seg /\
                draws w' = (draws w + count is_random seg)%nat.

(** The events a run from [w] to [w'] appended. *)
Definition appended (w w' : world) : history :=
  drop (length (trace w)) (trace w').

(** Shape and element type of every device buffer. *)
Definition types_of (h : list ndarray) : list (shape * string) :=
  (fun a => (nd_shape a, nd_dtype a)) <$> h.

(** ** Which events each part of the driver can emit *)

(** Operator and schedule construction. *)
Inductive topi_event : event -> Prop :=
| te_topi c : topi_event (EvTopi c)
| te_schedule fn outs : topi_event (EvSchedule fn outs).

(** Binding the device buffers. *)
Inductive alloc_event : event -> Prop :=
| ae_nd_array a ctx : alloc_event (EvNdArray a ctx).

(** Upload, warmup and timing of a kernel that is invoked on the buffers
    [i], [fl] and [o]. *)
Inductive stage_event (i fl o : buffer) : event -> Prop :=
| se_export f p : stage_event i fl o (EvExport f p)
| se_upload p : stage_event i fl o (EvUpload p)
| se_load n : stage_event i fl o (EvLoadModule n)
| se_invoke f : stage_event i fl o (EvInvoke f i fl o)
| se_time_evaluator f n c k : stage_event i fl o (EvTimeEvaluator f n c k)
| se_timer f : stage_event i fl o (EvTimer f i fl o).

(** The [else] block of build_and_run: the stages, then the cost line and
    the correctness check. *)
Inductive run_event (phase target layout : string) (stride pad : Z)
    (ih fh : tensor) (i fl o : buffer) : event -> Prop :=
| re_stage ev :
    stage_event i fl o ev ->
    run_event phase target layout stride pad ih fh i fl o ev
| re_cost dt ops c :
    run_event phase target layout stride pad ih fh i fl o
      (EvPrint (cost_line phase target dt layout stride pad ih fh ops c))
| re_check c :
    chk_depthwise c = String.eqb phase "depthwise" ->
    run_event phase target layout stride pad ih fh i fl o (EvCheck c).

(** build_and_run as a whole. *)
Inductive build_event (phase target layout : string) (stride pad : Z)
    (ih fh : tensor) (i fl o : buffer) : event -> Prop :=
| be_run ev :
    run_event phase target layout stride pad ih fh i fl o ev ->
    build_event phase target layout stride pad ih fh i fl o ev
| be_enter : build_event phase target layout stride pad ih fh i fl o
    (EvEnter CtxBuildConfig)
| be_exit : build_event phase target layout stride pad ih fh i fl o
    (EvExit CtxBuildConfig)
| be_build ts args tg th name :
    build_event phase target layout stride pad ih fh i fl o
      (EvBuild ts args tg th name)
| be_exn e : build_event phase target layout stride pad ih fh i fl o
    (EvPrint (LExn e))
| be_failed dt :
    build_event phase target layout stride pad ih fh i fl o
      (EvPrint (failed_line phase target dt layout stride pad ih fh)).

(** One workload, from the first topi call to the last line printed. *)
Inductive workload_event (phase target layout : string) (stride pad : Z)
    (ih fh : tensor) : event -> Prop :=
| we_topi ev :
    topi_event ev -> workload_event phase target layout stride pad ih fh ev
| we_alloc ev :
    alloc_event ev -> workload_event phase target layout stride pad ih fh ev
| we_build i fl o ev :
    build_event phase target layout stride pad ih fh i fl o ev ->
    workload_event phase target layout stride pad ih fh ev
| we_exn e : workload_event phase target layout stride pad ih fh
    (EvPrint (LExn e))
| we_schedule_skip :
    workload_event phase target layout stride pad ih fh
      (EvPrint (schedule_skip_line target layout ih fh))
| we_run_skip :
    workload_event phase target layout stride pad ih fh
      (EvPrint (run_skip_line phase target layout ih fh)).

Create HintDb alphabet.
#[global] Hint Constructors topi_event alloc_event stage_event run_event
  build_event workload_event : alphabet.

(** ** Operator construction *)

(** The layouts [get_conv_ts] knows. *)
Definition supported (layout : string) : Prop :=
  layout = "NCHW" \/ layout = "NHWC" \/ layout = "HWCN".

Definition is_depthwise_call (c : topi_call) : bool :=
  match c with Conv2d _ _ _ _ _ _ => false | _ => true end.

(** topi's contract for its [out_dtype] argument: the operator it returns
    has that element type. *)
Definition honours_out_dtype (E : Env) : Prop :=
  forall h c t, topi_nn E h c = Ok t -> t_dtype t = topi_out_dtype c.

(** What one draw of [np.random.random] does to the world. *)
Definition drawn (s : shape) (w : world) : world :=
  World (trace w ++ [EvRandom s]) (heap w) (S (draws w)).

(** The world in which [bench_workload] calls [get_conv_ts]: both arrays
    drawn, both scopes entered. *)
Definition at_schedule (key sched target : string)
    (input_shape filter_shape : shape) (w : world) : world :=
  emit (EvEnter (CtxTarget target))
    (emit (EvEnter (history_scope key sched))
       (drawn filter_shape (drawn input_shape w))).

(** The world in which the loop body ends: both scopes left. *)
Definition leave_scopes (key sched target : string) (w : world) : world :=
  emit (EvExit (history_scope key sched)) (emit (EvExit (CtxTarget target)) w).

Definition phase_of (wl : workload) : string :=
  if depthwise wl then "depthwise" else "standard".

(** A line that reports a measured cost carries the [ops] field. *)
Definition is_cost_line (ev : event) : bool :=
  match ev with
  | EvPrint (LFormat _ fields _) =>
      existsb (fun kv => String.eqb (fst kv) "ops") fields
  | _ => false
  end.

(** An event that belongs to compiling, running or checking a kernel. *)
Definition is_outcome (ev : event) : bool :=
  is_build ev || is_invocation ev || is_check ev || is_cost_line ev.

(** ** Running a built kernel *)

(** Where the shared library of a remote run is written. *)
Definition so_name_of (f_name : string) : string := f_name +:+ ".so".
Definition so_path (E : Env) (f_name : string) (w : world) : string :=
  tempdir E (trace w) +:+ "/" +:+ so_name_of f_name.

(** [run_failure ... w e w']: starting in [w], right after [tvm.build]
    returned [f], one of the steps between the build and the cost line
    raises [e] and leaves the world [w'].  The steps are, in this order:
    [f.export_library], [remote.upload], [remote.load_module] (remote runs
    only), the warmup invocations, [f.time_evaluator], and the call of the
    timer. *)
Inductive run_failure (E : Env) (f : module) (f_name : string)
    (remote : option remote_session) (warmup run : Z) (ctx : string)
    (i fl o : buffer) (w : world) (e : exn) : world -> Prop :=
| export_fails r :
    remote = Some r ->
    export_library E (trace w) f (so_path E f_name w) = Raise e ->
    run_failure E f f_name remote warmup run ctx i fl o w e
      (emit (EvExport f (so_path E f_name w)) w)
| upload_fails r :
    remote = Some r ->
    let w1 := emit (EvExport f (so_path E f_name w)) w in
    export_library E (trace w) f (so_path E f_name w) = Ok tt ->
    upload E (trace w1) r (so_path E f_name w) = Raise e ->
    run_failure E f f_name remote warmup run ctx i fl o w e
      (emit (EvUpload (so_path E f_name w)) w1)
| load_fails r :
    remote = Some r ->
    let w1 := emit (EvExport f (so_path E f_name w)) w in
    let w2 := emit (EvUpload (so_path E f_name w)) w1 in
    export_library E (trace w) f (so_path E f_name w) = Ok tt ->
    upload E (trace w1) r (so_path E f_name w) = Ok tt ->
    load_module E (trace w2) r (so_name_of f_name) = Raise e ->
    run_failure E f f_name remote warmup run ctx i fl o w e
      (emit (EvLoadModule (so_name_of f_name)) w2)
| warmup_fails f' w1 w2 :
    upload_code E f f_name remote w = (Ok f', w1) ->
    warmup_runs E f' warmup i fl o w1 = (Raise e, w2) ->
    run_failure E f f_name remote warmup run ctx i fl o w e w2
| time_evaluator_fails f' w1 w2 :
    upload_code E f f_name remote w = (Ok f', w1) ->
    warmup_runs E f' warmup i fl o w1 = (Ok tt, w2) ->
    time_evaluator E (trace w2) f' (entry_name f') ctx run = Raise e ->
    run_failure E f f_name remote warmup run ctx i fl o w e
      (emit (EvTimeEvaluator f' (entry_name f') ctx run) w2)
| timer_fails f' w1 w2 :
    upload_code E f f_name remote w = (Ok f', w1) ->
    warmup_runs E f' warmup i fl o w1 = (Ok tt, w2) ->
    let w3 := emit (EvTimeEvaluator f' (entry_name f') ctx run) w2 in
    time_evaluator E (trace w2) f' (entry_name f') ctx run = Ok tt ->
    timer E (trace w3) f' i fl o = Raise e ->
    run_failure E f f_name remote warmup run ctx i fl o w e
      (emit (EvTimer f' i fl o) w3).

(** [m] leaves the shape and element type of every device buffer alone. *)
Definition keeps_types {A} (m : M A) : Prop :=
  forall w r w', m w = (r, w') -> types_of (heap w') = types_of (heap w).

(** The world in which [run_built] starts: the build scope entered and
    [tvm.build] called. *)
Definition at_build (ts : schedule) (args : list tensor) (target : string)
    (target_host : option string) (f_name : string) (w : world) : world :=
  emit (EvBuild ts args target target_host f_name)
    (emit (EvEnter CtxBuildConfig) w).

(** How the loop body ends once [run_built] has returned [r]: the build
    scope is left; an exception is printed with the run-skip line; the two
    outer scopes are left. *)
Definition after_run (key sched target phase layout : string)
    (ih fh : tensor) (r : result unit) (w : world) : world :=
  leave_scopes key sched target
    match r with
    | Ok _ => emit (EvExit CtxBuildConfig) w
    | Raise e =>
        emit (EvPrint (run_skip_line phase target layout ih fh))
          (emit (EvPrint (LExn e)) (emit (EvExit CtxBuildConfig) w))
    end.

(** ** Printed lines *)

Definition has_field (k : string) (l : line) : bool :=
  match l with
  | LFormat _ fields _ => existsb (fun kv => String.eqb (fst kv) k) fields
  | LExn _ => false
  end.

Definition labelled (phase : string) (l : line) : bool :=
  match l with
  | LFormat label _ _ => String.eqb label phase
  | LExn _ => false
  end.

(** The three lines that end in a fixed text report a failure; the fourth
    formatted line ends in the cost. *)
Definition tail_is (t : string) (l : line) : bool :=
  match l with
  | LFormat _ _ (VStr s) => String.eqb s t
  | _ => false
  end.

Definition is_failure_line (l : line) : bool :=
  match l with
  | LFormat _ _ (VStr _) => true
  | _ => false
  end.

Definition base_context (l : line) : bool :=
  forallb (fun k => has_field k l)
    ["target"; "dtype"; "layout"; "input_shape"; "filter_shape"].

Definition full_context (l : line) : bool :=
  base_context l && has_field "stride" l && has_field "pad" l.

(** Every failure line carries the full parameter set and the phase of the
    workload as its label. *)
Definition failures_fully_reported (phase : string) (h : history) : bool :=
  forallb (fun ev =>
             match ev with
             | EvPrint l =>
                 if is_failure_line l
                 then full_context l && labelled phase l
                 else true
             | _ => true
             end) h.

(** What the three failure lines do carry: target, element type, layout and
    the two shapes, all of them; stride, pad and the phase as label, the
    build-failure line; the phase as label but neither stride nor pad, the
    run-skip line; neither stride nor pad, the schedule-skip line. *)
Definition reported (phase : string) (l : line) : bool :=
  match l with
  | LExn _ => true
  | LFormat _ _ _ =>
      base_context l
      && (if tail_is "failed" l
          then has_field "stride" l && has_field "pad" l && labelled phase l
          else true)
      && (if tail_is "run skip" l
          then labelled phase l && negb (has_field "stride" l)
               && negb (has_field "pad" l)
          else true)
      && (if tail_is "schedule skip" l
          then negb (has_field "stride" l) && negb (has_field "pad" l)
          else true)
  end.

Definition prints_reported (phase : string) (ev : event) : Prop :=
  match ev with
  | EvPrint l => reported phase l = true
  | _ => True
  end.

(** ** The autotuning-history scope *)

Definition is_history_scope (c : context) : bool :=
  match c with CtxHistory _ => true | _ => false end.

Definition is_history_event (ev : event) : bool :=
  match ev with
  | EvEnter c | EvExit c => is_history_scope c
  | _ => false
  end.

(** Whether a history scope is open after [ev], given whether one was open
    before. *)
Definition history_after (active : bool) (ev : event) : bool :=
  match ev with
  | EvEnter c => if is_history_scope c then true else active
  | EvExit c => if is_history_scope c then false else active
  | _ => active
  end.

(** Each event with whether a history scope is open when it happens. *)
Fixpoint history_flags (active : bool) (h : history) : list (event * bool) :=
  match h with
  | [] => []
  | ev :: h' => (ev, active) :: history_flags (history_after active ev) h'
  end.

(** The history scope is open around operator and schedule construction
    and closed around compilation. *)
Definition history_around_construction_only (h : history) : bool :=
  forallb (fun p : event * bool =>
             if is_get_conv_ts (fst p) then snd p
             else if is_build (fst p) then negb (snd p)
             else true)
    (history_flags false h).

(** Constructing, compiling, invoking, timing and checking. *)
Definition is_pipeline (ev : event) : bool :=
  is_get_conv_ts ev || is_build ev || is_invocation ev || is_check ev.

(** ** The helpers outside the [try] scopes *)

(** [get_input_and_filter_shape] returns for every workload. *)
Definition shapes_total (E : Env) : Prop :=
  forall layout sp ic oc k dw,
    exists s, get_input_and_filter_shape E layout sp ic oc k dw = Ok s.

(** ** Random data *)

(** One generation of input and filter data for a whole configuration: no
    more than two draws in a call of [bench_tvm]. *)
Definition generated_once_per_configuration (h : history) : bool :=
  (count is_random h <=? 2)%nat.

(** ** The sweep *)





(** ** Scopes *)

Definition context_eqb (a b : context) : bool :=
  match a, b with
  | CtxHistory l, CtxHistory l' => String.eqb l l'
  | CtxDummy, CtxDummy => true
  | CtxTarget t, CtxTarget t' => String.eqb t t'
  | CtxBuildConfig, CtxBuildConfig => true
  | _, _ => false
  end.

(** The scopes that are open after [h], innermost first, given those open
    before; [None] if [h] leaves a scope that is not the innermost open
    one. *)
Fixpoint scopes_after (open : list context) (h : history)
    : option (list context) :=
  match h with
  | [] => Some open
  | EvEnter c :: h' => scopes_after (c :: open) h'
  | EvExit c :: h' =>
      match open with
      | c' :: open' =>
          if context_eqb c c' then scopes_after open' h' else None
      | [] => None
      end
  | _ :: h' => scopes_after open h'
  end.




(** ** Modules and transfers *)

(** The module an event runs or times. *)
Definition module_run (ev : event) : option module :=
  match ev with
  | EvInvoke f _ _ _ | EvTimer f _ _ _ | EvTimeEvaluator f _ _ _ => Some f
  | _ => None
  end.

Definition is_transfer (ev : event) : bool :=
  match ev with
  | EvExport _ _ | EvUpload _ | EvLoadModule _ => true
  | _ => false
  end.

(** ** Kernel names *)

Definition is_digit (c : Ascii.ascii) : bool :=
  existsb (Ascii.eqb c) (String.list_ascii_of_string "0123456789").

Fixpoint all_digits (s : string) : bool :=
  match s with
  | EmptyString => true
  | String c s' => is_digit c && all_digits s'
  end.

(** ** Layouts *)

(** The layout a schedule routine of topi is written for, and whether it
    schedules a depthwise operator: both are part of its name. *)
Definition sched_layout (fn : sched_fn) : string :=
  match fn with
  | schedule_conv2d_nchw | schedule_depthwise_conv2d_nchw => "NCHW"
  | schedule_conv2d_nhwc | schedule_depthwise_conv2d_nhwc => "NHWC"
  | schedule_conv2d_hwcn | schedule_depthwise_conv2d_hwcn => "HWCN"
  end.

Definition is_depthwise_sched (fn : sched_fn) : bool :=
  match fn with
  | schedule_depthwise_conv2d_nchw | schedule_depthwise_conv2d_nhwc
  | schedule_depthwise_conv2d_hwcn => true
  | _ => false
  end.

(** The layout an operator is constructed for: the [layout] argument of
    [conv2d], the suffix of the name of a depthwise constructor. *)
Definition call_layout (c : topi_call) : string :=
  match c with
  | Conv2d _ _ _ _ layout _ => layout
  | DepthwiseConv2dNchw _ _ _ _ _ => "NCHW"
  | DepthwiseConv2dNhwc _ _ _ _ _ => "NHWC"
  | DepthwiseConv2dHwcn _ _ _ _ _ => "HWCN"
  end.

(** A four-dimensional shape written in the order a layout name gives:
    one dimension for each of its letters N, C, H and W. *)
Fixpoint shape_in (layout : string) (n c h w : Z) : shape :=
  match layout with
  | EmptyString => []
  | String x layout' =>
      let letter := String x EmptyString in
      (if String.eqb letter "N" then n
       else if String.eqb letter "C" then c
       else if String.eqb letter "H" then h
       else w) :: shape_in layout' n c h w
  end.

(** ** The command line *)

(** The device key the driver works with: the fourth argument in remote
    mode, the module-level default otherwise. *)
Definition device_key (argv : list string) : option string :=
  match argv !! 2%nat with
  | Some mode =>
      if String.eqb mode "remote" then argv !! 3%nat else Some "android"
  | None => None
  end.

(** The file [apply_history_best] reads for a device key. *)
Definition history_log (key : string) : string :=
  "../configs/" +:+ key +:+ ".convolutions.log".

(** [get_input_and_filter_shape] returns for the workload. *)
Definition shaped (E : Env) (layout : string) (wl : workload) : Prop :=
  exists s, get_input_and_filter_shape E layout (space wl) (input_channel wl)
              (output_channel wl) (kernel wl) (depthwise wl) = Ok s.

(** [E] with another shape helper. *)
Definition with_shapes (E : Env)
    (shapes : string -> Z -> Z -> Z -> Z -> bool -> result (shape * shape))
    : Env := {|
  get_data_type := get_data_type E;
  get_workloads := get_workloads E;
  config_arch := config_arch E;
  get_input_and_filter_shape := shapes;
  get_num_ops := get_num_ops E;
  py_int := py_int E;
  topi_nn := topi_nn E;
  topi_generic := topi_generic E;
  nd_array := nd_array E;
  tvm_build := tvm_build E;
  export_library := export_library E;
  tempdir := tempdir E;
  invoke := invoke E;
  time_evaluator := time_evaluator E;
  timer := timer E;
  connect_tracker := connect_tracker E;
  request := request E;
  upload := upload E;
  load_module := load_module E;
  test_correctness := test_correctness E
|}.

(** A shape helper that has no shapes for 1x1 kernels. *)
Definition no_pointwise (layout : string) (space ic oc k : Z) (dw : bool)
    : result (shape * shape) :=
  if k =? 1 then Raise (Exception "ValueError" "kernel")
  else Ok (demo_shapes layout space ic oc k dw).

(** What distinguishes the events of a run on the module [f]: none of them
    transfers a library, and the module invoked or timed is [f]. *)
Definition runs_only (f : module) (ev : event) : Prop :=
  is_transfer ev = false /\ forall g, module_run ev = Some g -> g = f.

(** If [ev] enters an autotuning-history scope, the log it reads is the one
    of the device key the command line gives. *)
Definition history_entered_for (argv : list string) (ev : event) : Prop :=
  forall l, ev = EvEnter (CtxHistory l) ->
    exists key, device_key argv = Some key /\ l = history_log key.

(** ** The names of the compiled kernels *)

(** The function name [tvm.build] is given. *)
Definition build_name (ev : event) : option string :=
  match ev with EvBuild _ _ _ _ name => Some name | _ => None end.

Definition build_names (h : history) : list string := omap build_name h.

(** A build, if [ev] is one, is named for the workload number [idx]; for a
    workload number from [lo] on. *)
Definition builds_as (idx : nat) (ev : event) : Prop :=
  forall name, build_name ev = Some name ->
    exists phase k s ic oc, name = f_name_of idx phase k s ic oc.

Definition builds_from (lo : nat) (ev : event) : Prop :=
  forall name, build_name ev = Some name ->
    exists idx, (lo <= idx)%nat /\ builds_as idx ev.

(** The arguments of a call of [bench_tvm] are those of the command line,
    by position: architecture, mode, (device key,) target, element type,
    layout, workload set and schedule strategy. *)
Definition cell_of_argv (E : Env) (argv : list string) (ev : event) : Prop :=
  forall arch tgt dt layout wls remote sched,
    ev = EvBenchTvm arch tgt dt layout wls remote sched ->
    argv !! 1%nat = Some arch /\
    argv !! 4%nat = Some tgt /\
    (exists a, argv !! 5%nat = Some a /\ get_data_type E a = Ok dt) /\
    argv !! 6%nat = Some layout /\
    (exists a, argv !! 7%nat = Some a /\ get_workloads E a = Ok wls) /\
    argv !! 8%nat = Some sched /\
    (remote = None <-> argv !! 2%nat <> Some "remote").

(** * Proofs *)

(** ** The model at work *)

Example f_name_scenario_a :
  f_name_of 0 "standard" 3 56 32 64 = "0_standard_3_56_32_64".
Proof. reflexivity. Qed.

Example log_name_android :
  history_scope "android" "manual"
  = CtxHistory "../configs/android.convolutions.log".
Proof. reflexivity. Qed.

Example scenario_a_succeeds :
  let w := (bench_tvm (demo_env []) "android" "x86" "cpu" float32 "NCHW"
              [scenario_a] None "auto" initial).2 in
  count is_build (trace w) = 1%nat /\ count is_check (trace w) = 1%nat /\
  count is_cost_line (trace w) = 1%nat.
Proof. vm_compute. done. Qed.

Example scenario_b_is_skipped :
  let r := bench_tvm (demo_env []) "android" "x86" "cpu" float32 "NCWH"
             [scenario_a] None "auto" initial in
  r.1 = Ok tt /\ count is_build (trace r.2) = 0%nat /\
  count is_cost_line (trace r.2) = 0%nat.
Proof. vm_compute. done. Qed.

(** ** The monad *)

Lemma count_app p (h1 h2 : history) :
  count p (h1 ++ h2) = (count p h1 + count p h2)%nat.
Proof. unfold count. by rewrite List.filter_app, length_app. Qed.

Lemma count_none p (h : history) :
  Forall (fun ev => p ev = false) h -> count p h = 0%nat.
Proof.
  unfold count. induction 1 as [|ev h Hev _ IH]; simpl; [done|].
  by rewrite Hev.
Qed.

Lemma emits_impl {A} (P Q : event -> Prop) (m : M A) :
  (forall ev, P ev -> Q ev) -> emits P m -> emits Q m.
Proof.
  intros HPQ Hm w r w' Hrun.
  destruct (Hm w r w' Hrun) as (seg & Htr & Hall & Hd).
  exists seg. split_and!; [exact Htr| |exact Hd].
  eapply Forall_impl; eauto.
Qed.

Lemma emits_nothing {A} P (m : M A) :
  (forall w, exists r, m w = (r, w)) -> emits P m.
Proof.
  intros Hm w r w' Hrun. destruct (Hm w) as [r' Hr'].
  rewrite Hr' in Hrun. inversion Hrun; subst.
  exists []. rewrite app_nil_r.
  split_and!; [done|constructor|unfold count; simpl; lia].
Qed.

Lemma emits_one {A} P ev (m : M A) :
  P ev -> is_random ev = false ->
  (forall w, exists r w', m w = (r, w') /\ trace w' = trace w ++ [ev]
                          /\ draws w' = draws w) ->
  emits P m.
Proof.
  intros HP Hev Hm w r w' Hrun. destruct (Hm w) as (r' & w1 & Hr' & Ht & Hd).
  rewrite Hr' in Hrun. inversion Hrun; subst.
  exists [ev]. split_and!; [exact Ht|by constructor|].
  unfold count; simpl. rewrite Hev; simpl. lia.
Qed.

Lemma emits_ret {A} P (a : A) : emits P (ret a).
Proof. apply emits_nothing. intros w. by eexists. Qed.

Lemma emits_raise {A} P (e : exn) : emits P (@raise A e).
Proof. apply emits_nothing. intros w. by eexists. Qed.

Lemma emits_lift {A} P (r : result A) : emits P (lift r).
Proof. apply emits_nothing. intros w. by eexists. Qed.

Lemma emits_log P ev : P ev -> is_random ev = false -> emits P (log ev).
Proof.
  intros HP Hev. apply (emits_one P ev); auto.
  intros w. by eexists _, _.
Qed.

Lemma emits_call {A} P ev (answer : history -> result A) :
  P ev -> is_random ev = false -> emits P (call ev answer).
Proof.
  intros HP Hev. apply (emits_one P ev); auto.
  intros w. by eexists _, _.
Qed.

Lemma emits_bind {A B} P (m : M A) (k : A -> M B) :
  emits P m -> (forall a, emits P (k a)) -> emits P (bind m k).
Proof.
  intros Hm Hk w r w' Hrun. unfold bind in Hrun.
  destruct (m w) as [[a|e] w1] eqn:Hmw.
  - destruct (Hm _ _ _ Hmw) as (s1 & Ht1 & Hf1 & Hd1).
    destruct (Hk a _ _ _ Hrun) as (s2 & Ht2 & Hf2 & Hd2).
    exists (s1 ++ s2). split_and!.
    + by rewrite Ht2, Ht1, app_assoc.
    + by apply Forall_app.
    + rewrite count_app. lia.
  - inversion Hrun; subst. eauto.
Qed.

Lemma emits_try {A B} P (m : M A) (handler : exn -> M B) (els : A -> M B) :
  emits P m -> (forall e, emits P (handler e)) -> (forall a, emits P (els a)) ->
  emits P (try_except_else m handler els).
Proof.
  intros Hm Hh He w r w' Hrun. unfold try_except_else in Hrun.
  destruct (m w) as [[a|e] w1] eqn:Hmw;
    destruct (Hm _ _ _ Hmw) as (s1 & Ht1 & Hf1 & Hd1).
  - destruct (He a _ _ _ Hrun) as (s2 & Ht2 & Hf2 & Hd2).
    exists (s1 ++ s2). split_and!.
    + by rewrite Ht2, Ht1, app_assoc.
    + by apply Forall_app.
    + rewrite count_app. lia.
  - destruct (Hh e _ _ _ Hrun) as (s2 & Ht2 & Hf2 & Hd2).
    exists (s1 ++ s2). split_and!.
    + by rewrite Ht2, Ht1, app_assoc.
    + by apply Forall_app.
    + rewrite count_app. lia.
Qed.

Lemma emits_with {A} P c (body : M A) :
  P (EvEnter c) -> P (EvExit c) -> emits P body -> emits P (with_ctx c body).
Proof.
  intros Hin Hout Hb w r w' Hrun. unfold with_ctx in Hrun.
  destruct (body (emit (EvEnter c) w)) as [r1 w1] eqn:Hbw.
  inversion Hrun; subst.
  destruct (Hb _ _ _ Hbw) as (s & Ht & Hf & Hd). simpl in *.
  exists ([EvEnter c] ++ s ++ [EvExit c]). split_and!.
  - rewrite Ht. by rewrite <- !app_assoc.
  - repeat (apply Forall_app; split); auto.
  - rewrite !count_app. unfold count at 1 3. simpl. lia.
Qed.

Lemma emits_for_each {A} P (f : A -> M unit) (l : list A) :
  (forall x, emits P (f x)) -> emits P (for_each f l).
Proof.
  intros Hf. induction l as [|x l IH]; simpl.
  - apply emits_ret.
  - apply emits_bind; auto.
Qed.

Lemma emits_repeat P (n : nat) (m : M unit) :
  emits P m -> emits P (repeat_m n m).
Proof.
  intros Hm. induction n as [|n IH]; simpl.
  - apply emits_ret.
  - apply emits_bind; auto.
Qed.

(** A run seen from the trace it leaves. *)
Lemma appended_app (w w' : world) seg :
  trace w' = trace w ++ seg -> appended w w' = seg.
Proof. intros Ht. unfold appended. by rewrite Ht, drop_app_length. Qed.

Lemma emits_appended {A} P (m : M A) w r w' :
  emits P m -> m w = (r, w') -> Forall P (appended w w').
Proof.
  intros Hm Hrun. destruct (Hm _ _ _ Hrun) as (seg & Ht & Hf & _).
  by rewrite (appended_app _ _ _ Ht).
Qed.

(** ** The parts of the driver, one by one *)

Ltac emits_step :=
  first
    [ solve [auto with alphabet nocore]
    | reflexivity
    | apply emits_ret | apply emits_raise | apply emits_lift
    | apply emits_log | apply emits_call | apply emits_bind
    | apply emits_try | apply emits_with | apply emits_repeat
    | apply emits_for_each
    | match goal with
      | |- forall _, _ => intros ?
      | |- emits _ (match ?x with _ => _ end) => destruct x
      end ].

Ltac emits_auto := repeat emits_step; eauto with alphabet.

(** Case analysis on the alphabet an event belongs to. *)
Ltac invert_event :=
  repeat match goal with
         | H : workload_event _ _ _ _ _ _ _ _ |- _ => inversion H; subst; clear H
         | H : build_event _ _ _ _ _ _ _ _ _ _ _ |- _ =>
             inversion H; subst; clear H
         | H : run_event _ _ _ _ _ _ _ _ _ _ _ |- _ =>
             inversion H; subst; clear H
         | H : stage_event _ _ _ _ |- _ => inversion H; subst; clear H
         | H : topi_event _ |- _ => inversion H; subst; clear H
         | H : alloc_event _ |- _ => inversion H; subst; clear H
         end.

(** A workload's events past the entry of [get_conv_ts] contain no draw,
    no second entry, and no call of [bench_tvm]. *)
Lemma workload_event_quiet phase target layout stride pad ih fh ev :
  workload_event phase target layout stride pad ih fh ev ->
  is_random ev = false /\ is_get_conv_ts ev = false /\
  is_bench_tvm ev = false.
Proof. intros H. by invert_event. Qed.


Section Parts.

Context (E : Env).

Lemma emits_asnumpy P b : emits P (asnumpy b).
Proof. apply emits_nothing. intros w. by eexists. Qed.

Lemma emits_buffer_dtype P b : emits P (buffer_dtype b).
Proof. apply emits_nothing. intros w. by eexists. Qed.

Lemma emits_temp_relpath P n : emits P (temp_relpath E n).
Proof. apply emits_nothing. intros w. by eexists. Qed.

Lemma emits_tvm_nd_array P a ctx :
  P (EvNdArray a ctx) -> emits P (tvm_nd_array E a ctx).
Proof.
  intros HP. apply (emits_one P (EvNdArray a ctx)); auto.
  intros w. unfold tvm_nd_array.
  destruct (nd_array E (trace w) a ctx); by eexists _, _.
Qed.

Lemma emits_invoke_kernel P f i fl o :
  P (EvInvoke f i fl o) -> emits P (invoke_kernel E f i fl o).
Proof.
  intros HP. apply (emits_one P (EvInvoke f i fl o)); auto.
  intros w. unfold invoke_kernel.
  destruct (invoke E (trace w) f i fl o); by eexists _, _.
Qed.

Lemma emits_call_timer P f i fl o :
  P (EvTimer f i fl o) -> emits P (call_timer E f i fl o).
Proof.
  intros HP. apply (emits_one P (EvTimer f i fl o)); auto.
  intros w. unfold call_timer.
  destruct (timer E (trace w) f i fl o) as [[c out]|e]; by eexists _, _.
Qed.

Lemma emits_np_random P s : P (EvRandom s) -> emits P (np_random s).
Proof.
  intros HP w r w' Hrun. inversion Hrun; subst; simpl.
  exists [EvRandom s]. split_and!; [done|by constructor|].
  unfold count; simpl. lia.
Qed.

Hint Resolve emits_asnumpy emits_buffer_dtype emits_temp_relpath
  emits_tvm_nd_array emits_invoke_kernel emits_call_timer
  emits_np_random : alphabet.

Lemma emits_upload_code i fl o f f_name remote :
  emits (stage_event i fl o) (upload_code E f f_name remote).
Proof. unfold upload_code. emits_auto. Qed.

Lemma emits_warmup_runs f n i fl o :
  emits (stage_event i fl o) (warmup_runs E f n i fl o).
Proof. unfold warmup_runs. emits_auto. Qed.

Lemma emits_evaluate_runs f ctx n i fl o :
  emits (stage_event i fl o) (evaluate_runs E f ctx n i fl o).
Proof. unfold evaluate_runs. emits_auto. Qed.

Lemma emits_check_correctness phase target layout stride pad ih fh
    ic oc k i fl o :
  emits (run_event phase target layout stride pad ih fh i fl o)
    (check_correctness E phase ic oc k stride pad layout i fl o).
Proof.
  unfold check_correctness. emits_auto.
  apply re_check; simpl. by destruct (String.eqb phase "depthwise").
Qed.

Lemma emits_run_built f f_name phase ih fh k ic oc stride pad layout i fl o
    ctx target wu rn ops remote :
  emits (run_event phase target layout stride pad ih fh i fl o)
    (run_built E f f_name phase ih fh k ic oc stride pad layout i fl o
       ctx target wu rn ops remote).
Proof.
  unfold run_built, print.
  apply emits_bind.
  { eapply emits_impl; [|apply emits_upload_code]. eauto with alphabet. }
  intros f'. apply emits_bind.
  { eapply emits_impl; [|apply emits_warmup_runs]. eauto with alphabet. }
  intros _. apply emits_bind.
  { eapply emits_impl; [|apply emits_evaluate_runs]. eauto with alphabet. }
  intros c. apply emits_bind; [apply emits_buffer_dtype|].
  intros dt. apply emits_bind.
  { apply emits_log; [by constructor|reflexivity]. }
  intros _. apply emits_check_correctness.
Qed.

Lemma emits_build_and_run phase idx ih fh k sp ic oc stride pad layout i fl o
    ctx ts conv target th wu rn ops remote :
  emits (build_event phase target layout stride pad ih fh i fl o)
    (build_and_run E phase idx ih fh k sp ic oc stride pad layout i fl o
       ctx ts conv target th wu rn ops remote).
Proof.
  unfold build_and_run, print.
  apply emits_with; [auto with alphabet..|].
  apply emits_try; [emits_auto..|].
  intros f. eapply emits_impl; [|apply emits_run_built]. eauto with alphabet.
Qed.

Lemma emits_output_space_of P layout conv : emits P (output_space_of layout conv).
Proof.
  unfold output_space_of.
  repeat match goal with
         | |- emits _ (if ?b then _ else _) => destruct b
         | |- emits _ (match ?x with _ => _ end) => destruct x
         end; emits_auto.
Qed.

Lemma emits_bind_buffers wl id fd layout dtype ctx conv :
  emits alloc_event (bind_buffers E wl id fd layout dtype ctx conv).
Proof.
  unfold bind_buffers. emits_auto. apply emits_output_space_of.
Qed.

Lemma emits_bind_and_run phase idx wl ih fh id fd layout dtype ctx ts conv
    target th remote :
  emits (workload_event phase target layout (stride wl) (pad wl) ih fh)
    (bind_and_run E phase idx wl ih fh id fd layout dtype ctx ts conv
       target th remote).
Proof.
  unfold bind_and_run. apply emits_bind.
  - eapply emits_impl; [|apply emits_bind_buffers]. eauto with alphabet.
  - intros [[[i fl] o] ops].
    eapply emits_impl; [|apply emits_build_and_run]. eauto with alphabet.
Qed.

End Parts.

(** ** get_conv_ts *)

Section GetConvTs.

Context (E : Env).

Ltac run_cases H :=
  repeat (cbn in H;
          match type of H with
          | context [if ?b then _ else _] => destruct b eqn:?
          | context [match ?x with Ok _ => _ | Raise _ => _ end] =>
              destruct x eqn:?
          end).

Lemma get_conv_ts_trace ih fh s p layout dtype dw w r w' :
  get_conv_ts E ih fh s p layout dtype dw w = (r, w') ->
  exists rest,
    trace w' = trace w ++ EvGetConvTs layout dtype dw :: rest /\
    Forall topi_event rest /\
    heap w' = heap w /\ draws w' = draws w.
Proof.
  intros H.
  unfold get_conv_ts, bind, log, topi_op, topi_schedule, call, ret, raise in H.
  destruct dw; run_cases H; inversion H; subst; clear H; cbn;
    rewrite <- ?app_assoc; cbn;
    (eexists; split_and!;
     [reflexivity|repeat constructor|reflexivity|reflexivity]).
Qed.

(** For a supported layout the operator is constructed, dense or depthwise
    as asked, with the promoted element type as [out_dtype]. *)
Lemma get_conv_ts_operator ih fh s p layout dtype dw w :
  supported layout ->
  exists c rest,
    trace (get_conv_ts E ih fh s p layout dtype dw w).2
      = trace w ++ EvGetConvTs layout dtype dw :: EvTopi c :: rest /\
    topi_out_dtype c = output_type dtype /\
    is_depthwise_call c = dw.
Proof.
  intros [->|[->| ->]]; destruct dw;
    unfold get_conv_ts, bind, log, topi_op, topi_schedule, call, ret, raise;
    cbn;
    repeat match goal with
           | |- context [match ?x with Ok _ => _ | Raise _ => _ end] =>
               destruct x; cbn
           end;
    rewrite <- ?app_assoc; cbn;
    (eexists _, _; split_and!; [reflexivity|reflexivity|reflexivity]).
Qed.

Lemma get_conv_ts_dtype ih fh s p layout dtype dw w conv ts w' :
  honours_out_dtype E ->
  get_conv_ts E ih fh s p layout dtype dw w = (Ok (conv, ts), w') ->
  t_dtype conv = output_type dtype.
Proof.
  intros Hon H.
  unfold get_conv_ts, bind, log, topi_op, topi_schedule, call, ret, raise in H.
  destruct dw; run_cases H; inversion H; subst; clear H;
    match goal with
    | Ht : topi_nn E _ ?c = Ok _ |- _ => by rewrite (Hon _ _ _ Ht)
    end.
Qed.

(** Any other layout leaves [ts] (dense) or [conv] (depthwise) unbound:
    [get_conv_ts] raises, whatever topi does. *)
Lemma get_conv_ts_unsupported ih fh s p layout dtype dw w :
  ~ supported layout ->
  exists e w', get_conv_ts E ih fh s p layout dtype dw w = (Raise e, w').
Proof.
  intros Hns.
  assert (String.eqb layout "NCHW" = false) as H1
    by (apply String.eqb_neq; intros ->; apply Hns; left; reflexivity).
  assert (String.eqb layout "NHWC" = false) as H2
    by (apply String.eqb_neq; intros ->; apply Hns; right; left; reflexivity).
  assert (String.eqb layout "HWCN" = false) as H3
    by (apply String.eqb_neq; intros ->; apply Hns; right; right; reflexivity).
  unfold get_conv_ts, bind, log, topi_op, topi_schedule, call, ret, raise.
  rewrite H1, H2, H3.
  destruct dw; cbn.
  - by eexists _, _.
  - destruct (topi_nn E _ _); by eexists _, _.
Qed.

End GetConvTs.

(** ** One workload *)

Section Workload.

Context (E : Env).

Lemma bench_workload_unfold key target th ctx dtype layout remote sched idx wl
    w ishape fshape :
  get_input_and_filter_shape E layout (space wl) (input_channel wl)
    (output_channel wl) (kernel wl) (depthwise wl) = Ok (ishape, fshape) ->
  bench_workload E key target th ctx dtype layout remote sched idx wl w =
  let (r, w1) :=
    schedule_and_run E (phase_of wl) idx wl
      (Tensor ishape (tvm_type dtype)) (Tensor fshape (tvm_type dtype))
      (NdArray ishape "float64" (CRandom (draws w)))
      (NdArray fshape "float64" (CRandom (S (draws w))))
      layout dtype ctx target th remote
      (at_schedule key sched target ishape fshape w) in
  (r, leave_scopes key sched target w1).
Proof.
  intros Hs. unfold bench_workload, bind, lift. rewrite Hs. cbn.
  unfold with_ctx, at_schedule, leave_scopes, drawn, phase_of. cbn.
  by destruct (schedule_and_run E _ _ _ _ _ _ _ _ _ _ _ _ _ _).
Qed.

Lemma schedule_and_run_skip phase idx wl ih fh id fd layout dtype ctx target
    th remote w e w1 :
  get_conv_ts E ih fh (stride wl) (pad wl) layout dtype (depthwise wl) w
    = (Raise e, w1) ->
  schedule_and_run E phase idx wl ih fh id fd layout dtype ctx target th
    remote w
  = (Ok tt, emit (EvPrint (schedule_skip_line target layout ih fh))
              (emit (EvPrint (LExn e)) w1)).
Proof. intros H. unfold schedule_and_run, try_except_else. by rewrite H. Qed.

(** Both handlers swallow the exception: the [try] statement always
    completes.  Its first event is the entry of [get_conv_ts]. *)
Lemma schedule_and_run_trace phase idx wl ih fh id fd layout dtype ctx target
    th remote w r w' :
  schedule_and_run E phase idx wl ih fh id fd layout dtype ctx target th
    remote w = (r, w') ->
  r = Ok tt /\
  exists mid,
    trace w' = trace w ++ EvGetConvTs layout dtype (depthwise wl) :: mid /\
    Forall (workload_event phase target layout (stride wl) (pad wl) ih fh) mid /\
    draws w' = draws w.
Proof.
  intros H. unfold schedule_and_run, try_except_else in H.
  destruct (get_conv_ts E ih fh (stride wl) (pad wl) layout dtype
              (depthwise wl) w) as [[[conv ts]|e] w1] eqn:Hg.
  - destruct (get_conv_ts_trace _ _ _ _ _ _ _ _ _ _ _ Hg)
      as (rest & Ht & Hf & _ & Hd).
    destruct (bind_and_run E phase idx wl ih fh id fd layout dtype ctx ts
                conv target th remote w1) as [[[]|e] w2] eqn:Hb.
    + destruct (emits_bind_and_run E _ _ _ _ _ _ _ _ _ _ _ _ _ _ _ _ _ _ Hb)
        as (seg & Ht2 & Hf2 & Hd2).
      inversion H; subst. split; [done|]. exists (rest ++ seg). split_and!.
      * rewrite Ht2, Ht. by rewrite <- app_assoc.
      * apply Forall_app. split; [|done].
        eapply Forall_impl; [exact Hf|]. intros ev Hev. by apply we_topi.
      * rewrite Hd2, Hd, count_none; [lia|].
        eapply Forall_impl; [exact Hf2|].
        intros ev Hev. by apply workload_event_quiet in Hev as (? & _).
    + destruct (emits_bind_and_run E _ _ _ _ _ _ _ _ _ _ _ _ _ _ _ _ _ _ Hb)
        as (seg & Ht2 & Hf2 & Hd2).
      inversion H; subst; cbn. split; [done|].
      exists (rest ++ seg ++ [EvPrint (LExn e);
                              EvPrint (run_skip_line phase target layout ih fh)]).
      split_and!.
      * rewrite Ht2, Ht. by rewrite <- !app_assoc.
      * repeat (apply Forall_app; split); [|done|].
        -- eapply Forall_impl; [exact Hf|]. intros ev Hev. by apply we_topi.
        -- repeat (constructor; [by auto with alphabet|]). constructor.
      * rewrite Hd2, Hd, count_none; [lia|].
        eapply Forall_impl; [exact Hf2|].
        intros ev Hev. by apply workload_event_quiet in Hev as (? & _).
  - inversion H; subst; cbn. split; [done|].
    destruct (get_conv_ts_trace _ _ _ _ _ _ _ _ _ _ _ Hg)
      as (rest & Ht & Hf & _ & Hd).
    eexists (rest ++ [_; _]). split_and!.
    + rewrite Ht. by rewrite <- !app_assoc.
    + apply Forall_app. split.
      * eapply Forall_impl; [exact Hf|]. intros ev Hev. by apply we_topi.
      * repeat (constructor; [by auto with alphabet|]). constructor.
    + done.
Qed.

Lemma at_schedule_trace key sched target ishape fshape w :
  trace (at_schedule key sched target ishape fshape w)
  = trace w ++ [EvRandom ishape; EvRandom fshape;
                EvEnter (history_scope key sched); EvEnter (CtxTarget target)].
Proof. unfold at_schedule, drawn, emit; cbn. by rewrite <- !app_assoc. Qed.

(** The loop body: two draws, the two scopes, the [try] statement.  It
    always completes. *)
Lemma bench_workload_trace key target th ctx dtype layout remote sched idx wl
    w ishape fshape r w' :
  get_input_and_filter_shape E layout (space wl) (input_channel wl)
    (output_channel wl) (kernel wl) (depthwise wl) = Ok (ishape, fshape) ->
  bench_workload E key target th ctx dtype layout remote sched idx wl w
    = (r, w') ->
  r = Ok tt /\
  exists mid,
    trace w' = trace w
      ++ [EvRandom ishape; EvRandom fshape;
          EvEnter (history_scope key sched); EvEnter (CtxTarget target);
          EvGetConvTs layout dtype (depthwise wl)]
      ++ mid
      ++ [EvExit (CtxTarget target); EvExit (history_scope key sched)] /\
    Forall (workload_event (phase_of wl) target layout (stride wl) (pad wl)
              (Tensor ishape (tvm_type dtype))
              (Tensor fshape (tvm_type dtype))) mid /\
    draws w' = S (S (draws w)).
Proof.
  intros Hs H. rewrite (bench_workload_unfold _ _ _ _ _ _ _ _ _ _ _ _ _ Hs) in H.
  cbv zeta in H.
  destruct (schedule_and_run E _ _ _ _ _ _ _ _ _ _ _ _ _ _) as [r1 w1] eqn:Hr.
  inversion H; subst; clear H.
  destruct (schedule_and_run_trace _ _ _ _ _ _ _ _ _ _ _ _ _ _ _ _ Hr)
    as (-> & mid & Ht & Hf & Hd).
  split; [done|]. exists mid. split_and!; [|done|].
  - unfold leave_scopes, emit; cbn. rewrite Ht, at_schedule_trace.
    by rewrite <- !app_assoc.
  - unfold leave_scopes, emit; cbn. by rewrite Hd.
Qed.

End Workload.

(** ** Device buffers *)

Section Buffers.

Context (E : Env).

Lemma types_of_alter c o (h : list ndarray) :
  types_of (alter (overwrite c) o h) = types_of h.
Proof.
  revert o. induction h as [|a h IH]; intros [|o]; cbn; try done.
  f_equal. apply IH.
Qed.

Lemma keeps_types_bind {A B} (m : M A) (k : A -> M B) :
  keeps_types m -> (forall a, keeps_types (k a)) -> keeps_types (bind m k).
Proof.
  intros Hm Hk w r w' H. unfold bind in H.
  destruct (m w) as [[a|e] w1] eqn:Hmw.
  - rewrite (Hk _ _ _ _ H). eapply Hm; eauto.
  - inversion H; subst. eapply Hm; eauto.
Qed.

Lemma keeps_types_call {A} ev (answer : history -> result A) :
  keeps_types (call ev answer).
Proof. intros w r w' H. by inversion H. Qed.

Lemma keeps_types_ret {A} (a : A) : keeps_types (ret a).
Proof. intros w r w' H. by inversion H. Qed.

Lemma keeps_types_invoke_kernel f i fl o :
  keeps_types (invoke_kernel E f i fl o).
Proof.
  intros w r w' H. unfold invoke_kernel in H.
  destruct (invoke E (trace w) f i fl o); inversion H; subst; cbn;
    [apply types_of_alter|done].
Qed.

Lemma keeps_types_call_timer f i fl o : keeps_types (call_timer E f i fl o).
Proof.
  intros w r w' H. unfold call_timer in H.
  destruct (timer E (trace w) f i fl o) as [[c out]|e];
    inversion H; subst; cbn; [apply types_of_alter|done].
Qed.

Lemma keeps_types_repeat n (m : M unit) :
  keeps_types m -> keeps_types (repeat_m n m).
Proof.
  intros Hm. induction n as [|n IH]; cbn.
  - apply keeps_types_ret.
  - by apply keeps_types_bind.
Qed.

Lemma keeps_types_upload_code f f_name remote :
  keeps_types (upload_code E f f_name remote).
Proof.
  unfold upload_code. destruct remote as [r|]; [|apply keeps_types_ret].
  apply keeps_types_bind; [by intros w r' w' [= _ <-]|]. intros path.
  repeat (apply keeps_types_bind; [apply keeps_types_call|intros _]).
  apply keeps_types_call.
Qed.

Lemma keeps_types_warmup_runs f n i fl o :
  keeps_types (warmup_runs E f n i fl o).
Proof. apply keeps_types_repeat, keeps_types_invoke_kernel. Qed.

Lemma keeps_types_evaluate_runs f ctx n i fl o :
  keeps_types (evaluate_runs E f ctx n i fl o).
Proof.
  apply keeps_types_bind; [apply keeps_types_call|intros _].
  apply keeps_types_call_timer.
Qed.

(** Same types, same shape and element type behind every handle. *)
Lemma read_buffer_types w w' b :
  types_of (heap w') = types_of (heap w) ->
  nd_shape (read_buffer w' b) = nd_shape (read_buffer w b) /\
  nd_dtype (read_buffer w' b) = nd_dtype (read_buffer w b).
Proof.
  unfold read_buffer, types_of. intros H.
  assert ((fun a => (nd_shape a, nd_dtype a)) <$> (heap w' !! b)
          = (fun a => (nd_shape a, nd_dtype a)) <$> (heap w !! b)) as Hb
    by (rewrite <- !list_lookup_fmap; by rewrite H).
  destruct (heap w' !! b), (heap w !! b); cbn in *; by simplify_eq.
Qed.

Lemma output_space_of_pure layout conv w :
  exists r, output_space_of layout conv w = (r, w).
Proof.
  unfold output_space_of.
  repeat match goal with
         | |- context [if ?b then _ else _] => destruct b
         | |- context [match ?x with Some _ => _ | None => _ end] => destruct x
         end; by eexists.
Qed.

(** The three buffers are new handles, in this order, and hold the cast
    input, the cast filter and zeros of the operator's shape and type. *)
Lemma bind_buffers_ok wl id fd layout dtype ctx conv w i fl o ops w' :
  bind_buffers E wl id fd layout dtype ctx conv w = (Ok (i, fl, o, ops), w') ->
  i = length (heap w) /\ fl = S i /\ o = S (S i) /\
  heap w' = heap w ++ [astype id (np_type dtype); astype fd (np_type dtype);
                       np_zeros (t_shape conv) (t_dtype conv)] /\
  trace w' = trace w
    ++ [EvNdArray (astype id (np_type dtype)) ctx;
        EvNdArray (astype fd (np_type dtype)) ctx;
        EvNdArray (np_zeros (t_shape conv) (t_dtype conv)) ctx] /\
  draws w' = draws w.
Proof.
  intros H. unfold bind_buffers, bind, tvm_nd_array, lift, ret in H.
  destruct (nd_array E (trace w) _ ctx); [|done]. cbn in H.
  destruct (nd_array E _ _ ctx); [|done]. cbn in H.
  destruct (nd_array E _ _ ctx); [|done]. cbn in H.
  match type of H with
  | context [output_space_of ?l ?c ?w0] =>
      destruct (output_space_of_pure l c w0) as [r Hr]; rewrite Hr in H
  end.
  destruct r as [os|]; [|done].
  destruct (get_num_ops E _ _ _ _ _); [|done].
  inversion H; subst; clear H; cbn.
  rewrite !length_app; cbn. rewrite <- !app_assoc; cbn.
  split_and!; try done; lia.
Qed.

End Buffers.

(** ** Building and running *)

Section BuildAndRun.

Context (E : Env).

Lemma build_and_run_failed phase idx ih fh k sp ic oc stride pad layout i fl o
    ctx ts conv target th wu rn ops remote w e :
  let f_name := f_name_of idx phase k sp ic oc in
  let args := [ih; fh; conv] in
  tvm_build E (trace (emit (EvEnter CtxBuildConfig) w)) ts args target th
    f_name = Raise e ->
  build_and_run E phase idx ih fh k sp ic oc stride pad layout i fl o
    ctx ts conv target th wu rn ops remote w
  = (Ok tt,
     emit (EvExit CtxBuildConfig)
       (emit (EvPrint (failed_line phase target (nd_dtype (read_buffer w i))
                         layout stride pad ih fh))
          (emit (EvPrint (LExn e)) (at_build ts args target th f_name w)))).
Proof.
  intros f_name args H.
  unfold build_and_run, with_ctx, try_except_else, call.
  fold f_name. fold args. by rewrite H.
Qed.

Lemma build_and_run_built phase idx ih fh k sp ic oc stride pad layout i fl o
    ctx ts conv target th wu rn ops remote w f :
  let f_name := f_name_of idx phase k sp ic oc in
  let args := [ih; fh; conv] in
  tvm_build E (trace (emit (EvEnter CtxBuildConfig) w)) ts args target th
    f_name = Ok f ->
  build_and_run E phase idx ih fh k sp ic oc stride pad layout i fl o
    ctx ts conv target th wu rn ops remote w
  = let (r, w') :=
      run_built E f f_name phase ih fh k ic oc stride pad layout i fl o
        ctx target wu rn ops remote (at_build ts args target th f_name w) in
    (r, emit (EvExit CtxBuildConfig) w').
Proof.
  intros f_name args H.
  unfold build_and_run, with_ctx, try_except_else, call.
  fold f_name. fold args. by rewrite H.
Qed.

(** No handler stands between a failing step and the caller of
    [run_built]. *)
Lemma run_failure_raises f f_name phase ih fh k ic oc stride pad layout i fl o
    ctx target wu rn ops remote w e w' :
  run_failure E f f_name remote wu rn ctx i fl o w e w' ->
  run_built E f f_name phase ih fh k ic oc stride pad layout i fl o
    ctx target wu rn ops remote w = (Raise e, w').
Proof.
  intros H. unfold run_built.
  inversion H as [r Hr He|r Hr w1 He Hu|r Hr w1 w2 He Hu Hl
                 |f' w1 w2 Hu Hw|f' w1 w2 Hu Hw Ht
                 |f' w1 w2 Hu Hw w3 Ht Htm]; subst.
  - unfold bind, upload_code, bind, temp_relpath, call, so_path,
      so_name_of in *. cbn in *. by rewrite He.
  - subst w1.
    unfold bind, upload_code, bind, temp_relpath, call, so_path,
      so_name_of in *. cbn in *. rewrite He. by rewrite Hu.
  - subst w2 w1.
    unfold bind, upload_code, bind, temp_relpath, call, so_path,
      so_name_of in *. cbn in *. rewrite He, Hu. by rewrite Hl.
  - unfold bind. by rewrite Hu, Hw.
  - unfold bind at 1. rewrite Hu. unfold bind at 1. rewrite Hw.
    unfold bind at 1. unfold evaluate_runs, bind, call. by rewrite Ht.
  - subst w3.
    unfold bind at 1. rewrite Hu. unfold bind at 1. rewrite Hw.
    unfold bind at 1. unfold evaluate_runs, bind, call. rewrite Ht.
    unfold call_timer. cbn in *. by rewrite Htm.
Qed.

(** Up to the failing step, only upload, invocation and timer events. *)
Lemma run_failure_trace f f_name remote wu rn ctx i fl o w e w' :
  run_failure E f f_name remote wu rn ctx i fl o w e w' ->
  exists seg, trace w' = trace w ++ seg /\ Forall (stage_event i fl o) seg.
Proof.
  intros H.
  inversion H as [r Hr He|r Hr w1 He Hu|r Hr w1 w2 He Hu Hl
                 |f' w1 w2 Hu Hw|f' w1 w2 Hu Hw Ht
                 |f' w1 w2 Hu Hw w3 Ht Htm]; subst.
  - eexists [_]. split; [done|]. repeat constructor.
  - eexists [_; _]. cbn. rewrite <- !app_assoc.
    split; [done|]. repeat constructor.
  - eexists [_; _; _]. cbn. rewrite <- !app_assoc.
    split; [done|]. repeat constructor.
  - destruct (emits_upload_code E i fl o _ _ _ _ _ _ Hu) as (s1 & T1 & F1 & _).
    destruct (emits_warmup_runs E _ _ i fl o _ _ _ Hw) as (s2 & T2 & F2 & _).
    exists (s1 ++ s2). rewrite T2, T1, <- app_assoc.
    split; [done|]. by apply Forall_app.
  - destruct (emits_upload_code E i fl o _ _ _ _ _ _ Hu) as (s1 & T1 & F1 & _).
    destruct (emits_warmup_runs E _ _ i fl o _ _ _ Hw) as (s2 & T2 & F2 & _).
    eexists (s1 ++ s2 ++ [_]). cbn. rewrite T2, T1, <- !app_assoc.
    split; [done|]. repeat (apply Forall_app; split); auto.
    repeat constructor.
  - destruct (emits_upload_code E i fl o _ _ _ _ _ _ Hu) as (s1 & T1 & F1 & _).
    destruct (emits_warmup_runs E _ _ i fl o _ _ _ Hw) as (s2 & T2 & F2 & _).
    eexists (s1 ++ s2 ++ [_; _]). cbn. rewrite T2, T1, <- !app_assoc.
    split; [done|]. repeat (apply Forall_app; split); auto.
    repeat constructor.
Qed.

(** All steps succeed: the cost line is printed and [test_correctness] is
    called, once, with the arrays read back from the device. *)
Lemma run_built_checked f f_name phase ih fh k ic oc stride pad layout i fl o
    ctx target wu rn ops remote w f' w1 w2 c w3 :
  upload_code E f f_name remote w = (Ok f', w1) ->
  warmup_runs E f' wu i fl o w1 = (Ok tt, w2) ->
  evaluate_runs E f' ctx rn i fl o w2 = (Ok c, w3) ->
  let line := cost_line phase target (nd_dtype (read_buffer w3 i)) layout
                stride pad ih fh ops c in
  let args := CheckArgs ic oc k stride pad (read_buffer w3 i)
                (read_buffer w3 fl) (read_buffer w3 o)
                (nd_dtype (read_buffer w3 i)) layout
                (if String.eqb phase "depthwise" then true else false) in
  run_built E f f_name phase ih fh k ic oc stride pad layout i fl o
    ctx target wu rn ops remote w
  = (test_correctness E (trace w3 ++ [EvPrint line]) args,
     emit (EvCheck args) (emit (EvPrint line) w3)).
Proof.
  intros Hu Hw Ht line args. unfold run_built.
  unfold bind at 1. rewrite Hu. unfold bind at 1. rewrite Hw.
  unfold bind at 1. rewrite Ht. reflexivity.
Qed.

End BuildAndRun.

(** ** The loop body along its paths *)

Section Paths.

Context (E : Env).

Lemma count_cons p ev (h : history) :
  count p (ev :: h) = ((if p ev then 1 else 0) + count p h)%nat.
Proof. unfold count; cbn. by destruct (p ev). Qed.

Lemma bench_workload_build_failed key target th ctx dtype layout remote sched
    idx wl w ishape fshape conv ts w1 i fl o ops w2 e :
  get_input_and_filter_shape E layout (space wl) (input_channel wl)
    (output_channel wl) (kernel wl) (depthwise wl) = Ok (ishape, fshape) ->
  let ih := Tensor ishape (tvm_type dtype) in
  let fh := Tensor fshape (tvm_type dtype) in
  get_conv_ts E ih fh (stride wl) (pad wl) layout dtype (depthwise wl)
    (at_schedule key sched target ishape fshape w) = (Ok (conv, ts), w1) ->
  bind_buffers E wl (NdArray ishape "float64" (CRandom (draws w)))
    (NdArray fshape "float64" (CRandom (S (draws w)))) layout dtype ctx conv w1
    = (Ok (i, fl, o, ops), w2) ->
  let f_name := f_name_of idx (phase_of wl) (kernel wl) (space wl)
                  (input_channel wl) (output_channel wl) in
  tvm_build E (trace (emit (EvEnter CtxBuildConfig) w2)) ts [ih; fh; conv]
    target th f_name = Raise e ->
  bench_workload E key target th ctx dtype layout remote sched idx wl w
  = (Ok tt,
     leave_scopes key sched target
       (emit (EvExit CtxBuildConfig)
          (emit (EvPrint (failed_line (phase_of wl) target
                            (nd_dtype (read_buffer w2 i)) layout
                            (stride wl) (pad wl) ih fh))
             (emit (EvPrint (LExn e))
                (at_build ts [ih; fh; conv] target th f_name w2))))).
Proof.
  intros Hs ih fh Hg Hb f_name Hf.
  erewrite bench_workload_unfold by exact Hs. cbv zeta.
  unfold schedule_and_run, try_except_else. fold ih fh. rewrite Hg.
  unfold bind_and_run, bind. rewrite Hb.
  erewrite build_and_run_failed by exact Hf. reflexivity.
Qed.

Lemma bench_workload_built key target th ctx dtype layout remote sched
    idx wl w ishape fshape conv ts w1 i fl o ops w2 f r w3 :
  get_input_and_filter_shape E layout (space wl) (input_channel wl)
    (output_channel wl) (kernel wl) (depthwise wl) = Ok (ishape, fshape) ->
  let ih := Tensor ishape (tvm_type dtype) in
  let fh := Tensor fshape (tvm_type dtype) in
  get_conv_ts E ih fh (stride wl) (pad wl) layout dtype (depthwise wl)
    (at_schedule key sched target ishape fshape w) = (Ok (conv, ts), w1) ->
  bind_buffers E wl (NdArray ishape "float64" (CRandom (draws w)))
    (NdArray fshape "float64" (CRandom (S (draws w)))) layout dtype ctx conv w1
    = (Ok (i, fl, o, ops), w2) ->
  let f_name := f_name_of idx (phase_of wl) (kernel wl) (space wl)
                  (input_channel wl) (output_channel wl) in
  tvm_build E (trace (emit (EvEnter CtxBuildConfig) w2)) ts [ih; fh; conv]
    target th f_name = Ok f ->
  run_built E f f_name (phase_of wl) ih fh (kernel wl) (input_channel wl)
    (output_channel wl) (stride wl) (pad wl) layout i fl o ctx target
    (warmup wl) (run wl) ops remote
    (at_build ts [ih; fh; conv] target th f_name w2) = (r, w3) ->
  bench_workload E key target th ctx dtype layout remote sched idx wl w
  = (Ok tt, after_run key sched target (phase_of wl) layout ih fh r w3).
Proof.
  intros Hs ih fh Hg Hb f_name Hf Hr.
  erewrite bench_workload_unfold by exact Hs. cbv zeta.
  unfold schedule_and_run, try_except_else. fold ih fh. rewrite Hg.
  unfold bind_and_run, bind. rewrite Hb.
  erewrite build_and_run_built by exact Hf. cbv zeta. fold f_name.
  rewrite Hr. unfold after_run. by destruct r as [[]|e].
Qed.

(** The trace up to the call of [tvm.build]. *)
Lemma at_build_trace key target dtype layout sched wl w ishape fshape conv ts
    w1 ctx i fl o ops w2 args th f_name id fd ih fh :
  get_conv_ts E ih fh (stride wl) (pad wl) layout dtype (depthwise wl)
    (at_schedule key sched target ishape fshape w) = (Ok (conv, ts), w1) ->
  bind_buffers E wl id fd layout dtype ctx conv w1 = (Ok (i, fl, o, ops), w2) ->
  exists tp,
    Forall topi_event tp /\
    trace (at_build ts args target th f_name w2)
    = trace w
      ++ [EvRandom ishape; EvRandom fshape;
          EvEnter (history_scope key sched); EvEnter (CtxTarget target);
          EvGetConvTs layout dtype (depthwise wl)]
      ++ tp
      ++ [EvNdArray (astype id (np_type dtype)) ctx;
          EvNdArray (astype fd (np_type dtype)) ctx;
          EvNdArray (np_zeros (t_shape conv) (t_dtype conv)) ctx;
          EvEnter CtxBuildConfig;
          EvBuild ts args target th f_name] /\
    heap w1 = heap w /\ draws w2 = S (S (draws w)).
Proof.
  intros Hg Hb.
  destruct (get_conv_ts_trace _ _ _ _ _ _ _ _ _ _ _ Hg)
    as (tp & Ht & Hf & Hh & Hd).
  destruct (bind_buffers_ok _ _ _ _ _ _ _ _ _ _ _ _ _ _ Hb)
    as (_ & _ & _ & _ & Ht2 & Hd2).
  exists tp. split_and!; [done| |done|by rewrite Hd2, Hd].
  unfold at_build, emit; cbn. rewrite Ht2, Ht, at_schedule_trace.
  by rewrite <- !app_assoc.
Qed.

Lemma trace_emit ev w : trace (emit ev w) = trace w ++ [ev].
Proof. reflexivity. Qed.

Lemma trace_leave_scopes key sched target w :
  trace (leave_scopes key sched target w)
  = trace w ++ [EvExit (CtxTarget target); EvExit (history_scope key sched)].
Proof. unfold leave_scopes, emit; cbn. by rewrite <- app_assoc. Qed.

Lemma trace_after_run key sched target phase layout ih fh r w :
  trace (after_run key sched target phase layout ih fh r w)
  = trace w
    ++ EvExit CtxBuildConfig
    :: match r with
       | Ok _ => []
       | Raise e => [EvPrint (LExn e);
                     EvPrint (run_skip_line phase target layout ih fh)]
       end
    ++ [EvExit (CtxTarget target); EvExit (history_scope key sched)].
Proof.
  unfold after_run. rewrite trace_leave_scopes.
  destruct r; rewrite !trace_emit, <- ?app_assoc; reflexivity.
Qed.

Lemma topi_events_count (tp : history) p :
  (forall ev, topi_event ev -> p ev = false) ->
  Forall topi_event tp -> count p tp = 0%nat.
Proof. intros Hp Hf. apply count_none. eapply Forall_impl; eauto. Qed.


End Paths.

(** ** The loop and bench_tvm *)

Section Loop.

Context (E : Env).

Lemma emits_schedule_and_run (P : event -> Prop) phase idx wl ih fh id fd
    layout dtype ctx target th remote :
  P (EvGetConvTs layout dtype (depthwise wl)) ->
  (forall ev,
     workload_event phase target layout (stride wl) (pad wl) ih fh ev ->
     P ev) ->
  emits P (schedule_and_run E phase idx wl ih fh id fd layout dtype ctx
             target th remote).
Proof.
  intros Hget Hev w r w' Hrun.
  destruct (schedule_and_run_trace E _ _ _ _ _ _ _ _ _ _ _ _ _ _ _ _ Hrun)
    as (_ & mid & Ht & Hmid & Hd).
  exists (EvGetConvTs layout dtype (depthwise wl) :: mid). split_and!.
  - exact Ht.
  - constructor; [exact Hget|]. eapply Forall_impl; eauto.
  - rewrite count_cons, count_none; [cbn; lia|].
    eapply Forall_impl; [exact Hmid|].
    intros ev H. by apply workload_event_quiet in H as (? & _).
Qed.

(** [tvm.build] is called once in [build_and_run], and nowhere else. *)
Lemma build_and_run_builds phase idx ih fh k sp ic oc stride pad layout i fl o
    ctx ts conv target th wu rn ops remote w r w' :
  build_and_run E phase idx ih fh k sp ic oc stride pad layout i fl o
    ctx ts conv target th wu rn ops remote w = (r, w') ->
  exists seg, trace w' = trace w ++ seg /\ count is_build seg = 1%nat.
Proof.
  intros H. unfold build_and_run, with_ctx, try_except_else, call in H.
  destruct (tvm_build E _ ts _ target th _) as [f|e].
  - destruct (run_built E f _ phase ih fh k ic oc stride pad layout i fl o
                ctx target wu rn ops remote _) as [r1 w1] eqn:Hr.
    destruct (emits_run_built E _ _ _ _ _ _ _ _ _ _ _ _ _ _ _ _ _ _ _ _ _ _ _
                Hr) as (seg & Ht & Hf & _).
    inversion H; subst; clear H. eexists. split.
    + rewrite trace_emit, Ht, 2!trace_emit, <- !app_assoc. reflexivity.
    + rewrite !count_app, (count_none is_build seg); [reflexivity|].
      eapply Forall_impl; [exact Hf|]. intros ev Hev. by invert_event.
  - inversion H; subst; clear H. eexists. split.
    + unfold print, bind, log, buffer_dtype. cbn.
      rewrite <- !app_assoc. reflexivity.
    + reflexivity.
Qed.

Lemma bind_and_run_builds phase idx wl ih fh id fd layout dtype ctx ts conv
    target th remote w r w' :
  bind_and_run E phase idx wl ih fh id fd layout dtype ctx ts conv target th
    remote w = (r, w') ->
  exists seg, trace w' = trace w ++ seg /\ (count is_build seg <= 1)%nat.
Proof.
  intros H. unfold bind_and_run, bind in H.
  destruct (bind_buffers E wl id fd layout dtype ctx conv w)
    as [[[[[i fl] o] ops]|e] w1] eqn:Hb;
    destruct (emits_bind_buffers E _ _ _ _ _ _ _ _ _ _ Hb)
      as (s1 & Ht1 & Hf1 & _);
    assert (count is_build s1 = 0%nat) as Hc1
      by (apply count_none; eapply Forall_impl; [exact Hf1|];
          intros ev Hev; by invert_event).
  - destruct (build_and_run_builds _ _ _ _ _ _ _ _ _ _ _ _ _ _ _ _ _ _ _ _ _
                _ _ _ _ _ H) as (s2 & Ht2 & Hc2).
    exists (s1 ++ s2). split.
    + by rewrite Ht2, Ht1, app_assoc.
    + rewrite count_app, Hc1, Hc2. lia.
  - inversion H; subst; clear H. exists s1. split; [done|]. lia.
Qed.

Lemma schedule_and_run_builds phase idx wl ih fh id fd layout dtype ctx target
    th remote w r w' :
  schedule_and_run E phase idx wl ih fh id fd layout dtype ctx target th
    remote w = (r, w') ->
  exists seg, trace w' = trace w ++ seg /\ (count is_build seg <= 1)%nat.
Proof.
  intros H. unfold schedule_and_run, try_except_else in H.
  destruct (get_conv_ts E ih fh (stride wl) (pad wl) layout dtype
              (depthwise wl) w) as [[[conv ts]|e] w1] eqn:Hg;
    destruct (get_conv_ts_trace _ _ _ _ _ _ _ _ _ _ _ Hg)
      as (tp & Ht & Htp & _);
    pose proof (topi_events_count tp is_build
                  ltac:(intros ev Hev; by invert_event) Htp) as Hc0.
  - destruct (bind_and_run E phase idx wl ih fh id fd layout dtype ctx ts
                conv target th remote w1) as [rb wb] eqn:Hb.
    destruct (bind_and_run_builds _ _ _ _ _ _ _ _ _ _ _ _ _ _ _ _ _ _ Hb)
      as (s2 & Ht2 & Hc2).
    destruct rb as [[]|e]; inversion H; subst; clear H.
    + exists ([EvGetConvTs layout dtype (depthwise wl)] ++ tp ++ s2). split.
      * rewrite Ht2, Ht, <- !app_assoc. reflexivity.
      * rewrite !count_app, Hc0. cbn. lia.
    + exists ([EvGetConvTs layout dtype (depthwise wl)] ++ tp ++ s2
              ++ [EvPrint (LExn e);
                  EvPrint (run_skip_line phase target layout ih fh)]).
      split.
      * unfold print, bind, log. cbn. rewrite Ht2, Ht, <- !app_assoc.
        reflexivity.
      * rewrite !count_app, Hc0. cbn. lia.
  - inversion H; subst; clear H.
    exists ([EvGetConvTs layout dtype (depthwise wl)] ++ tp
            ++ [EvPrint (LExn e);
                EvPrint (schedule_skip_line target layout ih fh)]).
    split.
    + unfold print, bind, log. cbn. rewrite Ht, <- !app_assoc. reflexivity.
    + rewrite !count_app, Hc0. cbn. lia.
Qed.

Lemma bench_workload_builds key target th ctx dtype layout remote sched idx wl
    w r w' :
  bench_workload E key target th ctx dtype layout remote sched idx wl w
    = (r, w') ->
  exists seg, trace w' = trace w ++ seg /\ (count is_build seg <= 1)%nat.
Proof.
  intros H. unfold bench_workload, bind, lift in H.
  destruct (get_input_and_filter_shape E layout _ _ _ _ _)
    as [[ishape fshape]|e].
  - cbn in H. unfold with_ctx in H.
    match type of H with
    | context [schedule_and_run ?a ?b ?c ?d ?e ?f ?g ?h ?i ?j ?k ?l ?m ?n ?o] =>
        destruct (schedule_and_run a b c d e f g h i j k l m n o)
          as [r1 w1] eqn:Hr
    end.
    destruct (schedule_and_run_builds _ _ _ _ _ _ _ _ _ _ _ _ _ _ _ _ Hr)
      as (seg & Ht & Hc).
    inversion H; subst; clear H.
    exists ([EvRandom ishape; EvRandom fshape;
             EvEnter (history_scope key sched); EvEnter (CtxTarget target)]
            ++ seg
            ++ [EvExit (CtxTarget target); EvExit (history_scope key sched)]).
    split.
    + cbn. rewrite Ht. cbn. rewrite <- !app_assoc. reflexivity.
    + rewrite !count_app. cbn. lia.
  - inversion H; subst; clear H. exists [].
    split; [by rewrite app_nil_r|cbn; lia].
Qed.

Lemma emits_bench_workload (P : event -> Prop) key target th ctx dtype layout
    remote sched idx wl :
  (forall s, P (EvRandom s)) ->
  P (EvEnter (history_scope key sched)) ->
  P (EvExit (history_scope key sched)) ->
  P (EvEnter (CtxTarget target)) -> P (EvExit (CtxTarget target)) ->
  P (EvGetConvTs layout dtype (depthwise wl)) ->
  (forall ih fh ev,
     workload_event (phase_of wl) target layout (stride wl) (pad wl) ih fh ev ->
     P ev) ->
  emits P (bench_workload E key target th ctx dtype layout remote sched
             idx wl).
Proof.
  intros Hr Hin Hout Htin Htout Hget Hev. unfold bench_workload.
  apply emits_bind; [apply emits_lift|]. intros [ishape fshape].
  apply emits_bind; [by apply emits_np_random|]. intros id.
  apply emits_bind; [by apply emits_np_random|]. intros fd.
  apply emits_with; [done..|]. apply emits_with; [done..|].
  apply emits_schedule_and_run; [done|]. apply Hev.
Qed.

(** Whatever happens to its workloads, the loop runs to its end, as long
    as the shape helper returns; each workload draws twice and enters
    [get_conv_ts] once. *)
Lemma workload_loop_trace key target th ctx dtype layout remote sched :
  shapes_total E ->
  forall l w r w',
    workload_loop E key target th ctx dtype layout remote sched l w
      = (r, w') ->
    r = Ok tt /\
    exists seg,
      trace w' = trace w ++ seg /\
      count is_random seg = (2 * length l)%nat /\
      count is_get_conv_ts seg = length l /\
      count is_bench_tvm seg = 0%nat /\
      draws w' = (draws w + 2 * length l)%nat /\
      (count is_build seg <= length l)%nat.
Proof.
  intros Hsh. induction l as [|[idx wl] l IH]; intros w r w' Hrun.
  - inversion Hrun; subst. split; [done|]. exists [].
    rewrite app_nil_r. cbn. split_and!; try done; lia.
  - unfold workload_loop in Hrun. cbn in Hrun. unfold bind in Hrun.
    destruct (bench_workload E key target th ctx dtype layout remote sched
                idx wl w) as [r1 w1] eqn:Hbody.
    destruct (Hsh layout (space wl) (input_channel wl) (output_channel wl)
                (kernel wl) (depthwise wl)) as [[ishape fshape] Hs].
    destruct (bench_workload_trace E _ _ _ _ _ _ _ _ _ _ _ _ _ _ _ Hs Hbody)
      as (-> & mid & Ht & Hmid & Hd).
    destruct (bench_workload_builds _ _ _ _ _ _ _ _ _ _ _ _ _ Hbody)
      as (seg0 & Ht0 & Hb0).
    rewrite Ht in Ht0. apply app_inv_head in Ht0. subst seg0.
    destruct (IH _ _ _ Hrun)
      as (-> & seg & Ht2 & Hc1 & Hc2 & Hc3 & Hd2 & Hb2).
    split; [done|].
    match type of Hb0 with (count _ ?X <= _)%nat => set (body := X) in * end.
    exists (body ++ seg). split_and!.
    + by rewrite Ht2, Ht, app_assoc.
    + subst body. rewrite !count_app, Hc1, (count_none is_random mid).
      * cbn. lia.
      * eapply Forall_impl; [exact Hmid|].
        intros ev H. by apply workload_event_quiet in H as (? & _).
    + subst body. rewrite !count_app, Hc2, (count_none is_get_conv_ts mid).
      * cbn. lia.
      * eapply Forall_impl; [exact Hmid|].
        intros ev H. by apply workload_event_quiet in H as (_ & ? & _).
    + subst body. rewrite !count_app, Hc3, (count_none is_bench_tvm mid).
      * cbn. lia.
      * eapply Forall_impl; [exact Hmid|].
        intros ev H. by apply workload_event_quiet in H as (_ & _ & ?).
    + rewrite Hd2, Hd. cbn. lia.
    + rewrite count_app. cbn [length]. lia.
Qed.

End Loop.

(** * The claims *)

(** C4.  The element type of the convolution output is promoted for 8-bit
    integer input -- [int8] gives an [int32] accumulator -- and is the input
    type otherwise, so [float32] stays [float32].  For each of the three
    layouts, dense or depthwise, [get_conv_ts] constructs the operator with
    that type as [out_dtype], and the operator it returns has it, topi
    keeping to its [out_dtype] argument. *)
Theorem conv_output_dtype_promoted (E : Env) ih fh s p layout dtype dw w :
  supported layout ->
  (tvm_type dtype = "int8" -> output_type dtype = "int32") /\
  (tvm_type dtype <> "int8" -> output_type dtype = tvm_type dtype) /\
  (exists c rest,
     trace (get_conv_ts E ih fh s p layout dtype dw w).2
       = trace w ++ EvGetConvTs layout dtype dw :: EvTopi c :: rest /\
     topi_out_dtype c = output_type dtype /\
     is_depthwise_call c = dw) /\
  (honours_out_dtype E -> forall conv ts w',
     get_conv_ts E ih fh s p layout dtype dw w = (Ok (conv, ts), w') ->
     t_dtype conv = output_type dtype).
Proof.
  intros Hl. split_and!.
  - intros H. unfold output_type. by rewrite H.
  - intros H. unfold output_type.
    by destruct (String.eqb_spec (tvm_type dtype) "int8").
  - by apply get_conv_ts_operator.
  - intros Hon conv ts w' H. eapply get_conv_ts_dtype; eauto.
Qed.

Lemma demo_honours_out_dtype faults : honours_out_dtype (demo_env faults).
Proof.
  intros h c t. cbn. unfold answer.
  destruct (failing faults StOperator); [done|]. by intros [= <-].
Qed.

Lemma conv_output_dtype_promoted_witness :
  supported "NHWC" /\
  output_type int8 = "int32" /\ output_type float32 = "float32" /\
  forall conv ts w',
    get_conv_ts (demo_env []) (Tensor [1; 56; 56; 32] "int8")
      (Tensor [3; 3; 32; 1] "int8") 2 1 "NHWC" int8 true initial
      = (Ok (conv, ts), w') ->
    t_dtype conv = "int32".
Proof.
  assert (supported "NHWC") as Hl by (right; left; reflexivity).
  split; [exact Hl|].
  destruct (conv_output_dtype_promoted (demo_env [])
              (Tensor [1; 56; 56; 32] "int8") (Tensor [3; 3; 32; 1] "int8")
              2 1 "NHWC" int8 true initial Hl) as (H8 & _ & _ & Hconv).
  destruct (conv_output_dtype_promoted (demo_env [])
              (Tensor [1; 56; 56; 32] "float32")
              (Tensor [3; 3; 32; 1] "float32")
              2 1 "NHWC" float32 true initial Hl) as (_ & Hf & _ & _).
  split; [exact (H8 eq_refl)|].
  split; [apply Hf; discriminate|].
  intros conv ts w' Hrun.
  rewrite (Hconv (demo_honours_out_dtype []) conv ts w' Hrun).
  exact (H8 eq_refl).
Defined.

(** C1.  When [get_conv_ts] raises for a workload -- as it does for every
    layout other than the three it knows -- the exception is caught: it is
    printed, the schedule-skip line is printed, the scopes are left, and the
    loop goes on with the next workload.  Nothing is built, run, timed or
    checked for that workload and no cost is reported. *)
Theorem schedule_failure_skips_workload (E : Env) key target th ctx dtype
    layout remote sched idx wl rest w ishape fshape :
  get_input_and_filter_shape E layout (space wl) (input_channel wl)
    (output_channel wl) (kernel wl) (depthwise wl) = Ok (ishape, fshape) ->
  let ih := Tensor ishape (tvm_type dtype) in
  let fh := Tensor fshape (tvm_type dtype) in
  let w0 := at_schedule key sched target ishape fshape w in
  (forall e w1,
     get_conv_ts E ih fh (stride wl) (pad wl) layout dtype (depthwise wl) w0
       = (Raise e, w1) ->
     let w2 :=
       leave_scopes key sched target
         (emit (EvPrint (schedule_skip_line target layout ih fh))
            (emit (EvPrint (LExn e)) w1)) in
     bench_workload E key target th ctx dtype layout remote sched idx wl w
       = (Ok tt, w2) /\
     workload_loop E key target th ctx dtype layout remote sched
       ((idx, wl) :: rest) w
       = workload_loop E key target th ctx dtype layout remote sched rest w2 /\
     Forall (fun ev => is_outcome ev = false) (appended w w2)) /\
  (~ supported layout ->
   exists e w1,
     get_conv_ts E ih fh (stride wl) (pad wl) layout dtype (depthwise wl) w0
       = (Raise e, w1)).
Proof.
  intros Hs ih fh w0. split; [|by apply get_conv_ts_unsupported].
  intros e w1 Hg w2.
  assert (bench_workload E key target th ctx dtype layout remote sched idx wl w
          = (Ok tt, w2)) as Hbody.
  { erewrite bench_workload_unfold by exact Hs. cbv zeta.
    by erewrite schedule_and_run_skip by exact Hg. }
  split_and!; [exact Hbody| |].
  - unfold workload_loop; cbn. unfold bind. by rewrite Hbody.
  - destruct (get_conv_ts_trace _ _ _ _ _ _ _ _ _ _ _ Hg)
      as (tp & Ht & Hf & _).
    erewrite appended_app.
    2:{ subst w2. unfold leave_scopes, emit; cbn.
        rewrite Ht. subst w0. rewrite at_schedule_trace.
        rewrite <- !app_assoc. reflexivity. }
    cbn. repeat (constructor; [reflexivity|]).
    apply Forall_app. split.
    + eapply Forall_impl; [exact Hf|]. intros ev Hev. by invert_event.
    + repeat (constructor; [reflexivity|]). constructor.
Qed.

Lemma schedule_failure_skips_workload_witness :
  get_input_and_filter_shape (demo_env []) "NCWH" 56 32 64 3 false
    = Ok ([1; 32; 56; 56], [64; 32; 3; 3]) /\
  ~ supported "NCWH" /\
  exists e w1,
    bench_workload (demo_env []) "android" "llvm" None "cpu(0)" float32
      "NCWH" None "auto" 0 scenario_a initial
    = (Ok tt,
       leave_scopes "android" "auto" "llvm"
         (emit (EvPrint (schedule_skip_line "llvm" "NCWH"
                           (Tensor [1; 32; 56; 56] "float32")
                           (Tensor [64; 32; 3; 3] "float32")))
            (emit (EvPrint (LExn e)) w1))).
Proof.
  assert (~ supported "NCWH") as Hns by (intros [H|[H|H]]; discriminate).
  split; [reflexivity|]. split; [exact Hns|].
  destruct (schedule_failure_skips_workload (demo_env []) "android" "llvm"
              None "cpu(0)" float32 "NCWH" None "auto" 0%nat scenario_a []
              initial [1; 32; 56; 56] [64; 32; 3; 3] eq_refl)
    as [Hskip Hraise].
  destruct (Hraise Hns) as (e & w1 & Hg).
  exists e, w1. exact (proj1 (Hskip e w1 Hg)).
Defined.

(** C2.  When, after a successful build, the export of the library, its
    upload, the remote load, a warmup invocation, [time_evaluator] or the
    timer raises, no handler inside [build_and_run] intervenes: the build
    scope is left and the exception reaches the handler of the workload,
    which prints it with the run-skip line; the scopes are left and the loop
    goes on with the next workload. *)
Theorem run_failure_skips_workload (E : Env) key target th ctx dtype layout
    remote sched idx wl rest w ishape fshape conv ts w1 i fl o ops w2 f e w3 :
  get_input_and_filter_shape E layout (space wl) (input_channel wl)
    (output_channel wl) (kernel wl) (depthwise wl) = Ok (ishape, fshape) ->
  let ih := Tensor ishape (tvm_type dtype) in
  let fh := Tensor fshape (tvm_type dtype) in
  get_conv_ts E ih fh (stride wl) (pad wl) layout dtype (depthwise wl)
    (at_schedule key sched target ishape fshape w) = (Ok (conv, ts), w1) ->
  bind_buffers E wl (NdArray ishape "float64" (CRandom (draws w)))
    (NdArray fshape "float64" (CRandom (S (draws w)))) layout dtype ctx conv w1
    = (Ok (i, fl, o, ops), w2) ->
  let f_name := f_name_of idx (phase_of wl) (kernel wl) (space wl)
                  (input_channel wl) (output_channel wl) in
  tvm_build E (trace (emit (EvEnter CtxBuildConfig) w2)) ts [ih; fh; conv]
    target th f_name = Ok f ->
  run_failure E f f_name remote (warmup wl) (run wl) ctx i fl o
    (at_build ts [ih; fh; conv] target th f_name w2) e w3 ->
  let w4 :=
    leave_scopes key sched target
      (emit (EvPrint (run_skip_line (phase_of wl) target layout ih fh))
         (emit (EvPrint (LExn e)) (emit (EvExit CtxBuildConfig) w3))) in
  bench_workload E key target th ctx dtype layout remote sched idx wl w
    = (Ok tt, w4) /\
  workload_loop E key target th ctx dtype layout remote sched
    ((idx, wl) :: rest) w
    = workload_loop E key target th ctx dtype layout remote sched rest w4.
Proof.
  intros Hs ih fh Hg Hb f_name Hf Hrf w4.
  assert (bench_workload E key target th ctx dtype layout remote sched idx wl w
          = (Ok tt, w4)) as Hbody.
  { pose proof (run_failure_raises E f f_name (phase_of wl) ih fh (kernel wl)
                  (input_channel wl) (output_channel wl) (stride wl) (pad wl)
                  layout i fl o ctx target (warmup wl) (run wl) ops remote
                  _ e w3 Hrf) as Hr.
    exact (bench_workload_built E key target th ctx dtype layout remote sched
             idx wl w ishape fshape conv ts w1 i fl o ops w2 f (Raise e) w3
             Hs Hg Hb Hf Hr). }
  split; [exact Hbody|].
  unfold workload_loop; cbn. unfold bind. by rewrite Hbody.
Qed.

Lemma run_failure_skips_workload_witness :
  exists w3,
    bench_workload (demo_env [StTimer]) "android" "llvm" None "cpu(0)" float32
      "NCHW" None "auto" 0 scenario_a initial
    = (Ok tt,
       leave_scopes "android" "auto" "llvm"
         (emit (EvPrint (run_skip_line "standard" "llvm" "NCHW"
                           (Tensor [1; 32; 56; 56] "float32")
                           (Tensor [64; 32; 3; 3] "float32")))
            (emit (EvPrint (LExn (Exception "RuntimeError" "timer")))
               (emit (EvExit CtxBuildConfig) w3)))).
Proof.
  eexists.
  refine (proj1 (run_failure_skips_workload (demo_env [StTimer]) "android"
                   "llvm" None "cpu(0)" float32 "NCHW" None "auto" 0%nat
                   scenario_a [] initial [1; 32; 56; 56] [64; 32; 3; 3]
                   _ _ _ _ _ _ _ _ _ _ _ eq_refl _ _ _ _)).
  - vm_compute. reflexivity.
  - vm_compute. reflexivity.
  - vm_compute. reflexivity.
  - eapply timer_fails; vm_compute; reflexivity.
Defined.




(** C10.  Once the operator and its schedule are constructed, the three
    device buffers of the workload are new handles.  When [build_and_run]
    starts, no kernel has been invoked or timed yet; the output buffer holds
    zeros with the shape and the element type of the constructed operator
    ([int32] for [int8] input, topi keeping to [out_dtype]); the input and
    the filter buffer hold this workload's two random draws, cast to the
    input type.  Every invocation and the timer get these three buffers. *)
Theorem output_buffer_is_fresh_zeros (E : Env) key target th ctx dtype layout
    remote sched idx wl w ishape fshape conv ts w1 i fl o ops w2 :
  get_input_and_filter_shape E layout (space wl) (input_channel wl)
    (output_channel wl) (kernel wl) (depthwise wl) = Ok (ishape, fshape) ->
  let ih := Tensor ishape (tvm_type dtype) in
  let fh := Tensor fshape (tvm_type dtype) in
  let input_data := NdArray ishape "float64" (CRandom (draws w)) in
  let filter_data := NdArray fshape "float64" (CRandom (S (draws w))) in
  get_conv_ts E ih fh (stride wl) (pad wl) layout dtype (depthwise wl)
    (at_schedule key sched target ishape fshape w) = (Ok (conv, ts), w1) ->
  bind_buffers E wl input_data filter_data layout dtype ctx conv w1
    = (Ok (i, fl, o, ops), w2) ->
  (i = length (heap w) /\ fl = S i /\ o = S (S i)) /\
  heap w !! o = None /\
  heap w2 !! i = Some (astype input_data (np_type dtype)) /\
  heap w2 !! fl = Some (astype filter_data (np_type dtype)) /\
  heap w2 !! o = Some (np_zeros (t_shape conv) (t_dtype conv)) /\
  (honours_out_dtype E -> tvm_type dtype = "int8" ->
   heap w2 !! o = Some (NdArray (t_shape conv) "int32" CZeros)) /\
  Forall (fun ev => is_invocation ev = false) (appended w w2) /\
  bind_and_run E (phase_of wl) idx wl ih fh input_data filter_data layout
    dtype ctx ts conv target th remote w1
  = build_and_run E (phase_of wl) idx ih fh (kernel wl) (space wl)
      (input_channel wl) (output_channel wl) (stride wl) (pad wl) layout
      i fl o ctx ts conv target th (warmup wl) (run wl) ops remote w2 /\
  (forall r w3,
     build_and_run E (phase_of wl) idx ih fh (kernel wl) (space wl)
       (input_channel wl) (output_channel wl) (stride wl) (pad wl) layout
       i fl o ctx ts conv target th (warmup wl) (run wl) ops remote w2
       = (r, w3) ->
     Forall (fun ev => forall f a b c,
               ev = EvInvoke f a b c \/ ev = EvTimer f a b c ->
               a = i /\ b = fl /\ c = o)
       (appended w2 w3)).
Proof.
  intros Hs ih fh input_data filter_data Hg Hb.
  destruct (get_conv_ts_trace _ _ _ _ _ _ _ _ _ _ _ Hg)
    as (tp & Ht1 & Htp & Hh1 & _).
  destruct (bind_buffers_ok _ _ _ _ _ _ _ _ _ _ _ _ _ _ Hb)
    as (Hi & Hfl & Ho & Hheap & Ht2 & _).
  assert (heap w1 = heap w) as Hh by (rewrite Hh1; reflexivity).
  rewrite Hh in Hi, Hheap. subst i fl o.
  assert (heap w2 !! S (S (length (heap w)))
          = Some (np_zeros (t_shape conv) (t_dtype conv))) as Hout.
  { rewrite Hheap, lookup_app_r by lia.
    by replace (S (S (length (heap w))) - length (heap w))%nat
      with 2%nat by lia. }
  split_and!.
  - reflexivity.
  - reflexivity.
  - reflexivity.
  - apply lookup_ge_None. lia.
  - rewrite Hheap, lookup_app_r by lia.
    by rewrite Nat.sub_diag.
  - rewrite Hheap, lookup_app_r by lia.
    by replace (S (length (heap w)) - length (heap w))%nat with 1%nat by lia.
  - exact Hout.
  - intros Hon H8. etrans; [exact Hout|]. unfold np_zeros.
    rewrite (get_conv_ts_dtype E _ _ _ _ _ _ _ _ _ _ _ Hon Hg).
    unfold output_type. by rewrite H8.
  - erewrite appended_app.
    2:{ rewrite Ht2, Ht1, at_schedule_trace, <- !app_assoc. reflexivity. }
    cbn. repeat (constructor; [reflexivity|]).
    apply Forall_app. split.
    + eapply Forall_impl; [exact Htp|]. intros ev Hev. by invert_event.
    + repeat (constructor; [reflexivity|]). constructor.
  - unfold bind_and_run, bind. by rewrite Hb.
  - intros r w3 Hr.
    eapply Forall_impl; [eapply emits_appended;
                         [apply emits_build_and_run|exact Hr]|].
    intros ev Hev f a b c [->| ->]; by invert_event.
Qed.

Lemma output_buffer_is_fresh_zeros_witness :
  exists w2,
    heap w2 !! 2%nat = Some (NdArray [1; 56; 56; 32] "int32" CZeros) /\
    heap w2 !! 0%nat
    = Some (NdArray [1; 56; 56; 32] "int8" (CCast (CRandom 0) "int8")).
Proof.
  eexists.
  destruct (output_buffer_is_fresh_zeros (demo_env []) "rk" "llvm"
              None "cpu(0)" int8 "NHWC" (Some (Remote "rk")) "manual" 0%nat
              scenario_c initial [1; 56; 56; 32] [3; 3; 32; 1]
              _ _ _ _ _ _ _ _ eq_refl eq_refl eq_refl)
    as (_ & _ & Hin & _ & _ & Hout & _).
  split; [exact (Hout (demo_honours_out_dtype []) eq_refl)|exact Hin].
Defined.

Lemma workload_event_reported phase target layout stride pad ih fh ev :
  workload_event phase target layout stride pad ih fh ev ->
  prints_reported phase ev.
Proof.
  intros H. invert_event; cbn; rewrite ?String.eqb_refl; done.
Qed.

(** C9, as the code has it.  Every formatted line a workload prints names
    the target, the element type, the layout and the input and filter
    shapes.  The line of a build failure also has stride and pad and is
    labelled with the phase of the workload; the run-skip line is labelled
    with the phase and has neither stride nor pad; the schedule-skip line
    has neither stride nor pad.  Each kind of failure prints its line. *)
Theorem failure_lines_report_configuration (E : Env) key target th ctx dtype
    layout remote sched idx wl w ishape fshape :
  get_input_and_filter_shape E layout (space wl) (input_channel wl)
    (output_channel wl) (kernel wl) (depthwise wl) = Ok (ishape, fshape) ->
  let ih := Tensor ishape (tvm_type dtype) in
  let fh := Tensor fshape (tvm_type dtype) in
  let w0 := at_schedule key sched target ishape fshape w in
  let w' := (bench_workload E key target th ctx dtype layout remote sched
               idx wl w).2 in
  let f_name := f_name_of idx (phase_of wl) (kernel wl) (space wl)
                  (input_channel wl) (output_channel wl) in
  Forall (prints_reported (phase_of wl)) (appended w w') /\
  (forall e w1,
     get_conv_ts E ih fh (stride wl) (pad wl) layout dtype (depthwise wl) w0
       = (Raise e, w1) ->
     In (EvPrint (schedule_skip_line target layout ih fh)) (appended w w')) /\
  (forall conv ts w1 i fl o ops w2,
     get_conv_ts E ih fh (stride wl) (pad wl) layout dtype (depthwise wl) w0
       = (Ok (conv, ts), w1) ->
     bind_buffers E wl (NdArray ishape "float64" (CRandom (draws w)))
       (NdArray fshape "float64" (CRandom (S (draws w)))) layout dtype ctx
       conv w1 = (Ok (i, fl, o, ops), w2) ->
     (forall e,
        tvm_build E (trace (emit (EvEnter CtxBuildConfig) w2)) ts
          [ih; fh; conv] target th f_name = Raise e ->
        In (EvPrint (failed_line (phase_of wl) target
                       (nd_dtype (read_buffer w2 i)) layout (stride wl)
                       (pad wl) ih fh)) (appended w w')) /\
     (forall f e w3,
        tvm_build E (trace (emit (EvEnter CtxBuildConfig) w2)) ts
          [ih; fh; conv] target th f_name = Ok f ->
        run_failure E f f_name remote (warmup wl) (run wl) ctx i fl o
          (at_build ts [ih; fh; conv] target th f_name w2) e w3 ->
        In (EvPrint (run_skip_line (phase_of wl) target layout ih fh))
          (appended w w'))).
Proof.
  intros Hs ih fh w0 w' f_name. subst w' w0 f_name ih fh.
  split_and!.
  - destruct (bench_workload E key target th ctx dtype layout remote sched
                idx wl w) as [r w'] eqn:Hrun.
    destruct (bench_workload_trace E _ _ _ _ _ _ _ _ _ _ _ _ _ _ _ Hs Hrun)
      as (_ & mid & Ht & Hmid & _).
    cbn [snd]. rewrite (appended_app _ _ _ Ht).
    repeat (apply Forall_app; split).
    + repeat (constructor; [exact I|]). constructor.
    + eapply Forall_impl; [exact Hmid|]. apply workload_event_reported.
    + repeat (constructor; [exact I|]). constructor.
  - intros e w1 Hg.
    erewrite bench_workload_unfold by exact Hs. cbv zeta.
    erewrite schedule_and_run_skip by exact Hg. cbn [snd].
    destruct (get_conv_ts_trace _ _ _ _ _ _ _ _ _ _ _ Hg) as (tp & Htp & _).
    erewrite appended_app.
    2:{ rewrite trace_leave_scopes, 2!trace_emit, Htp.
        rewrite at_schedule_trace, <- !app_assoc. reflexivity. }
    rewrite !in_app_iff. right. right. cbn. tauto.
  - intros conv ts w1 i fl o ops w2 Hg Hb.
    destruct (at_build_trace E key target dtype layout sched wl w ishape
                fshape conv ts w1 ctx i fl o ops w2
                [Tensor ishape (tvm_type dtype);
                 Tensor fshape (tvm_type dtype); conv] th
                (f_name_of idx (phase_of wl) (kernel wl) (space wl)
                   (input_channel wl) (output_channel wl)) _ _ _ _
                Hg Hb) as (tp & Htp & Htb & _).
    split.
    + intros e Hf.
      erewrite bench_workload_build_failed by eauto. cbn [snd].
      erewrite appended_app.
      2:{ rewrite trace_leave_scopes, 3!trace_emit, Htb.
          rewrite <- !app_assoc. reflexivity. }
      rewrite !in_app_iff. right. right. cbn. tauto.
    + intros f e w3 Hf Hrf.
      pose proof (run_failure_raises E f _ (phase_of wl)
                    (Tensor ishape (tvm_type dtype))
                    (Tensor fshape (tvm_type dtype)) (kernel wl)
                    (input_channel wl) (output_channel wl) (stride wl)
                    (pad wl) layout i fl o ctx target (warmup wl) (run wl)
                    ops remote _ e w3 Hrf) as Hr.
      rewrite (bench_workload_built E key target th ctx dtype layout remote
                 sched idx wl w ishape fshape conv ts w1 i fl o ops w2 f
                 (Raise e) w3 Hs Hg Hb Hf Hr).
      cbn [snd].
      destruct (run_failure_trace E _ _ _ _ _ _ _ _ _ _ _ _ Hrf)
        as (seg & Ht3 & _).
      erewrite appended_app.
      2:{ rewrite trace_after_run, Ht3, Htb.
          rewrite <- !app_assoc. reflexivity. }
      rewrite !in_app_iff. cbn. tauto.
Qed.

Lemma failure_lines_report_configuration_witness :
  In (EvPrint (schedule_skip_line "llvm" "NHWC"
                 (Tensor [1; 56; 56; 32] "int8") (Tensor [3; 3; 32; 1] "int8")))
    (appended initial
       (bench_workload (demo_env [StSchedule]) "android" "llvm" None "cpu(0)"
          int8 "NHWC" None "auto" 0 scenario_c initial).2).
Proof.
  destruct (failure_lines_report_configuration (demo_env [StSchedule])
              "android" "llvm" None "cpu(0)" int8 "NHWC" None "auto" 0%nat
              scenario_c initial [1; 56; 56; 32] [3; 3; 32; 1] eq_refl)
    as (_ & Hskip & _).
  exact (Hskip _ _ eq_refl).
Defined.

(** C9, as the specification states it, fails.  A depthwise workload
    whose schedule construction raises is reported under the label
    [standard], without stride and pad; a standard workload whose timer
    raises is reported without stride and pad. *)
Lemma failure_lines_counterexample :
  failures_fully_reported (phase_of scenario_c)
    (trace (bench_workload (demo_env [StSchedule]) "android" "llvm" None
              "cpu(0)" int8 "NHWC" None "auto" 0 scenario_c initial).2)
  = false /\
  failures_fully_reported (phase_of scenario_a)
    (trace (bench_workload (demo_env [StTimer]) "android" "llvm" None
              "cpu(0)" float32 "NCHW" None "auto" 0 scenario_a initial).2)
  = false /\
  In (EvPrint (LFormat "standard"
                 [("target", VStr "llvm"); ("dtype", VStr "int8");
                  ("layout", VStr "NHWC");
                  ("input_shape", VShape [1; 56; 56; 32]);
                  ("filter_shape", VShape [3; 3; 32; 1])]
                 (VStr "schedule skip")))
    (trace (bench_workload (demo_env [StSchedule]) "android" "llvm" None
              "cpu(0)" int8 "NHWC" None "auto" 0 scenario_c initial).2).
Proof.
  split_and!; [vm_compute; reflexivity..|].
  vm_compute. tauto.
Qed.

Lemma history_flags_quiet a (h : history) ev :
  Forall (fun ev => is_history_event ev = false) h ->
  history_flags a (h ++ [ev]) = map (fun e => (e, a)) (h ++ [ev]).
Proof.
  induction 1 as [|x h Hx _ IH]; cbn; [done|].
  assert (history_after a x = a) as ->.
  { destruct x; cbn in *; try done; by rewrite Hx. }
  by rewrite IH.
Qed.

Lemma flagged_open (P : event -> Prop) (h : history) :
  Forall (fun p : event * bool => P (fst p) -> snd p = true)
    (map (fun ev => (ev, true)) h).
Proof. induction h; cbn; constructor; auto. Qed.

Lemma workload_event_no_history phase target layout stride pad ih fh ev :
  workload_event phase target layout stride pad ih fh ev ->
  is_history_event ev = false.
Proof. intros H. by invert_event. Qed.

(** C6, as the code has it.  With the manual strategy the history scope on
    "../configs/<key>.convolutions.log" is entered after the two draws of a
    workload and stays open until the workload is done: the entry of
    [get_conv_ts], and with it [tvm.build], every invocation, the timer and
    the correctness check, happen while it is open.  With any other
    strategy no history scope is entered or left, in the whole of
    [bench_tvm]. *)
Theorem history_scope_spans_workload (E : Env) key target th ctx dtype layout
    remote sched idx wl w ishape fshape :
  get_input_and_filter_shape E layout (space wl) (input_channel wl)
    (output_channel wl) (kernel wl) (depthwise wl) = Ok (ishape, fshape) ->
  let w' := (bench_workload E key target th ctx dtype layout remote sched
               idx wl w).2 in
  let scope := CtxHistory ("../configs/" +:+ key +:+ ".convolutions.log") in
  (sched = "manual" ->
   exists rest,
     appended w w'
     = EvRandom ishape :: EvRandom fshape :: EvEnter scope :: rest /\
     history_flags false (appended w w')
     = (EvRandom ishape, false) :: (EvRandom fshape, false)
       :: (EvEnter scope, false) :: map (fun ev => (ev, true)) rest /\
     In (EvGetConvTs layout dtype (depthwise wl)) rest /\
     Forall (fun p : event * bool => is_pipeline (fst p) = true -> snd p = true)
       (history_flags false (appended w w'))) /\
  (sched <> "manual" ->
   forall arch tgt workloads w0 r0 w0',
     bench_tvm E key arch tgt dtype layout workloads remote sched w0
       = (r0, w0') ->
     Forall (fun ev => is_history_event ev = false) (appended w0 w0')).
Proof.
  intros Hs w' scope. split.
  - intros ->. subst w'.
    destruct (bench_workload E key target th ctx dtype layout remote "manual"
                idx wl w) as [r w1] eqn:Hrun.
    destruct (bench_workload_trace E _ _ _ _ _ _ _ _ _ _ _ _ _ _ _ Hs Hrun)
      as (_ & mid & Ht & Hmid & _).
    cbn [snd]. rewrite (appended_app _ _ _ Ht).
    change (history_scope key "manual") with scope.
    set (quiet := [EvEnter (CtxTarget target);
                   EvGetConvTs layout dtype (depthwise wl)]
                  ++ mid ++ [EvExit (CtxTarget target)]).
    assert (Forall (fun ev => is_history_event ev = false) quiet) as Hq.
    { subst quiet. repeat (apply Forall_app; split).
      - repeat (constructor; [reflexivity|]). constructor.
      - eapply Forall_impl; [exact Hmid|]. apply workload_event_no_history.
      - repeat (constructor; [reflexivity|]). constructor. }
    exists (quiet ++ [EvExit scope]).
    assert (history_flags false
              (EvRandom ishape :: EvRandom fshape :: EvEnter scope
                 :: quiet ++ [EvExit scope])
            = (EvRandom ishape, false) :: (EvRandom fshape, false)
              :: (EvEnter scope, false)
              :: map (fun ev => (ev, true)) (quiet ++ [EvExit scope])) as Hfl.
    { cbn [history_flags history_after is_history_scope scope].
      by rewrite (history_flags_quiet true quiet _ Hq). }
    assert ([EvRandom ishape; EvRandom fshape; EvEnter scope;
             EvEnter (CtxTarget target);
             EvGetConvTs layout dtype (depthwise wl)]
            ++ mid ++ [EvExit (CtxTarget target); EvExit scope]
            = EvRandom ishape :: EvRandom fshape :: EvEnter scope
                :: quiet ++ [EvExit scope]) as ->.
    { subst quiet. cbn. by rewrite <- !app_assoc. }
    split_and!; [done|exact Hfl| |].
    + subst quiet. cbn. tauto.
    + rewrite Hfl. do 3 (constructor; [by cbn|]).
      apply (flagged_open (fun ev => is_pipeline ev = true)).
  - intros Hauto arch tgt workloads w0 r0 w0' Hrun.
    assert (history_scope key sched = CtxDummy) as Hd.
    { unfold history_scope. by destruct (String.eqb_spec sched "manual"). }
    eapply emits_appended; [|exact Hrun].
    unfold bench_tvm. apply emits_bind; [by apply emits_log|]. intros _.
    apply emits_bind; [apply emits_lift|]. intros [[[tg|] th'] ctx'];
      [|apply emits_ret].
    apply emits_for_each. intros [idx' wl'].
    apply emits_bench_workload; rewrite ?Hd; try done.
    intros ih fh ev. apply workload_event_no_history.
Qed.

Lemma history_scope_spans_workload_witness :
  Forall (fun p : event * bool => is_pipeline (fst p) = true -> snd p = true)
    (history_flags false
       (appended initial
          (bench_workload (demo_env []) "rk" "llvm" None "cpu(0)" int8 "NHWC"
             (Some (Remote "rk")) "manual" 0 scenario_c initial).2)).
Proof.
  destruct (history_scope_spans_workload (demo_env []) "rk" "llvm" None
              "cpu(0)" int8 "NHWC" (Some (Remote "rk")) "manual" 0%nat
              scenario_c initial [1; 56; 56; 32] [3; 3; 32; 1] eq_refl)
    as [Hmanual _].
  destruct (Hmanual eq_refl) as (rest & _ & _ & _ & Hall).
  exact Hall.
Defined.

(** C6, as the specification states it, fails: with the manual strategy
    [tvm.build] runs inside the history scope. *)
Lemma history_scope_counterexample :
  history_around_construction_only
    (trace (bench_tvm (demo_env []) "rk" "x86" "cpu" int8 "NHWC" [scenario_c]
              (Some (Remote "rk")) "manual" initial).2)
  = false.
Proof. vm_compute. reflexivity. Qed.

Lemma demo_shapes_total faults :
  ~ In StShapes faults -> shapes_total (demo_env faults).
Proof.
  intros Hno layout sp ic oc k dw. cbn. unfold answer, failing.
  destruct (existsb (stage_eqb StShapes) faults) eqn:Hex; [|by eexists].
  apply existsb_exists in Hex as (s & Hin & Heq).
  destruct s; try discriminate. contradiction.
Qed.

(** C7, as the code has it.  The random input and filter data are drawn
    once per workload: the loop body starts with the two draws, input then
    filter, before the scopes are entered and the operator is constructed,
    and draws nothing afterwards, whatever construction, build and run do.
    A loop over n workloads makes 2n draws.  The input and filter buffers of
    a workload hold that workload's own two draws. *)
Theorem random_data_drawn_per_workload (E : Env) key target th ctx dtype
    layout remote sched :
  shapes_total E ->
  (forall l w r w',
     workload_loop E key target th ctx dtype layout remote sched l w
       = (r, w') ->
     count is_random (appended w w') = (2 * length l)%nat /\
     draws w' = (draws w + 2 * length l)%nat) /\
  (forall idx wl w ishape fshape,
     get_input_and_filter_shape E layout (space wl) (input_channel wl)
       (output_channel wl) (kernel wl) (depthwise wl) = Ok (ishape, fshape) ->
     let ih := Tensor ishape (tvm_type dtype) in
     let fh := Tensor fshape (tvm_type dtype) in
     let input_data := NdArray ishape "float64" (CRandom (draws w)) in
     let filter_data := NdArray fshape "float64" (CRandom (S (draws w))) in
     let w' := (bench_workload E key target th ctx dtype layout remote sched
                  idx wl w).2 in
     (exists rest,
        appended w w'
        = EvRandom ishape :: EvRandom fshape
          :: EvEnter (history_scope key sched) :: EvEnter (CtxTarget target)
          :: EvGetConvTs layout dtype (depthwise wl) :: rest /\
        count is_random rest = 0%nat) /\
     draws w' = S (S (draws w)) /\
     (forall conv ts w1 i fl o ops w2,
        get_conv_ts E ih fh (stride wl) (pad wl) layout dtype (depthwise wl)
          (at_schedule key sched target ishape fshape w)
          = (Ok (conv, ts), w1) ->
        bind_buffers E wl input_data filter_data layout dtype ctx conv w1
          = (Ok (i, fl, o, ops), w2) ->
        heap w2 !! i = Some (astype input_data (np_type dtype)) /\
        heap w2 !! fl = Some (astype filter_data (np_type dtype)))).
Proof.
  intros Hsh. split.
  - intros l w r w' Hrun.
    destruct (workload_loop_trace E _ _ _ _ _ _ _ _ Hsh _ _ _ _ Hrun)
      as (_ & seg & Ht & Hc & _ & _ & Hd & _).
    by rewrite (appended_app _ _ _ Ht).
  - intros idx wl w ishape fshape Hs ih fh input_data filter_data w'.
    subst w'.
    destruct (bench_workload E key target th ctx dtype layout remote sched
                idx wl w) as [r w1] eqn:Hrun.
    destruct (bench_workload_trace E _ _ _ _ _ _ _ _ _ _ _ _ _ _ _ Hs Hrun)
      as (_ & mid & Ht & Hmid & Hd).
    cbn [snd]. split_and!.
    + rewrite (appended_app _ _ _ Ht). eexists. split; [reflexivity|].
      rewrite count_app, (count_none is_random mid); [reflexivity|].
      eapply Forall_impl; [exact Hmid|].
      intros ev H. by apply workload_event_quiet in H as (? & _).
    + exact Hd.
    + intros conv ts w2 i fl o ops w3 Hg Hb.
      destruct (get_conv_ts_trace _ _ _ _ _ _ _ _ _ _ _ Hg)
        as (_ & _ & _ & Hh & _).
      destruct (bind_buffers_ok _ _ _ _ _ _ _ _ _ _ _ _ _ _ Hb)
        as (-> & -> & _ & Hheap & _).
      rewrite Hheap. split.
      * rewrite lookup_app_r by lia. by rewrite Nat.sub_diag.
      * rewrite lookup_app_r by lia.
        by replace (S (length (heap w2)) - length (heap w2))%nat
          with 1%nat by lia.
Qed.

Lemma random_data_drawn_per_workload_witness :
  count is_random
    (appended initial
       (workload_loop (demo_env [StBuild]) "android" "llvm" None "cpu(0)"
          float32 "NCHW" None "auto"
          (enumerate (demo_workloads "caffe2_standard")) initial).2)
  = 4%nat.
Proof.
  destruct (random_data_drawn_per_workload (demo_env [StBuild]) "android"
              "llvm" None "cpu(0)" float32 "NCHW" None "auto"
              (demo_shapes_total [StBuild]
                 ltac:(intros [H|[]]; discriminate))) as [Hloop _].
  destruct (workload_loop (demo_env [StBuild]) "android" "llvm" None "cpu(0)"
              float32 "NCHW" None "auto"
              (enumerate (demo_workloads "caffe2_standard")) initial)
    as [r w'] eqn:Hrun.
  exact (proj1 (Hloop _ _ _ _ Hrun)).
Defined.

(** C7, as the specification states it, fails: a configuration with two
    workloads draws four times, and the buffers of its second workload hold
    the third and fourth draw. *)
Lemma random_data_counterexample :
  generated_once_per_configuration
    (trace (bench_tvm (demo_env []) "android" "x86" "cpu" float32 "NCHW"
              (demo_workloads "caffe2_standard") None "auto" initial).2)
  = false /\
  In (EvNdArray (NdArray [1; 64; 28; 28] "float32"
                   (CCast (CRandom 2) "float32")) "cpu(0)")
    (trace (bench_tvm (demo_env []) "android" "x86" "cpu" float32 "NCHW"
              (demo_workloads "caffe2_standard") None "auto" initial).2).
Proof. split; [vm_compute; reflexivity|]. vm_compute. tauto. Qed.

(** C8, as the code has it.  The two tracker variables are read when the
    module is loaded, before the mode is looked at: a missing host or port,
    or a port that [int] rejects, ends the program at once, whatever the
    arguments.  Their values are used only to connect in remote mode: with
    any other mode the run does not depend on them. *)
Theorem tracker_variables_read_at_start (E : Env)
    (environ : gmap string string) argv w :
  (environ !! "TVM_TRACKER_HOST" = None ->
   program E environ argv w = (Raise (KeyError "TVM_TRACKER_HOST"), w)) /\
  (is_Some (environ !! "TVM_TRACKER_HOST") ->
   environ !! "TVM_TRACKER_PORT" = None ->
   program E environ argv w = (Raise (KeyError "TVM_TRACKER_PORT"), w)) /\
  (forall p e,
     is_Some (environ !! "TVM_TRACKER_HOST") ->
     environ !! "TVM_TRACKER_PORT" = Some p -> py_int E p = Raise e ->
     program E environ argv w = (Raise e, w)) /\
  (forall (environ' : gmap string string) p port p' port',
     is_Some (environ !! "TVM_TRACKER_HOST") ->
     environ !! "TVM_TRACKER_PORT" = Some p -> py_int E p = Ok port ->
     is_Some (environ' !! "TVM_TRACKER_HOST") ->
     environ' !! "TVM_TRACKER_PORT" = Some p' -> py_int E p' = Ok port' ->
     argv !! 2%nat <> Some "remote" ->
     program E environ argv w = program E environ' argv w).
Proof.
  split_and!.
  - intros H. unfold program, bind, environ_get. by rewrite H.
  - intros [h Hh] H. unfold program, bind, environ_get, ret.
    rewrite Hh. cbn. by rewrite H.
  - intros p e [h Hh] Hp He.
    unfold program, bind, environ_get, lift, ret.
    rewrite Hh. cbn. rewrite Hp. cbn. by rewrite He.
  - intros environ' p port p' port' [h Hh] Hp Hi [h' Hh'] Hp' Hi' Hmode.
    unfold program, bind, environ_get, lift, argv_get, ret, raise.
    rewrite Hh, Hh'. cbn. rewrite Hp, Hp'. cbn. rewrite Hi, Hi'. cbn.
    destruct (argv !! 1%nat) as [arch|]; cbn; [|done].
    destruct (argv !! 2%nat) as [mode|]; cbn; [|done].
    destruct (String.eqb_spec mode "remote") as [->|_]; [done|].
    reflexivity.
Qed.

Lemma tracker_variables_read_at_start_witness :
  program (demo_env []) ∅ ["bench.py"; "x86"; "local"] initial
  = (Raise (KeyError "TVM_TRACKER_HOST"), initial).
Proof.
  exact (proj1 (tracker_variables_read_at_start (demo_env []) ∅
                  ["bench.py"; "x86"; "local"] initial) eq_refl).
Defined.

(** C8, as the specification states it, fails: in local mode, with the
    variables unset, the program stops with a [KeyError] before it does
    anything; with them set the same command runs the sweep. *)
Lemma tracker_variables_counterexample :
  program (demo_env []) ∅ ["bench.py"; "x86"; "local"] initial
  = (Raise (KeyError "TVM_TRACKER_HOST"), initial) /\
  (program (demo_env []) demo_environ ["bench.py"; "x86"; "local"] initial).1
  = Ok tt.
Proof. split; vm_compute; reflexivity. Qed.

(** ** The sweep *)


Lemma length_enumerate_from {A} (l : list A) n :
  length (enumerate_from n l) = length l.
Proof. revert n. induction l as [|x l IH]; intros n; cbn; [done|]. by rewrite IH. Qed.






(** * Further properties of the driver *)

(** ** The outcomes of one workload that the handlers of bench.py tell apart *)

(** The input buffer has the numpy element type of the configuration. *)
Lemma bind_buffers_input_dtype (E : Env) wl id fd layout dtype ctx conv w
    i fl o ops w' :
  bind_buffers E wl id fd layout dtype ctx conv w = (Ok (i, fl, o, ops), w') ->
  nd_dtype (read_buffer w' i) = np_type dtype.
Proof.
  intros Hb.
  destruct (bind_buffers_ok _ _ _ _ _ _ _ _ _ _ _ _ _ _ Hb)
    as (-> & _ & _ & Hheap & _).
  unfold read_buffer. rewrite Hheap.
  rewrite lookup_app_r by lia. by rewrite Nat.sub_diag.
Qed.

(** Upload, warmup and timing leave the element type of the input buffer
    alone. *)
Lemma run_keeps_input_dtype (E : Env) f f_name remote wu rn ctx i fl o
    w f' w1 w2 c w3 :
  upload_code E f f_name remote w = (Ok f', w1) ->
  warmup_runs E f' wu i fl o w1 = (Ok tt, w2) ->
  evaluate_runs E f' ctx rn i fl o w2 = (Ok c, w3) ->
  nd_dtype (read_buffer w3 i) = nd_dtype (read_buffer w i).
Proof.
  intros Hu Hw Ht.
  pose proof (keeps_types_upload_code E _ _ _ _ _ _ Hu) as K1.
  pose proof (keeps_types_warmup_runs E _ _ _ _ _ _ _ _ Hw) as K2.
  pose proof (keeps_types_evaluate_runs E _ _ _ _ _ _ _ _ _ Ht) as K3.
  assert (types_of (heap w3) = types_of (heap w)) as K
    by (rewrite K3, K2, K1; reflexivity).
  by destruct (read_buffer_types w w3 i K) as [_ ->].
Qed.

(** X1.  A compilation that fails is dealt with inside [build_and_run]: the
    exception of [tvm.build] is printed, then the failed line with the numpy
    element type, stride and pad; the build scope is left and
    [build_and_run] returns normally, so the handler of [bench_tvm] does not
    run and no run-skip line is printed.  Nothing is exported, invoked,
    timed or checked, and the loop goes on with the next workload. *)
Theorem build_failure_reported_in_place (E : Env) key target th ctx dtype
    layout remote sched idx wl rest w ishape fshape conv ts w1 i fl o ops w2 e :
  get_input_and_filter_shape E layout (space wl) (input_channel wl)
    (output_channel wl) (kernel wl) (depthwise wl) = Ok (ishape, fshape) ->
  let ih := Tensor ishape (tvm_type dtype) in
  let fh := Tensor fshape (tvm_type dtype) in
  get_conv_ts E ih fh (stride wl) (pad wl) layout dtype (depthwise wl)
    (at_schedule key sched target ishape fshape w) = (Ok (conv, ts), w1) ->
  bind_buffers E wl (NdArray ishape "float64" (CRandom (draws w)))
    (NdArray fshape "float64" (CRandom (S (draws w)))) layout dtype ctx conv w1
    = (Ok (i, fl, o, ops), w2) ->
  let f_name := f_name_of idx (phase_of wl) (kernel wl) (space wl)
                  (input_channel wl) (output_channel wl) in
  tvm_build E (trace (emit (EvEnter CtxBuildConfig) w2)) ts [ih; fh; conv]
    target th f_name = Raise e ->
  let failed := failed_line (phase_of wl) target (np_type dtype) layout
                  (stride wl) (pad wl) ih fh in
  exists w3 w4,
    build_and_run E (phase_of wl) idx ih fh (kernel wl) (space wl)
      (input_channel wl) (output_channel wl) (stride wl) (pad wl) layout
      i fl o ctx ts conv target th (warmup wl) (run wl) ops remote w2
    = (Ok tt, w3) /\
    appended w2 w3
    = [EvEnter CtxBuildConfig; EvBuild ts [ih; fh; conv] target th f_name;
       EvPrint (LExn e); EvPrint failed; EvExit CtxBuildConfig] /\
    bench_workload E key target th ctx dtype layout remote sched idx wl w
    = (Ok tt, w4) /\
    appended w3 w4
    = [EvExit (CtxTarget target); EvExit (history_scope key sched)] /\
    workload_loop E key target th ctx dtype layout remote sched
      ((idx, wl) :: rest) w
    = workload_loop E key target th ctx dtype layout remote sched rest w4.
Proof.
  intros Hs ih fh Hg Hb f_name Hf failed.
  pose proof (bind_buffers_input_dtype E _ _ _ _ _ _ _ _ _ _ _ _ _ Hb) as Hdt.
  pose proof (bench_workload_build_failed E key target th ctx dtype layout
                remote sched idx wl w ishape fshape conv ts w1 i fl o ops w2 e
                Hs Hg Hb Hf) as Hbody.
  pose proof (build_and_run_failed E (phase_of wl) idx ih fh (kernel wl)
                (space wl) (input_channel wl) (output_channel wl) (stride wl)
                (pad wl) layout i fl o ctx ts conv target th (warmup wl)
                (run wl) ops remote w2 e Hf) as Hbuild.
  cbv zeta in Hbody, Hbuild. rewrite Hdt in Hbody, Hbuild.
  eexists _, _. split_and!.
  - exact Hbuild.
  - apply appended_app. unfold at_build. rewrite !trace_emit.
    rewrite <- !app_assoc. reflexivity.
  - exact Hbody.
  - apply appended_app. by rewrite trace_leave_scopes.
  - unfold workload_loop; cbn. unfold bind. by rewrite Hbody.
Qed.

Lemma build_failure_reported_in_place_witness :
  exists w3 w4,
    bench_workload (demo_env [StBuild]) "android" "llvm" None "cpu(0)" float32
      "NCHW" None "auto" 0 scenario_a initial
    = (Ok tt, w4) /\
    appended w3 w4 = [EvExit (CtxTarget "llvm"); EvExit CtxDummy].
Proof.
  destruct (build_failure_reported_in_place (demo_env [StBuild]) "android"
              "llvm" None "cpu(0)" float32 "NCHW" None "auto" 0%nat scenario_a
              [] initial [1; 32; 56; 56] [64; 32; 3; 3]
              _ _ _ _ _ _ _ _ _ eq_refl eq_refl eq_refl eq_refl)
    as (w3 & w4 & _ & _ & H3 & H4 & _).
  exists w3, w4. split; [exact H3|exact H4].
Defined.

(** Binding the buffers makes at most three allocations and nothing else. *)
Lemma bind_buffers_trace (E : Env) wl id fd layout dtype ctx conv w r w' :
  bind_buffers E wl id fd layout dtype ctx conv w = (r, w') ->
  exists allocs,
    trace w' = trace w ++ allocs /\ Forall alloc_event allocs /\
    (length allocs <= 3)%nat.
Proof.
  intros H. unfold bind_buffers, bind, tvm_nd_array, lift, ret in H.
  destruct (nd_array E (trace w) _ ctx); cbn in H;
    [|inversion H; subst; eexists [_]; split_and!;
      [reflexivity|repeat constructor|cbn; lia]].
  destruct (nd_array E _ _ ctx); cbn in H;
    [|inversion H; subst; eexists [_; _]; cbn; rewrite <- !app_assoc;
      split_and!; [reflexivity|repeat constructor|cbn; lia]].
  destruct (nd_array E _ _ ctx); cbn in H;
    [|inversion H; subst; eexists [_; _; _]; cbn; rewrite <- !app_assoc;
      split_and!; [reflexivity|repeat constructor|cbn; lia]].
  match type of H with
  | context [output_space_of ?l ?c ?w0] =>
      destruct (output_space_of_pure l c w0) as [r0 Hr]; rewrite Hr in H
  end.
  destruct r0 as [os|e0];
    [destruct (get_num_ops E _ _ _ _ _)|];
    inversion H; subst; eexists [_; _; _]; cbn; rewrite <- !app_assoc;
    (split_and!; [reflexivity|repeat constructor|cbn; lia]).
Qed.

(** X2.  An exception between operator construction and [build_and_run] --
    an allocation of [tvm.nd.array], the index into the operator's shape, or
    [get_num_ops] -- is caught by the inner handler of [bench_tvm]: it is
    printed with the run-skip line, although nothing was run.  The build
    scope is never entered, [tvm.build] is not called, and the loop goes on
    with the next workload. *)
Theorem bind_failure_reported_as_run_skip (E : Env) key target th ctx dtype
    layout remote sched idx wl rest w ishape fshape conv ts w1 e w2 :
  get_input_and_filter_shape E layout (space wl) (input_channel wl)
    (output_channel wl) (kernel wl) (depthwise wl) = Ok (ishape, fshape) ->
  let ih := Tensor ishape (tvm_type dtype) in
  let fh := Tensor fshape (tvm_type dtype) in
  get_conv_ts E ih fh (stride wl) (pad wl) layout dtype (depthwise wl)
    (at_schedule key sched target ishape fshape w) = (Ok (conv, ts), w1) ->
  bind_buffers E wl (NdArray ishape "float64" (CRandom (draws w)))
    (NdArray fshape "float64" (CRandom (S (draws w)))) layout dtype ctx conv w1
    = (Raise e, w2) ->
  exists allocs w3,
    bench_workload E key target th ctx dtype layout remote sched idx wl w
    = (Ok tt, w3) /\
    appended w1 w3
    = allocs
      ++ [EvPrint (LExn e);
          EvPrint (run_skip_line (phase_of wl) target layout ih fh);
          EvExit (CtxTarget target); EvExit (history_scope key sched)] /\
    Forall alloc_event allocs /\ (length allocs <= 3)%nat /\
    workload_loop E key target th ctx dtype layout remote sched
      ((idx, wl) :: rest) w
    = workload_loop E key target th ctx dtype layout remote sched rest w3.
Proof.
  intros Hs ih fh Hg Hb.
  destruct (bind_buffers_trace E _ _ _ _ _ _ _ _ _ _ Hb)
    as (allocs & Ht & Hall & Hlen).
  assert (bench_workload E key target th ctx dtype layout remote sched idx wl w
          = (Ok tt,
             leave_scopes key sched target
               (emit (EvPrint (run_skip_line (phase_of wl) target layout ih fh))
                  (emit (EvPrint (LExn e)) w2)))) as Hbody.
  { erewrite bench_workload_unfold by exact Hs. cbv zeta.
    unfold schedule_and_run, try_except_else. fold ih fh. rewrite Hg.
    unfold bind_and_run, bind. by rewrite Hb. }
  eexists allocs, _. split_and!; [exact Hbody| |exact Hall|exact Hlen|].
  - apply appended_app.
    rewrite trace_leave_scopes, !trace_emit, Ht, <- !app_assoc. reflexivity.
  - unfold workload_loop; cbn. unfold bind. by rewrite Hbody.
Qed.

Lemma bind_failure_reported_as_run_skip_witness :
  exists allocs w3,
    bench_workload (demo_env [StOps]) "android" "llvm" None "cpu(0)" float32
      "NCHW" None "auto" 0 scenario_a initial
    = (Ok tt, w3) /\
    Forall alloc_event allocs /\ (length allocs <= 3)%nat.
Proof.
  destruct (bind_failure_reported_as_run_skip (demo_env [StOps]) "android"
              "llvm" None "cpu(0)" float32 "NCHW" None "auto" 0%nat scenario_a
              [] initial [1; 32; 56; 56] [64; 32; 3; 3]
              _ _ _ _ _ eq_refl eq_refl eq_refl)
    as (allocs & w3 & H1 & _ & H3 & H4 & _).
  exists allocs, w3. split_and!; [exact H1|exact H3|exact H4].
Defined.

(** X3.  A correctness check that raises comes after the measurement: the
    cost line, with the numpy element type, is already printed when
    [test_correctness] is called with that same type.  Its exception leaves
    the build scope and reaches the inner handler of [bench_tvm], which
    prints it with the run-skip line; the loop goes on with the next
    workload. *)
Theorem check_failure_reported_after_cost (E : Env) key target th ctx dtype
    layout remote sched idx wl rest w ishape fshape conv ts w1 i fl o ops w2
    f f' w3 w4 c w5 e :
  get_input_and_filter_shape E layout (space wl) (input_channel wl)
    (output_channel wl) (kernel wl) (depthwise wl) = Ok (ishape, fshape) ->
  let ih := Tensor ishape (tvm_type dtype) in
  let fh := Tensor fshape (tvm_type dtype) in
  get_conv_ts E ih fh (stride wl) (pad wl) layout dtype (depthwise wl)
    (at_schedule key sched target ishape fshape w) = (Ok (conv, ts), w1) ->
  bind_buffers E wl (NdArray ishape "float64" (CRandom (draws w)))
    (NdArray fshape "float64" (CRandom (S (draws w)))) layout dtype ctx conv w1
    = (Ok (i, fl, o, ops), w2) ->
  let f_name := f_name_of idx (phase_of wl) (kernel wl) (space wl)
                  (input_channel wl) (output_channel wl) in
  tvm_build E (trace (emit (EvEnter CtxBuildConfig) w2)) ts [ih; fh; conv]
    target th f_name = Ok f ->
  upload_code E f f_name remote
    (at_build ts [ih; fh; conv] target th f_name w2) = (Ok f', w3) ->
  warmup_runs E f' (warmup wl) i fl o w3 = (Ok tt, w4) ->
  evaluate_runs E f' ctx (run wl) i fl o w4 = (Ok c, w5) ->
  let line := cost_line (phase_of wl) target (np_type dtype) layout
                (stride wl) (pad wl) ih fh ops c in
  let args := CheckArgs (input_channel wl) (output_channel wl) (kernel wl)
                (stride wl) (pad wl) (read_buffer w5 i) (read_buffer w5 fl)
                (read_buffer w5 o) (np_type dtype) layout (depthwise wl) in
  test_correctness E (trace w5 ++ [EvPrint line]) args = Raise e ->
  exists w6,
    bench_workload E key target th ctx dtype layout remote sched idx wl w
    = (Ok tt, w6) /\
    appended w5 w6
    = [EvPrint line; EvCheck args; EvExit CtxBuildConfig; EvPrint (LExn e);
       EvPrint (run_skip_line (phase_of wl) target layout ih fh);
       EvExit (CtxTarget target); EvExit (history_scope key sched)] /\
    workload_loop E key target th ctx dtype layout remote sched
      ((idx, wl) :: rest) w
    = workload_loop E key target th ctx dtype layout remote sched rest w6.
Proof.
  intros Hs ih fh Hg Hb f_name Hf Hu Hw Ht line args Hc.
  pose proof (run_built_checked E f f_name (phase_of wl) ih fh (kernel wl)
                (input_channel wl) (output_channel wl) (stride wl) (pad wl)
                layout i fl o ctx target (warmup wl) (run wl) ops remote
                _ f' w3 w4 c w5 Hu Hw Ht) as Hr.
  cbv zeta in Hr.
  replace (if String.eqb (phase_of wl) "depthwise" then true else false)
    with (depthwise wl) in Hr by (unfold phase_of; by destruct (depthwise wl)).
  assert (nd_dtype (read_buffer w5 i) = np_type dtype) as Hdt.
  { rewrite (run_keeps_input_dtype E _ _ _ _ _ _ _ _ _ _ _ _ _ _ _ Hu Hw Ht).
    unfold at_build, read_buffer, emit; cbn.
    exact (bind_buffers_input_dtype E _ _ _ _ _ _ _ _ _ _ _ _ _ Hb). }
  rewrite Hdt in Hr. fold line args in Hr. rewrite Hc in Hr.
  pose proof (bench_workload_built E key target th ctx dtype layout remote
                sched idx wl w ishape fshape conv ts w1 i fl o ops w2 f
                _ _ Hs Hg Hb Hf Hr) as Hbody.
  eexists. split_and!; [exact Hbody| |].
  - apply appended_app. rewrite trace_after_run, !trace_emit.
    rewrite <- !app_assoc. reflexivity.
  - unfold workload_loop; cbn. unfold bind. by rewrite Hbody.
Qed.

Lemma check_failure_reported_after_cost_witness :
  exists w6,
    bench_workload (demo_env [StCheck]) "android" "llvm" None "cpu(0)" float32
      "NCHW" None "auto" 0 scenario_a initial
    = (Ok tt, w6) /\
    count is_cost_line (trace w6) = 1%nat.
Proof.
  destruct (check_failure_reported_after_cost (demo_env [StCheck]) "android"
              "llvm" None "cpu(0)" float32 "NCHW" None "auto" 0%nat scenario_a
              [] initial [1; 32; 56; 56] [64; 32; 3; 3]
              _ _ _ _ _ _ _ _ _ _ _ _ _ _ _
              eq_refl eq_refl eq_refl eq_refl eq_refl eq_refl eq_refl eq_refl)
    as (w6 & H1 & _ & _).
  exists w6. split; [exact H1|].
  vm_compute in H1. injection H1 as <-. vm_compute. reflexivity.
Defined.

(** ** What leaves bench_tvm *)

Section Escapes.

Context (E : Env).

Lemma bench_workload_shape_raises key target th ctx dtype layout remote sched
    idx wl w e :
  get_input_and_filter_shape E layout (space wl) (input_channel wl)
    (output_channel wl) (kernel wl) (depthwise wl) = Raise e ->
  bench_workload E key target th ctx dtype layout remote sched idx wl w
  = (Raise e, w).
Proof. intros Hs. unfold bench_workload, bind, lift. by rewrite Hs. Qed.

Lemma in_enumerate_from {A} (l : list A) n idx x :
  In (idx, x) (enumerate_from n l) -> In x l.
Proof.
  revert n. induction l as [|y l IH]; intros n; cbn; [done|].
  intros [[= _ <-]|H]; [by left|right; eauto].
Qed.

Lemma enumerate_from_app {A} (l1 l2 : list A) n :
  enumerate_from n (l1 ++ l2)
  = enumerate_from n l1 ++ enumerate_from (n + length l1) l2.
Proof.
  revert n. induction l1 as [|x l1 IH]; intros n; cbn.
  - by rewrite Nat.add_0_r.
  - rewrite IH. do 3 f_equal. lia.
Qed.

Lemma for_each_app {A} (f : A -> M unit) (l1 l2 : list A) w :
  for_each f (l1 ++ l2) w
  = match for_each f l1 w with
    | (Ok _, w1) => for_each f l2 w1
    | (Raise e, w1) => (Raise e, w1)
    end.
Proof.
  revert w. induction l1 as [|x l1 IH]; intros w; cbn; [done|].
  unfold bind. destruct (f x w) as [[[]|e] w1]; [apply IH|done].
Qed.

(** The loop over workloads for which the shape helper returns: it runs to
    its end, with two draws and one entry of [get_conv_ts] for each. *)
Lemma workload_loop_shaped key target th ctx dtype layout remote sched :
  forall l w r w',
    Forall (fun p : nat * workload => shaped E layout p.2) l ->
    workload_loop E key target th ctx dtype layout remote sched l w
      = (r, w') ->
    r = Ok tt /\
    exists seg,
      trace w' = trace w ++ seg /\
      count is_random seg = (2 * length l)%nat /\
      count is_get_conv_ts seg = length l.
Proof.
  induction l as [|[idx wl] l IH]; intros w r w' Hall Hrun.
  - inversion Hrun; subst. split; [done|]. exists [].
    rewrite app_nil_r. by cbn.
  - apply Forall_cons in Hall as [[[ishape fshape] Hs] Hall]. cbn in Hs.
    unfold workload_loop in Hrun. cbn in Hrun. unfold bind in Hrun.
    destruct (bench_workload E key target th ctx dtype layout remote sched
                idx wl w) as [r1 w1] eqn:Hbody.
    destruct (bench_workload_trace E _ _ _ _ _ _ _ _ _ _ _ _ _ _ _ Hs Hbody)
      as (-> & mid & Ht & Hmid & Hd).
    destruct (IH _ _ _ Hall Hrun) as (-> & seg & Ht2 & Hc1 & Hc2).
    split; [done|]. eexists. split_and!.
    + rewrite Ht2, Ht, <- !app_assoc. reflexivity.
    + rewrite !count_app, Hc1, (count_none is_random mid).
      * cbn. lia.
      * eapply Forall_impl; [exact Hmid|].
        intros ev H. by apply workload_event_quiet in H as (? & _).
    + rewrite !count_app, Hc2, (count_none is_get_conv_ts mid).
      * cbn. lia.
      * eapply Forall_impl; [exact Hmid|].
        intros ev H. by apply workload_event_quiet in H as (_ & ? & _).
Qed.

(** An exception that leaves the loop is one the shape helper raised. *)
Lemma workload_loop_raises key target th ctx dtype layout remote sched :
  forall l w e w',
    workload_loop E key target th ctx dtype layout remote sched l w
      = (Raise e, w') ->
    exists idx wl,
      In (idx, wl) l /\
      get_input_and_filter_shape E layout (space wl) (input_channel wl)
        (output_channel wl) (kernel wl) (depthwise wl) = Raise e.
Proof.
  induction l as [|[idx wl] l IH]; intros w e w' Hrun; [done|].
  unfold workload_loop in Hrun. cbn in Hrun. unfold bind in Hrun.
  destruct (get_input_and_filter_shape E layout (space wl) (input_channel wl)
              (output_channel wl) (kernel wl) (depthwise wl))
    as [[ishape fshape]|e0] eqn:Hs.
  - destruct (bench_workload E key target th ctx dtype layout remote sched
                idx wl w) as [r1 w1] eqn:Hbody.
    destruct (bench_workload_trace E _ _ _ _ _ _ _ _ _ _ _ _ _ _ _ Hs Hbody)
      as (-> & _).
    destruct (IH _ _ _ Hrun) as (idx' & wl' & Hin & Hr).
    exists idx', wl'. split; [by right|done].
  - rewrite (bench_workload_shape_raises _ _ _ _ _ _ _ _ _ _ _ _ Hs) in Hrun.
    inversion Hrun; subst. exists idx, wl. split; [by left|done].
Qed.

(** When the loop runs to its end, the shape helper returned for all. *)
Lemma workload_loop_ok key target th ctx dtype layout remote sched :
  forall l w w',
    workload_loop E key target th ctx dtype layout remote sched l w
      = (Ok tt, w') ->
    Forall (fun p : nat * workload => shaped E layout p.2) l.
Proof.
  induction l as [|[idx wl] l IH]; intros w w' Hrun; [constructor|].
  unfold workload_loop in Hrun. cbn in Hrun. unfold bind in Hrun.
  destruct (get_input_and_filter_shape E layout (space wl) (input_channel wl)
              (output_channel wl) (kernel wl) (depthwise wl))
    as [[ishape fshape]|e0] eqn:Hs.
  - destruct (bench_workload E key target th ctx dtype layout remote sched
                idx wl w) as [[[]|e1] w1] eqn:Hbody; [|done].
    constructor; [by eexists|]. eapply IH; eauto.
  - by rewrite (bench_workload_shape_raises _ _ _ _ _ _ _ _ _ _ _ _ Hs)
      in Hrun.
Qed.

Lemma Forall_enumerate_from (P : workload -> Prop) (l : list workload) n :
  Forall P l <-> Forall (fun p : nat * workload => P p.2) (enumerate_from n l).
Proof.
  revert n. induction l as [|x l IH]; intros n; cbn.
  - split; constructor.
  - rewrite !Forall_cons. by rewrite <- IH.
Qed.

End Escapes.

(** X4.  No failure of operator construction, allocation, compilation,
    upload, run or check leaves [bench_tvm].  With [tvm.placeholder],
    [np.random.random] and the context managers returning, as the model has
    them, it returns normally exactly when [config_arch] returns and either
    names no target or the shape helper returns for every workload; an
    exception that leaves it is the one [config_arch] raised or the one
    [get_input_and_filter_shape] raised for one of the workloads. *)
Theorem bench_tvm_raises_only_outside_try (E : Env) key arch tgt dtype
    layout wls remote sched w :
  ((bench_tvm E key arch tgt dtype layout wls remote sched w).1 = Ok tt <->
   exists target th ctx,
     config_arch E tgt arch sched remote = Ok (target, th, ctx) /\
     (target = None \/ Forall (shaped E layout) wls)) /\
  (forall e,
     (bench_tvm E key arch tgt dtype layout wls remote sched w).1 = Raise e ->
     config_arch E tgt arch sched remote = Raise e \/
     exists wl,
       In wl wls /\
       get_input_and_filter_shape E layout (space wl) (input_channel wl)
         (output_channel wl) (kernel wl) (depthwise wl) = Raise e).
Proof.
  unfold bench_tvm, bind, log, lift.
  destruct (config_arch E tgt arch sched remote)
    as [[[[target|] th] ctx]|e0] eqn:Hca; cbn.
  - destruct (workload_loop E key target th ctx dtype layout remote sched
                (enumerate wls) _) as [r w'] eqn:Hrun. cbn. split.
    + split.
      * intros ->. exists (Some target), th, ctx. split; [done|]. right.
        apply (Forall_enumerate_from _ _ 0%nat).
        eapply workload_loop_ok; eauto.
      * intros (t & th' & ctx' & [= <- <- <-] & [?|Hall]); [done|].
        apply (Forall_enumerate_from _ _ 0%nat) in Hall.
        by destruct (workload_loop_shaped E _ _ _ _ _ _ _ _ _ _ _ _ Hall Hrun).
    + intros e ->. right.
      destruct (workload_loop_raises E _ _ _ _ _ _ _ _ _ _ _ _ Hrun)
        as (idx & wl & Hin & Hs).
      exists wl. split; [|done]. eapply in_enumerate_from; eauto.
  - split; [|done]. split; [|done]. intros _.
    exists None, th, ctx. split; [done|by left].
  - split.
    + split; [done|]. by intros (? & ? & ? & ? & _).
    + intros e [= <-]. by left.
Qed.

(** X5.  The shape helper is called outside the [try] statement: when it
    raises for a workload, the exception ends [bench_tvm].  The workloads
    before it were attempted, each with its two draws; for the failing one
    nothing is drawn and no scope is entered, and the workloads after it are
    not attempted. *)
Theorem shape_failure_ends_configuration (E : Env) key arch tgt dtype layout
    remote sched w target th ctx pre wl post e :
  config_arch E tgt arch sched remote = Ok (Some target, th, ctx) ->
  Forall (shaped E layout) pre ->
  get_input_and_filter_shape E layout (space wl) (input_channel wl)
    (output_channel wl) (kernel wl) (depthwise wl) = Raise e ->
  exists w',
    bench_tvm E key arch tgt dtype layout (pre ++ wl :: post) remote sched w
    = (Raise e, w') /\
    count is_get_conv_ts (appended w w') = length pre /\
    count is_random (appended w w') = (2 * length pre)%nat /\
    draws w' = (draws w + 2 * length pre)%nat.
Proof.
  intros Hca Hpre Hs. unfold bench_tvm, bind, log, lift. rewrite Hca.
  unfold enumerate. rewrite enumerate_from_app. cbn [enumerate_from].
  unfold workload_loop. rewrite for_each_app.
  fold (workload_loop E key target th ctx dtype layout remote sched
          (enumerate_from 0 pre)).
  set (w0 := emit _ w).
  destruct (workload_loop E key target th ctx dtype layout remote sched
              (enumerate_from 0 pre) w0) as [r w1] eqn:Hrun.
  apply (Forall_enumerate_from _ _ 0%nat) in Hpre.
  pose proof (emits_for_each (fun _ => True)
                (fun '(idx, wl0) =>
                   bench_workload E key target th ctx dtype layout remote
                     sched idx wl0) (enumerate_from 0 pre)) as Hem.
  destruct (workload_loop_shaped E _ _ _ _ _ _ _ _ _ _ _ _ Hpre Hrun)
    as (-> & seg & Ht & Hc1 & Hc2).
  rewrite length_enumerate_from in Hc1, Hc2.
  cbn. unfold bind.
  rewrite (bench_workload_shape_raises E _ _ _ _ _ _ _ _ _ _ _ _ Hs).
  exists w1. split_and!; [done| | |].
  - erewrite appended_app by (rewrite Ht; subst w0; rewrite trace_emit,
                                <- app_assoc; reflexivity).
    by rewrite count_app, Hc2.
  - erewrite appended_app by (rewrite Ht; subst w0; rewrite trace_emit,
                                <- app_assoc; reflexivity).
    by rewrite count_app, Hc1.
  - destruct (Hem ltac:(intros [idx0 wl0]; apply emits_bench_workload; done)
                _ _ _ Hrun) as (seg' & Ht' & _ & Hd').
    rewrite Ht in Ht'. apply app_inv_head in Ht'. subst seg'.
    rewrite Hd', Hc1. subst w0. cbn. lia.
Qed.

Lemma bench_tvm_raises_only_outside_try_witness :
  config_arch (demo_env [StShapes; StBuild]) "cpu" "x86" "auto" None
  = Raise (Exception "RuntimeError" "shapes") \/
  exists wl,
    In wl [scenario_a] /\
    get_input_and_filter_shape (demo_env [StShapes; StBuild]) "NCHW"
      (space wl) (input_channel wl) (output_channel wl) (kernel wl)
      (depthwise wl)
    = Raise (Exception "RuntimeError" "shapes").
Proof.
  exact (proj2 (bench_tvm_raises_only_outside_try (demo_env [StShapes; StBuild])
                  "android" "x86" "cpu" float32 "NCHW" [scenario_a] None
                  "auto" initial) _ eq_refl).
Defined.

Lemma shape_failure_ends_configuration_witness :
  exists w',
    bench_tvm (with_shapes (demo_env []) no_pointwise) "android" "x86" "cpu"
      float32 "NCHW" (demo_workloads "caffe2_standard") None "auto" initial
    = (Raise (Exception "ValueError" "kernel"), w') /\
    count is_get_conv_ts (appended initial w') = 1%nat.
Proof.
  destruct (shape_failure_ends_configuration
              (with_shapes (demo_env []) no_pointwise) "android" "x86" "cpu"
              float32 "NCHW" None "auto" initial "llvm" None "cpu(0)"
              [scenario_a] (Workload 28 64 64 1 0 1 0 1 false) []
              (Exception "ValueError" "kernel") eq_refl
              ltac:(repeat constructor; by eexists) eq_refl)
    as (w' & H1 & H2 & _).
  exists w'. split; [exact H1|exact H2].
Defined.

(** ** Warmup *)

Lemma repeat_invoke (E : Env) f i fl o :
  forall n w r w',
    repeat_m n (invoke_kernel E f i fl o) w = (r, w') ->
    exists k,
      trace w' = trace w ++ replicate k (EvInvoke f i fl o) /\
      (k <= n)%nat /\
      (r = Ok tt -> k = n) /\
      (forall e, r = Raise e ->
         exists h, trace w' = h ++ [EvInvoke f i fl o] /\
                   invoke E h f i fl o = Raise e) /\
      draws w' = draws w.
Proof.
  induction n as [|n IH]; intros w r w' H.
  - inversion H; subst. exists 0%nat. cbn. rewrite app_nil_r.
    split_and!; try done; lia.
  - cbn in H. unfold bind in H. unfold invoke_kernel at 1 in H.
    destruct (invoke E (trace w) f i fl o) as [c|e] eqn:Hi.
    + destruct (IH _ _ _ H) as (k & Ht & Hk & Hok & Hraise & Hd).
      exists (S k). cbn in Ht, Hd. split_and!.
      * rewrite Ht. cbn. by rewrite <- app_assoc.
      * lia.
      * intros Hr. by rewrite (Hok Hr).
      * exact Hraise.
      * exact Hd.
    + inversion H; subst. exists 1%nat. cbn. split_and!.
      * done.
      * lia.
      * done.
      * intros e' [= <-]. by exists (trace w).
      * done.
Qed.

(** X6.  The warmup loop invokes the kernel on the three buffers and does
    nothing else: [warmup] times when every invocation returns, not at all
    for a count of zero or less; when an invocation raises, it is the last
    one, and the exception is its exception. *)
Theorem warmup_invokes_until_failure (E : Env) f n i fl o w r w' :
  warmup_runs E f n i fl o w = (r, w') ->
  exists k,
    appended w w' = replicate k (EvInvoke f i fl o) /\
    (k <= Z.to_nat n)%nat /\
    (r = Ok tt -> k = Z.to_nat n) /\
    (forall e, r = Raise e ->
       exists h, trace w' = h ++ [EvInvoke f i fl o] /\
                 invoke E h f i fl o = Raise e) /\
    (n <= 0 -> r = Ok tt /\ w' = w).
Proof.
  intros H. unfold warmup_runs in H.
  destruct (repeat_invoke E f i fl o _ _ _ _ H)
    as (k & Ht & Hk & Hok & Hraise & _).
  exists k. split_and!; [by apply appended_app|done..|].
  intros Hn. replace (Z.to_nat n) with 0%nat in H by lia.
  by inversion H.
Qed.

Lemma warmup_invokes_until_failure_witness :
  exists k,
    appended initial
      (warmup_runs (demo_env []) (TvmModule "f" "f") 3 0%nat 1%nat 2%nat
         initial).2
    = replicate k (EvInvoke (TvmModule "f" "f") 0%nat 1%nat 2%nat) /\
    k = 3%nat.
Proof.
  destruct (warmup_invokes_until_failure (demo_env []) (TvmModule "f" "f") 3
              0%nat 1%nat 2%nat initial (Ok tt) _ eq_refl)
    as (k & H1 & _ & H3 & _).
  exists k. split; [exact H1|exact (H3 eq_refl)].
Defined.

(** ** Which module runs *)

Ltac runs_only_event :=
  split; [reflexivity|cbn; intros ? [=]; congruence].

(** Warmup, timing, the cost line and the check of a module [f] that needs
    no upload. *)
Lemma run_built_local_events (E : Env) f f_name phase ih fh k ic oc stride pad
    layout i fl o ctx target wu rn ops w r w' :
  run_built E f f_name phase ih fh k ic oc stride pad layout i fl o
    ctx target wu rn ops None w = (r, w') ->
  exists seg, trace w' = trace w ++ seg /\ Forall (runs_only f) seg.
Proof.
  intros H.
  assert (emits (runs_only f)
            (warmup_runs E f wu i fl o >>
             c <- evaluate_runs E f ctx rn i fl o ;
             dt <- buffer_dtype i ;
             print (cost_line phase target dt layout stride pad ih fh ops c) >>
             check_correctness E phase ic oc k stride pad layout i fl o))
    as Hem.
  { apply emits_bind.
    { unfold warmup_runs. apply emits_repeat, emits_invoke_kernel.
      runs_only_event. }
    intros _. apply emits_bind.
    { unfold evaluate_runs. apply emits_bind.
      - apply emits_call; [runs_only_event|reflexivity].
      - intros _. apply emits_call_timer. runs_only_event. }
    intros c. apply emits_bind; [apply emits_buffer_dtype|].
    intros dt. apply emits_bind.
    { apply emits_log; [runs_only_event|reflexivity]. }
    intros _. unfold check_correctness.
    repeat (apply emits_bind;
            [first [apply emits_asnumpy|apply emits_buffer_dtype]|intros ?]).
    apply emits_call; [runs_only_event|reflexivity]. }
  destruct (Hem w r w' H) as (seg & Ht & Hf & _). eauto.
Qed.

(** X7.  In a local run the module that [tvm.build] returned is the one that
    is invoked and timed, and nothing is exported or uploaded.  In a remote
    run the built module is only exported: to the file of the kernel's name
    with the suffix .so in a temporary directory, which is then uploaded;
    the module of that file name is loaded from the device, in this order
    and once each, stopping at the first step that raises.  Every
    invocation, [time_evaluator] and the timer then use the module that
    [remote.load_module] returned. *)
Theorem kernel_runs_on_loaded_module (E : Env) f f_name phase ih fh k ic oc
    stride pad layout i fl o ctx target wu rn ops remote w res w' :
  run_built E f f_name phase ih fh k ic oc stride pad layout i fl o
    ctx target wu rn ops remote w = (res, w') ->
  (remote = None -> Forall (runs_only f) (appended w w')) /\
  (forall r, remote = Some r ->
     let path := tempdir E (trace w) +:+ "/" +:+ f_name +:+ ".so" in
     let transfers :=
       [EvExport f path; EvUpload path; EvLoadModule (f_name +:+ ".so")] in
     exists n tail,
       (1 <= n <= 3)%nat /\
       appended w w' = take n transfers ++ tail /\
       ((n < 3)%nat -> tail = [] /\ exists e, res = Raise e) /\
       forall ev, In ev tail ->
         exists f',
           load_module E (trace w ++ [EvExport f path; EvUpload path]) r
             (f_name +:+ ".so") = Ok f' /\
           runs_only f' ev).
Proof.
  intros H. split.
  - intros ->.
    destruct (run_built_local_events E _ _ _ _ _ _ _ _ _ _ _ _ _ _ _ _ _ _ _
                _ _ _ H) as (seg & Ht & Hf).
    by rewrite (appended_app _ _ _ Ht).
  - intros r -> path transfers.
    unfold run_built in H. unfold bind at 1 in H.
    unfold upload_code, bind, temp_relpath, call in H. cbn in H.
    fold path in H.
    destruct (export_library E (trace w) f path) as [[]|e1].
    2:{ inversion H; subst. exists 1%nat, [].
        split; [lia|]. split; [by apply appended_app|].
        split; [|intros ev []].
        intros _. split; [done|by eexists]. }
    destruct (upload E (trace w ++ [EvExport f path]) r path) as [[]|e2].
    2:{ inversion H; subst. exists 2%nat, [].
        split; [lia|].
        split; [apply appended_app; cbn; by rewrite <- !app_assoc|].
        split; [|intros ev []].
        intros _. split; [done|by eexists]. }
    destruct (load_module E ((trace w ++ [EvExport f path])
                               ++ [EvUpload path]) r (f_name +:+ ".so"))
      as [f'|e3] eqn:Hl.
    2:{ inversion H; subst. exists 3%nat, [].
        split; [lia|].
        split; [apply appended_app; cbn; by rewrite <- !app_assoc|].
        split; [lia|intros ev []]. }
    destruct (run_built_local_events E f' f_name phase ih fh k ic oc stride
                pad layout i fl o ctx target wu rn ops _ res w' H)
      as (seg & Ht & Hf).
    exists 3%nat, seg.
    split; [lia|].
    split; [apply appended_app; rewrite Ht; cbn; by rewrite <- !app_assoc|].
    split; [lia|].
    intros ev Hin. exists f'. split.
    + rewrite <- Hl. by rewrite <- app_assoc.
    + exact (proj1 (List.Forall_forall _ _) Hf ev Hin).
Qed.

Lemma kernel_runs_on_loaded_module_witness :
  exists n tail,
    appended initial
      (run_built (demo_env []) (TvmModule "k" "k") "k" "standard"
         (Tensor [1; 32; 56; 56] "float32") (Tensor [64; 32; 3; 3] "float32")
         3 32 64 1 1 "NCHW" 0%nat 1%nat 2%nat "cpu(0)" "llvm" 1 2 7
         (Some (Remote "rk")) initial).2
    = take n [EvExport (TvmModule "k" "k") "/tmp/tvm/k.so";
              EvUpload "/tmp/tvm/k.so"; EvLoadModule "k.so"] ++ tail /\
    forall ev, In ev tail -> runs_only (TvmModule "k.so" "k.so") ev.
Proof.
  destruct (kernel_runs_on_loaded_module (demo_env []) (TvmModule "k" "k") "k"
              "standard" (Tensor [1; 32; 56; 56] "float32")
              (Tensor [64; 32; 3; 3] "float32") 3 32 64 1 1 "NCHW"
              0%nat 1%nat 2%nat "cpu(0)" "llvm" 1 2 7 (Some (Remote "rk"))
              initial _ _ eq_refl) as [_ Hremote].
  destruct (Hremote (Remote "rk") eq_refl) as (n & tail & _ & Happ & _ & Hrun).
  exists n, tail. split; [exact Happ|].
  intros ev Hin. destruct (Hrun ev Hin) as (f' & Hl & Hev).
  vm_compute in Hl. injection Hl as <-. exact Hev.
Defined.

(** ** Scopes are left in the order they were entered *)

Example scopes_after_nested :
  scopes_after [] [EvEnter CtxDummy; EvEnter (CtxTarget "llvm");
                   EvExit (CtxTarget "llvm")] = Some [CtxDummy] /\
  scopes_after [] [EvEnter CtxDummy; EvEnter (CtxTarget "llvm");
                   EvExit CtxDummy] = None.
Proof. by split. Qed.













Section Scopes.

Context (E : Env).








End Scopes.


(** ** The command line *)

Lemma emits_ext {A} P (m m' : M A) :
  (forall w, m w = m' w) -> emits P m' -> emits P m.
Proof. intros Heq Hm w r w' Hrun. rewrite Heq in Hrun. eauto. Qed.

(** Reading an argument, with what was read. *)
Lemma emits_bind_argv_get {B} P argv n (k : string -> M B) :
  (forall a, argv !! n = Some a -> emits P (k a)) ->
  emits P (bind (argv_get argv n) k).
Proof.
  intros Hk. unfold argv_get. destruct (argv !! n) as [a|].
  - intros w r w' Hrun. exact (Hk a eq_refl w r w' Hrun).
  - apply emits_nothing. intros w. by eexists.
Qed.

Lemma emits_environ_get P environ k : emits P (environ_get environ k).
Proof.
  unfold environ_get.
  destruct (environ !! k); [apply emits_ret|apply emits_raise].
Qed.

Section CommandLine.

Context (E : Env) (P : event -> Prop).

Lemma emits_bench_tvm key arch tgt dtype layout wls remote sched :
  P (EvBenchTvm arch tgt dtype layout wls remote sched) ->
  (forall s, P (EvRandom s)) ->
  P (EvEnter (history_scope key sched)) ->
  P (EvExit (history_scope key sched)) ->
  (forall target, P (EvEnter (CtxTarget target))) ->
  (forall target, P (EvExit (CtxTarget target))) ->
  (forall dw, P (EvGetConvTs layout dtype dw)) ->
  (forall phase target stride pad ih fh ev,
     workload_event phase target layout stride pad ih fh ev -> P ev) ->
  emits P (bench_tvm E key arch tgt dtype layout wls remote sched).
Proof.
  intros Hb Hr Hin Hout Htin Htout Hget Hev. unfold bench_tvm.
  apply emits_bind; [by apply emits_log|]. intros _.
  apply emits_bind; [apply emits_lift|]. intros [[[target|] th] ctx].
  - unfold workload_loop. apply emits_for_each. intros [idx wl].
    apply emits_bench_workload; eauto.
  - apply emits_ret.
Qed.

(** The program as a whole: the tracker in remote mode, then [bench_tvm]
    with the device key of the command line, once or in the sweep. *)
Lemma emits_program environ argv :
  (forall h p, P (EvConnectTracker h p)) ->
  (forall k, P (EvRequest k)) ->
  (forall key arch tgt dtype layout wls remote sched,
     device_key argv = Some key ->
     emits P (bench_tvm E key arch tgt dtype layout wls remote sched)) ->
  emits P (program E environ argv).
Proof.
  intros Hc Hq Hbench.
  assert (forall key arch remote,
            device_key argv = Some key ->
            emits P
              (if (4 <? length argv)%nat then
                 target <- argv_get argv 4 ;
                 a5 <- argv_get argv 5 ;
                 dtype <- lift (get_data_type E a5) ;
                 layout <- argv_get argv 6 ;
                 a7 <- argv_get argv 7 ;
                 workloads <- lift (get_workloads E a7) ;
                 sched <- argv_get argv 8 ;
                 bench_tvm E key arch target dtype layout workloads remote sched
               else sweep E key arch remote)) as Hrest.
  { intros key arch remote Hkey. destruct (4 <? length argv)%nat.
    - apply emits_bind_argv_get. intros target _.
      apply emits_bind_argv_get. intros a5 _.
      apply emits_bind; [apply emits_lift|]. intros dtype.
      apply emits_bind_argv_get. intros layout _.
      apply emits_bind_argv_get. intros a7 _.
      apply emits_bind; [apply emits_lift|]. intros wls.
      apply emits_bind_argv_get. intros sched _. by apply Hbench.
    - unfold sweep. repeat (apply emits_for_each; intros ?).
      unfold sweep_cell.
      apply emits_bind; [apply emits_lift|]. intros dt.
      apply emits_bind; [apply emits_lift|]. intros wls. by apply Hbench. }
  unfold program.
  apply emits_bind; [apply emits_environ_get|]. intros host.
  apply emits_bind; [apply emits_environ_get|]. intros p.
  apply emits_bind; [apply emits_lift|]. intros port.
  apply emits_bind_argv_get. intros arch _.
  apply emits_bind_argv_get. intros mode Hmode.
  destruct (String.eqb mode "remote") eqn:Hm.
  - match goal with |- emits _ (bind _ ?K) => set (rest := K) end.
    apply (emits_ext _ _
             (key <- argv_get argv 3 ;
              tracker <- call (EvConnectTracker host port)
                           (fun h => connect_tracker E h host port) ;
              remote <- call (EvRequest key)
                          (fun h => request E h tracker key) ;
              rest (key, Some remote))).
    { intros w. unfold bind, argv_get, call, ret, raise.
      destruct (argv !! 3%nat); [|done].
      destruct (connect_tracker E (trace w) host port); [|done].
      by destruct (request E _ _ _). }
    apply emits_bind_argv_get. intros key Hkey.
    apply emits_bind; [by apply emits_call|]. intros tracker.
    apply emits_bind; [by apply emits_call|]. intros remote.
    subst rest. cbv beta iota. apply Hrest.
    unfold device_key. by rewrite Hmode, Hm.
  - intros w r w' Hrun.
    refine (Hrest "android" arch None _ w r w' Hrun).
    unfold device_key. by rewrite Hmode, Hm.
Qed.

End CommandLine.

(** X9.  The autotuning log follows the device key of the command line:
    whenever the program enters a history scope, in the sweep or in a single
    configuration, the log it reads is ../configs/<key>.convolutions.log for
    the key given as fourth argument in remote mode, and for the key android
    in every other mode, whatever the fourth argument is. *)
Theorem history_log_follows_device_key (E : Env) environ argv w :
  Forall (history_entered_for argv) (appended w (program E environ argv w).2).
Proof.
  destruct (program E environ argv w) as [r w'] eqn:Hrun. cbn.
  eapply emits_appended; [|exact Hrun].
  apply emits_program;
    try (unfold history_entered_for; intros; discriminate).
  intros key arch tgt dtype layout wls remote sched Hkey.
  apply emits_bench_tvm;
    try (unfold history_entered_for; intros; discriminate).
  - unfold history_scope. destruct (String.eqb sched "manual"); [|by intros l].
    intros l [= <-]. exists key. by split.
  - intros phase target stride pad ih fh ev Hev.
    invert_event; by intros l.
Qed.

Example history_log_remote :
  In (EvEnter (CtxHistory "../configs/rk3399.convolutions.log"))
    (trace (program (demo_env []) demo_environ
              ["bench.py"; "arm"; "remote"; "rk3399"; "cpu"; "float"; "NCHW";
               "caffe2_depthwise"; "manual"] initial).2) /\
  In (EvEnter (CtxHistory "../configs/android.convolutions.log"))
    (trace (program (demo_env []) demo_environ
              ["bench.py"; "arm"; "local"; "rk3399"; "cpu"; "float"; "NCHW";
               "caffe2_depthwise"; "manual"] initial).2).
Proof. split; vm_compute; tauto. Qed.

(** The program reads its arguments by position. *)
Lemma program_ext (E : Env) environ argv argv' w :
  (forall i, (i < 9)%nat -> argv !! i = argv' !! i) ->
  (4 <? length argv)%nat = (4 <? length argv')%nat ->
  program E environ argv w = program E environ argv' w.
Proof.
  intros Hl Hlen. unfold program, argv_get. rewrite Hlen.
  rewrite (Hl 1%nat), (Hl 2%nat), (Hl 3%nat), (Hl 4%nat), (Hl 5%nat),
    (Hl 6%nat), (Hl 7%nat), (Hl 8%nat) by lia.
  reflexivity.
Qed.

(** X10.  The command line is read by position and is not checked
    beforehand.  With fewer than three arguments (the program name counted)
    the program ends with an IndexError.  With more than four, all of the
    nine are read: in a mode other than remote, a command line of five to
    eight arguments ends with an exception before [bench_tvm] is called and
    before anything else is done -- an IndexError, unless [get_data_type] or
    [get_workloads] raised for the argument it was given.  What follows the
    ninth argument is ignored. *)
Theorem short_command_line_raises (E : Env) environ argv w host p port :
  environ !! "TVM_TRACKER_HOST" = Some host ->
  environ !! "TVM_TRACKER_PORT" = Some p -> py_int E p = Ok port ->
  ((length argv < 3)%nat ->
   program E environ argv w
   = (Raise (IndexError "list index out of range"), w)) /\
  (forall mode,
     argv !! 2%nat = Some mode -> mode <> "remote" ->
     (5 <= length argv < 9)%nat ->
     exists e,
       program E environ argv w = (Raise e, w) /\
       (e = IndexError "list index out of range" \/
        (exists a, argv !! 5%nat = Some a /\ get_data_type E a = Raise e) \/
        (exists a, argv !! 7%nat = Some a /\ get_workloads E a = Raise e))) /\
  ((9 <= length argv)%nat ->
   program E environ (take 9 argv) w = program E environ argv w).
Proof.
  intros Hh Hp Hi.
  assert (forall argv0,
            program E environ argv0 w
            = (arch <- argv_get argv0 1 ;
               mode <- argv_get argv0 2 ;
               '(key, remote) <-
                  (if String.eqb mode "remote" then
                     key <- argv_get argv0 3 ;
                     tracker <- call (EvConnectTracker host port)
                                  (fun h => connect_tracker E h host port) ;
                     remote <- call (EvRequest key)
                                 (fun h => request E h tracker key) ;
                     ret (key, Some remote)
                   else ret ("android", None)) ;
               if (4 <? length argv0)%nat then
                 target <- argv_get argv0 4 ;
                 a5 <- argv_get argv0 5 ;
                 dtype <- lift (get_data_type E a5) ;
                 layout <- argv_get argv0 6 ;
                 a7 <- argv_get argv0 7 ;
                 workloads <- lift (get_workloads E a7) ;
                 sched <- argv_get argv0 8 ;
                 bench_tvm E key arch target dtype layout workloads remote sched
               else sweep E key arch remote) w) as Hprog.
  { intros argv0. unfold program, bind, environ_get, lift, ret.
    rewrite Hh, Hp. cbv beta iota. rewrite Hi. reflexivity. }
  split_and!.
  - intros Hlen. rewrite Hprog.
    destruct argv as [|a0 [|a1 [|a2 argv]]]; cbn in Hlen; try lia; reflexivity.
  - intros mode Hmode Hne Hlen. rewrite Hprog.
    apply String.eqb_neq in Hne.
    destruct argv as [|a0 [|a1 [|a2 [|a3 [|a4 rest]]]]]; cbn in Hlen; try lia.
    cbn in Hmode. injection Hmode as ->.
    unfold bind at 1, argv_get at 1. cbn [lookup list_lookup ret].
    unfold bind at 1, argv_get at 1. cbn [lookup list_lookup ret].
    rewrite Hne. unfold bind at 1. cbn [ret].
    cbn [length Nat.ltb Nat.leb].
    unfold bind at 1, argv_get at 1. cbn [lookup list_lookup ret].
    destruct rest as [|a5 [|a6 [|a7 [|a8 rest]]]]; cbn in Hlen; try lia.
    + eexists. split; [reflexivity|by left].
    + unfold bind at 1, argv_get at 1. cbn [lookup list_lookup ret].
      unfold bind at 1, lift at 1.
      destruct (get_data_type E a5) as [dt|e] eqn:Hdt.
      * eexists. split; [reflexivity|by left].
      * eexists. split; [reflexivity|]. right. left. by exists a5.
    + unfold bind at 1, argv_get at 1. cbn [lookup list_lookup ret].
      unfold bind at 1, lift at 1.
      destruct (get_data_type E a5) as [dt|e] eqn:Hdt.
      * eexists. split; [reflexivity|by left].
      * eexists. split; [reflexivity|]. right. left. by exists a5.
    + unfold bind at 1, argv_get at 1. cbn [lookup list_lookup ret].
      unfold bind at 1, lift at 1.
      destruct (get_data_type E a5) as [dt|e] eqn:Hdt.
      * unfold bind at 1, argv_get at 1. cbn [lookup list_lookup ret].
        unfold bind at 1, argv_get at 1. cbn [lookup list_lookup ret].
        unfold bind at 1, lift at 1.
        destruct (get_workloads E a7) as [wls|e] eqn:Hwl.
        -- eexists. split; [reflexivity|by left].
        -- eexists. split; [reflexivity|]. right. right. by exists a7.
      * eexists. split; [reflexivity|]. right. left. by exists a5.
  - intros Hlen. apply program_ext.
    + intros i Hi9. apply lookup_take_lt. lia.
    + rewrite length_take.
      destruct (Nat.ltb_spec 4 (9 `min` length argv)),
        (Nat.ltb_spec 4 (length argv)); try done; lia.
Qed.

Lemma short_command_line_raises_witness :
  program (demo_env []) demo_environ ["bench.py"; "x86"] initial
  = (Raise (IndexError "list index out of range"), initial) /\
  exists e,
    program (demo_env []) demo_environ
      ["bench.py"; "x86"; "local"; "android"; "cpu"; "float"; "NCHW"] initial
    = (Raise e, initial).
Proof.
  split.
  - refine (proj1 (short_command_line_raises (demo_env []) demo_environ
                     ["bench.py"; "x86"] initial "0.0.0.0" "9090" 9090
                     eq_refl eq_refl eq_refl) _).
    cbn. lia.
  - destruct (proj1 (proj2 (short_command_line_raises (demo_env [])
                              demo_environ
                              ["bench.py"; "x86"; "local"; "android"; "cpu";
                               "float"; "NCHW"] initial "0.0.0.0" "9090" 9090
                              eq_refl eq_refl eq_refl))
                "local" eq_refl ltac:(discriminate) ltac:(cbn; lia))
      as (e & He & _).
    by exists e.
Defined.

(** X11.  In remote mode the program first connects to the tracker, with the
    host and the port of the environment, then requests the device of the
    key given as fourth argument.  An exception of either call ends the
    program at once: nothing is benchmarked.  The session the tracker hands
    out is the one every configuration of the sweep is run with. *)
Theorem remote_mode_connects_first (E : Env) environ argv w host p port arch
    key :
  environ !! "TVM_TRACKER_HOST" = Some host ->
  environ !! "TVM_TRACKER_PORT" = Some p -> py_int E p = Ok port ->
  argv !! 1%nat = Some arch -> argv !! 2%nat = Some "remote" ->
  argv !! 3%nat = Some key ->
  let w1 := emit (EvConnectTracker host port) w in
  let w2 := emit (EvRequest key) w1 in
  (forall e,
     connect_tracker E (trace w) host port = Raise e ->
     program E environ argv w = (Raise e, w1)) /\
  (forall tracker e,
     connect_tracker E (trace w) host port = Ok tracker ->
     request E (trace w1) tracker key = Raise e ->
     program E environ argv w = (Raise e, w2)) /\
  (forall tracker session,
     connect_tracker E (trace w) host port = Ok tracker ->
     request E (trace w1) tracker key = Ok session ->
     (length argv <= 4)%nat ->
     program E environ argv w = sweep E key arch (Some session) w2).
Proof.
  intros Hh Hp Hi Harch Hmode Hkey w1 w2.
  assert (program E environ argv w
          = ('(key, remote) <-
               (tracker <- call (EvConnectTracker host port)
                             (fun h => connect_tracker E h host port) ;
                remote <- call (EvRequest key)
                            (fun h => request E h tracker key) ;
                ret (key, Some remote)) ;
             if (4 <? length argv)%nat then
               target <- argv_get argv 4 ;
               a5 <- argv_get argv 5 ;
               dtype <- lift (get_data_type E a5) ;
               layout <- argv_get argv 6 ;
               a7 <- argv_get argv 7 ;
               workloads <- lift (get_workloads E a7) ;
               sched <- argv_get argv 8 ;
               bench_tvm E key arch target dtype layout workloads remote sched
             else sweep E key arch remote) w) as Hprog.
  { unfold program, bind, environ_get, lift, ret, argv_get.
    rewrite Hh, Hp, Harch, Hmode, Hkey. cbv beta iota. rewrite Hi.
    cbv beta iota. reflexivity. }
  rewrite Hprog. unfold bind, call, ret. fold w1. split_and!.
  - intros e ->. reflexivity.
  - intros tracker e -> Hr. cbn [trace w1 emit] in *. rewrite Hr. reflexivity.
  - intros tracker session -> Hr Hlen. cbn [trace w1 emit] in *. rewrite Hr.
    fold w2. by destruct (Nat.ltb_spec 4 (length argv)); [lia|].
Qed.

Lemma remote_mode_connects_first_witness :
  program (demo_env [StConnect]) demo_environ
    ["bench.py"; "arm"; "remote"; "rk3399"] initial
  = (Raise (Exception "RuntimeError" "connect"),
     emit (EvConnectTracker "0.0.0.0" 9090) initial).
Proof.
  exact (proj1 (remote_mode_connects_first (demo_env [StConnect]) demo_environ
                  ["bench.py"; "arm"; "remote"; "rk3399"] initial "0.0.0.0"
                  "9090" 9090 "arm" "rk3399" eq_refl eq_refl eq_refl eq_refl
                  eq_refl eq_refl) _ eq_refl).
Defined.

(** ** Kernel names *)

Lemma string_of_uint_digits d :
  all_digits (NilEmpty.string_of_uint d) = true.
Proof. induction d; cbn; auto. Qed.

Lemma str_nat_digits n : all_digits (str_nat n) = true.
Proof.
  unfold str_nat, NilZero.string_of_uint.
  destruct (Nat.to_uint n) eqn:Hd; [done|..];
    rewrite <- Hd at 1; rewrite Hd; apply string_of_uint_digits.
Qed.

Lemma to_uint_not_nil n : Nat.to_uint n <> Decimal.Nil.
Proof.
  rewrite <- (Unsigned.of_to n) at 1. rewrite Unsigned.to_of.
  unfold Decimal.unorm. by destruct (Decimal.nzhead _).
Qed.

Lemma str_nat_inj i j : str_nat i = str_nat j -> i = j.
Proof.
  unfold str_nat. intros H. apply Unsigned.to_uint_inj.
  apply (f_equal NilZero.uint_of_string) in H.
  rewrite !NilZero.usu in H by apply to_uint_not_nil.
  by injection H.
Qed.

(** A numeral is read up to the first underscore. *)
Lemma digits_before_underscore a b r r' :
  all_digits a = true -> all_digits b = true ->
  a +:+ "_" +:+ r = b +:+ "_" +:+ r' -> a = b.
Proof.
  revert b. induction a as [|c a IH]; intros [|c' b] Ha Hb H; cbn in *.
  - done.
  - injection H as <- _. done.
  - injection H as -> _. done.
  - injection H as <- H. f_equal.
    apply andb_prop in Ha as [_ Ha]. apply andb_prop in Hb as [_ Hb]. eauto.
Qed.

Lemma f_name_of_index i j phase k s ic oc phase' k' s' ic' oc' :
  f_name_of i phase k s ic oc = f_name_of j phase' k' s' ic' oc' -> i = j.
Proof.
  unfold f_name_of. intros H. apply str_nat_inj.
  eapply digits_before_underscore; [apply str_nat_digits..|exact H].
Qed.

Lemma length_build_names (h : history) :
  length (build_names h) = count is_build h.
Proof.
  unfold build_names, count.
  induction h as [|ev h IH]; [done|]. destruct ev; cbn; auto.
Qed.

Ltac not_a_build := unfold builds_as; cbn; intros ? [=].

Section KernelNames.

Context (E : Env).

Lemma emits_get_conv_ts (P : event -> Prop) ih fh s p layout dtype dw :
  P (EvGetConvTs layout dtype dw) ->
  (forall ev, topi_event ev -> P ev) ->
  emits P (get_conv_ts E ih fh s p layout dtype dw).
Proof.
  intros Hget Hev w r w' Hrun.
  destruct (get_conv_ts_trace _ _ _ _ _ _ _ _ _ _ _ Hrun)
    as (rest & Ht & Hf & _ & Hd).
  exists (EvGetConvTs layout dtype dw :: rest). split_and!.
  - exact Ht.
  - constructor; [exact Hget|]. eapply Forall_impl; eauto.
  - rewrite count_cons, count_none; [cbn; lia|].
    eapply Forall_impl; [exact Hf|]. intros ev H. by invert_event.
Qed.

(** The name [tvm.build] gets starts with the number of the workload. *)
Lemma emits_builds_as key target th ctx dtype layout remote sched idx wl :
  emits (builds_as idx)
    (bench_workload E key target th ctx dtype layout remote sched idx wl).
Proof.
  unfold bench_workload.
  apply emits_bind; [apply emits_lift|]. intros [ishape fshape].
  apply emits_bind; [apply emits_np_random; not_a_build|]. intros id.
  apply emits_bind; [apply emits_np_random; not_a_build|]. intros fd.
  apply emits_with; [not_a_build..|]. apply emits_with; [not_a_build..|].
  unfold schedule_and_run, print. apply emits_try.
  - apply emits_get_conv_ts; [not_a_build|].
    intros ev Hev. invert_event; not_a_build.
  - intros e. apply emits_bind; [apply emits_log; [not_a_build|done]|].
    intros _. apply emits_log; [not_a_build|done].
  - intros [conv ts]. apply emits_try.
    + unfold bind_and_run. apply emits_bind.
      * eapply emits_impl; [|apply emits_bind_buffers].
        intros ev Hev. invert_event; not_a_build.
      * intros [[[i fl] o] ops]. unfold build_and_run, print.
        apply emits_with; [not_a_build..|]. apply emits_try.
        -- apply emits_call; [|done].
           intros name [= <-]. by eexists _, _, _, _, _.
        -- intros e. apply emits_bind; [apply emits_log; [not_a_build|done]|].
           intros _. apply emits_bind; [apply emits_buffer_dtype|].
           intros dt. apply emits_log; [not_a_build|done].
        -- intros f. eapply emits_impl; [|apply emits_run_built].
           intros ev Hev. invert_event; not_a_build.
    + intros e. apply emits_bind; [apply emits_log; [not_a_build|done]|].
      intros _. apply emits_log; [not_a_build|done].
    + intros _. apply emits_ret.
Qed.

Lemma workload_loop_names key target th ctx dtype layout remote sched :
  forall l n w r w',
    workload_loop E key target th ctx dtype layout remote sched
      (enumerate_from n l) w = (r, w') ->
    exists seg,
      trace w' = trace w ++ seg /\ NoDup (build_names seg) /\
      Forall (builds_from n) seg.
Proof.
  induction l as [|wl l IH]; intros n w r w' Hrun.
  - inversion Hrun; subst. exists []. rewrite app_nil_r.
    split_and!; [done|constructor|constructor].
  - unfold workload_loop in Hrun. cbn in Hrun. unfold bind in Hrun.
    destruct (bench_workload E key target th ctx dtype layout remote sched
                n wl w) as [r1 w1] eqn:Hbody.
    destruct (emits_builds_as _ _ _ _ _ _ _ _ _ _ _ _ _ Hbody)
      as (s1 & Ht1 & Hf1 & _).
    destruct (bench_workload_builds E _ _ _ _ _ _ _ _ _ _ _ _ _ Hbody)
      as (s1' & Ht1' & Hb1).
    rewrite Ht1 in Ht1'. apply app_inv_head in Ht1'. subst s1'.
    assert (NoDup (build_names s1)) as Hn1.
    { pose proof (length_build_names s1) as Hlen.
      destruct (build_names s1) as [|x [|y names]]; cbn in Hlen.
      - constructor.
      - apply NoDup_singleton.
      - lia. }
    assert (Forall (builds_from n) s1) as Hfrom1.
    { eapply Forall_impl; [exact Hf1|]. intros ev Hev name Hname.
      exists n. split; [lia|done]. }
    destruct r1 as [[]|e].
    + destruct (IH (S n) _ _ _ Hrun) as (s2 & Ht2 & Hn2 & Hf2).
      exists (s1 ++ s2). split_and!.
      * by rewrite Ht2, Ht1, app_assoc.
      * unfold build_names in *. rewrite omap_app. apply NoDup_app.
        split_and!; [done| |done].
        intros name Hin1 Hin2.
        apply list_elem_of_omap in Hin1 as (ev1 & Hev1 & Hname1).
        apply list_elem_of_omap in Hin2 as (ev2 & Hev2 & Hname2).
        rewrite Forall_forall in Hf1, Hf2.
        destruct (Hf1 _ Hev1 _ Hname1) as (? & ? & ? & ? & ? & ->).
        destruct (Hf2 _ Hev2 _ Hname2) as (idx & Hidx & Has).
        destruct (Has _ Hname2) as (? & ? & ? & ? & ? & Heq).
        apply f_name_of_index in Heq. lia.
      * apply Forall_app. split; [done|].
        eapply Forall_impl; [exact Hf2|]. intros ev Hev name Hname.
        destruct (Hev name Hname) as (idx & Hidx & Has).
        exists idx. split; [lia|done].
    + inversion Hrun; subst. exists s1. by split_and!.
Qed.

End KernelNames.

(** X12.  Within one call of [bench_tvm] no two compilations share a
    function name, even when two workloads have the same parameters: the
    name starts with the number of the workload in the list, and [tvm.build]
    is called at most once for a workload. *)
Theorem kernel_names_are_distinct (E : Env) key arch tgt dtype layout wls
    remote sched w :
  NoDup (build_names
           (appended w
              (bench_tvm E key arch tgt dtype layout wls remote sched w).2)) /\
  (forall i j phase k s ic oc phase' k' s' ic' oc',
     i <> j ->
     f_name_of i phase k s ic oc <> f_name_of j phase' k' s' ic' oc').
Proof.
  split.
  - unfold bench_tvm, bind, log, lift.
    destruct (config_arch E tgt arch sched remote)
      as [[[[target|] th] ctx]|e0]; cbn.
    + destruct (workload_loop E key target th ctx dtype layout remote sched
                  (enumerate wls) _) as [r w'] eqn:Hrun. cbn.
      destruct (workload_loop_names E _ _ _ _ _ _ _ _ _ _ _ _ _ Hrun)
        as (seg & Ht & Hn & _).
      erewrite appended_app
        by (rewrite Ht, trace_emit, <- app_assoc; reflexivity).
      exact Hn.
    + erewrite appended_app by (rewrite trace_emit; reflexivity).
      cbn. apply NoDup_nil. done.
    + erewrite appended_app by (rewrite trace_emit; reflexivity).
      cbn. apply NoDup_nil. done.
  - intros i j phase k s ic oc phase' k' s' ic' oc' Hij Heq.
    by apply f_name_of_index in Heq.
Qed.

Lemma kernel_names_are_distinct_witness :
  f_name_of 0 "standard" 3 56 32 64 <> f_name_of 1 "standard" 3 56 32 64.
Proof.
  apply (proj2 (kernel_names_are_distinct (demo_env []) "android" "x86" "cpu"
                  float32 "NCHW" [] None "auto" initial)).
  lia.
Defined.

(** ** The dispatch of get_conv_ts *)

(** X13.  What [get_conv_ts] does, for every layout.  For one of the three
    layouts it knows it constructs one operator, dense or depthwise as asked
    and for that layout; if topi raises, the exception goes to the caller
    and no schedule routine is called; otherwise the one schedule routine of
    the same kind and layout is called on exactly the operator constructed,
    and the pair is returned, or its exception goes to the caller.  For any
    other layout it raises: before any call of topi if depthwise, and after
    a useless call of [conv2d] if dense. *)
Theorem operator_and_schedule_match_layout (E : Env) ih fh s p layout dtype
    dw w :
  let r := (get_conv_ts E ih fh s p layout dtype dw w).1 in
  let h := appended w (get_conv_ts E ih fh s p layout dtype dw w).2 in
  let enter := EvGetConvTs layout dtype dw in
  (supported layout /\
   exists c,
     call_layout c = layout /\ is_depthwise_call c = dw /\
     match topi_nn E (trace w ++ [enter]) c with
     | Raise e => r = Raise e /\ h = [enter; EvTopi c]
     | Ok conv =>
         exists fn,
           sched_layout fn = layout /\ is_depthwise_sched fn = dw /\
           h = [enter; EvTopi c; EvSchedule fn [conv]] /\
           r = match topi_generic E (trace w ++ [enter; EvTopi c]) fn [conv]
               with
               | Ok ts => Ok (conv, ts)
               | Raise e => Raise e
               end
     end) \/
  (~ supported layout /\
   if dw then r = Raise (UnboundLocalError "conv") /\ h = [enter]
   else
     exists c,
       call_layout c = layout /\ is_depthwise_call c = false /\
       h = [enter; EvTopi c] /\
       r = match topi_nn E (trace w ++ [enter]) c with
           | Ok _ => Raise (UnboundLocalError "ts")
           | Raise e => Raise e
           end).
Proof.
  intros r h enter. subst r h.
  assert (forall w1 seg, trace w1 = trace w ++ seg -> appended w w1 = seg)
    as Happ by (intros; by apply appended_app).
  unfold get_conv_ts, bind, log, topi_op, topi_schedule, call, ret, raise.
  fold enter.
  destruct (String.eqb_spec layout "NCHW") as [->|H1];
    [|destruct (String.eqb_spec layout "NHWC") as [->|H2];
      [|destruct (String.eqb_spec layout "HWCN") as [->|H3]]].
  1-3: left; split; [unfold supported; tauto|];
    destruct dw; cbn [negb trace emit];
    match goal with |- context [topi_nn _ _ ?c] => exists c end;
    (split; [reflexivity|]); (split; [reflexivity|]);
    (destruct (topi_nn _ _ _) as [conv|e]; cbn [fst snd trace emit];
     [|split; [reflexivity|]; apply Happ; cbn [trace emit];
       rewrite <- ?app_assoc; reflexivity]);
    match goal with |- context [topi_generic _ _ ?fn _] => exists fn end;
    (split; [reflexivity|]); (split; [reflexivity|]);
    rewrite <- app_assoc; cbn [app];
    destruct (topi_generic _ _ _ _); cbn [fst snd trace emit];
    (split; [|reflexivity]); apply Happ; cbn [trace emit];
    rewrite <- ?app_assoc; reflexivity.
  right. split; [intros [?|[?|?]]; done|].
  destruct dw; cbn [negb trace emit fst snd].
  - split; [reflexivity|]. apply Happ. reflexivity.
  - match goal with |- context [topi_nn _ _ ?c] => exists c end.
    split; [reflexivity|]. split; [reflexivity|].
    destruct (topi_nn _ _ _); cbn [fst snd trace emit];
      (split; [|reflexivity]); apply Happ; cbn [trace emit];
      rewrite <- ?app_assoc; reflexivity.
Qed.

(** ** The operation count *)

(** X14.  The operation count of the cost line is computed from the height
    of the output: for a supported layout [bench_tvm] picks, from the shape
    of the constructed operator, the dimension that this layout gives to H,
    and hands it to [get_num_ops] with the channel counts, the kernel size
    and the kind of the workload. *)
Theorem ops_counted_from_output_height (E : Env) wl id fd layout dtype ctx
    conv w i fl o ops w' n c h wd :
  supported layout ->
  t_shape conv = shape_in layout n c h wd ->
  bind_buffers E wl id fd layout dtype ctx conv w = (Ok (i, fl, o, ops), w') ->
  get_num_ops E h (input_channel wl) (output_channel wl) (kernel wl)
    (depthwise wl) = Ok ops.
Proof.
  intros Hsup Hshape H.
  unfold bind_buffers, bind, tvm_nd_array, lift, ret in H.
  destruct (nd_array E (trace w) _ ctx); [|done]. cbn in H.
  destruct (nd_array E _ _ ctx); [|done]. cbn in H.
  destruct (nd_array E _ _ ctx); [|done]. cbn in H.
  unfold output_space_of in H. rewrite Hshape in H.
  destruct Hsup as [->|[->| ->]]; cbn in H;
    destruct (get_num_ops E h _ _ _ _); by inversion H.
Qed.

Lemma ops_counted_from_output_height_witness :
  get_num_ops (demo_env []) 56 32 64 3 false = Ok 115605504.
Proof.
  refine (ops_counted_from_output_height (demo_env []) scenario_a
            (NdArray [1; 32; 56; 56] "float64" (CRandom 0))
            (NdArray [64; 32; 3; 3] "float64" (CRandom 1)) "NCHW" float32
            "cpu(0)" (Tensor [1; 32; 56; 56] "float32") initial
            0%nat 1%nat 2%nat 115605504 _ 1 32 56 56 _ eq_refl _).
  - by left.
  - vm_compute. reflexivity.
Defined.

(** ** A single configuration *)

Section SingleConfiguration.

Context (E : Env).

(** A call of [bench_tvm] is entered once; the loop enters no other. *)
Lemma bench_tvm_entered_once key arch tgt dtype layout wls remote sched
    w r w' :
  bench_tvm E key arch tgt dtype layout wls remote sched w = (r, w') ->
  exists seg,
    trace w' = trace w
                 ++ EvBenchTvm arch tgt dtype layout wls remote sched :: seg /\
    Forall (fun ev => is_bench_tvm ev = false) seg.
Proof.
  intros H.
  assert (forall target th ctx,
            emits (fun ev => is_bench_tvm ev = false)
              (workload_loop E key target th ctx dtype layout remote sched
                 (enumerate wls))) as Hloop.
  { intros target th ctx. unfold workload_loop.
    apply emits_for_each. intros [idx wl].
    apply emits_bench_workload; try done.
    intros ih fh ev Hev. by apply workload_event_quiet in Hev as (_ & _ & ?). }
  unfold bench_tvm, bind, log, lift in H.
  destruct (config_arch E tgt arch sched remote)
    as [[[[target|] th] ctx]|e0].
  - destruct (Hloop _ _ _ _ _ _ H) as (seg & Ht & Hf & _).
    exists seg. split; [|done]. rewrite Ht, trace_emit, <- app_assoc.
    reflexivity.
  - inversion H; subst. by exists [].
  - inversion H; subst. by exists [].
Qed.

(** The branch of the main block for more than four arguments: it reads the
    five remaining arguments and calls [bench_tvm], or raises before. *)
Lemma single_cell argv key arch remote w r w' :
  (target <- argv_get argv 4 ;
   a5 <- argv_get argv 5 ;
   dtype <- lift (get_data_type E a5) ;
   layout <- argv_get argv 6 ;
   a7 <- argv_get argv 7 ;
   workloads <- lift (get_workloads E a7) ;
   sched <- argv_get argv 8 ;
   bench_tvm E key arch target dtype layout workloads remote sched) w
  = (r, w') ->
  w' = w \/
  exists tgt a5 dt layout a7 wls sched,
    argv !! 4%nat = Some tgt /\
    (argv !! 5%nat = Some a5 /\ get_data_type E a5 = Ok dt) /\
    argv !! 6%nat = Some layout /\
    (argv !! 7%nat = Some a7 /\ get_workloads E a7 = Ok wls) /\
    argv !! 8%nat = Some sched /\
    bench_tvm E key arch tgt dt layout wls remote sched w = (r, w').
Proof.
  intros H. unfold bind, argv_get, lift, ret, raise in H.
  destruct (argv !! 4%nat) as [tgt|]; [|left; by inversion H].
  destruct (argv !! 5%nat) as [a5|]; [|left; by inversion H].
  destruct (get_data_type E a5) as [dt|e] eqn:Hdt; [|left; by inversion H].
  destruct (argv !! 6%nat) as [layout|]; [|left; by inversion H].
  destruct (argv !! 7%nat) as [a7|]; [|left; by inversion H].
  destruct (get_workloads E a7) as [wls|e] eqn:Hwl; [|left; by inversion H].
  destruct (argv !! 8%nat) as [sched|]; [|left; by inversion H].
  right. by exists tgt, a5, dt, layout, a7, wls, sched.
Qed.

End SingleConfiguration.

(** X15.  With more than four arguments the program runs a single
    configuration: [bench_tvm] is called at most once -- not at all when an
    argument is missing, a helper rejects one, or the tracker fails -- and
    its arguments are those of the command line by position: the
    architecture second, then, after mode and device key, target, element
    type, layout, workload set and schedule strategy, the element type and
    the workload set looked up by [get_data_type] and [get_workloads].  It
    gets a remote session exactly in remote mode. *)
Theorem single_configuration_mode (E : Env) environ argv w :
  (4 < length argv)%nat ->
  let h := appended w (program E environ argv w).2 in
  (count is_bench_tvm h <= 1)%nat /\ Forall (cell_of_argv E argv) h.
Proof.
  intros Hlen h. subst h.
  apply Nat.ltb_lt in Hlen.
  destruct (program E environ argv w) as [r w'] eqn:Hrun. cbn [snd].
  assert (forall key arch remote w0 pre,
            trace w0 = trace w ++ pre ->
            Forall (fun ev => is_bench_tvm ev = false) pre ->
            argv !! 1%nat = Some arch ->
            (remote = None <-> argv !! 2%nat <> Some "remote") ->
            (target <- argv_get argv 4 ;
             a5 <- argv_get argv 5 ;
             dtype <- lift (get_data_type E a5) ;
             layout <- argv_get argv 6 ;
             a7 <- argv_get argv 7 ;
             workloads <- lift (get_workloads E a7) ;
             sched <- argv_get argv 8 ;
             bench_tvm E key arch target dtype layout workloads remote
               sched) w0 = (r, w') ->
            (count is_bench_tvm (appended w w') <= 1)%nat /\
            Forall (cell_of_argv E argv) (appended w w')) as Hcell.
  { intros key arch remote w0 pre Ht Hpre Harch Hremote Hcell.
    assert (Forall (cell_of_argv E argv) pre) as Hpre'.
    { eapply Forall_impl; [exact Hpre|]. intros ev Hev.
      intros ? ? ? ? ? ? ? ->. done. }
    apply single_cell in Hcell
      as [->|(tgt & a5 & dt & layout & a7 & wls & sched & H4 & H5 & H6 & H7
              & H8 & Hcell)].
    - rewrite (appended_app _ _ _ Ht). split; [|done].
      rewrite count_none; [lia|done].
    - destruct (bench_tvm_entered_once E _ _ _ _ _ _ _ _ _ _ _ Hcell)
        as (seg & Ht1 & Hseg).
      erewrite appended_app by (rewrite Ht1, Ht, <- app_assoc; reflexivity).
      split.
      + rewrite count_app, count_cons, !count_none by done. cbn. lia.
      + apply Forall_app. split; [done|]. constructor.
        * intros ? ? ? ? ? ? ? [= <- <- <- <- <- <- <-].
          destruct H5, H7. split_and!; eauto.
        * eapply Forall_impl; [exact Hseg|]. intros ev Hev.
          intros ? ? ? ? ? ? ? ->. done. }
  assert (forall pre,
            trace w' = trace w ++ pre ->
            Forall (fun ev => is_bench_tvm ev = false) pre ->
            (count is_bench_tvm (appended w w') <= 1)%nat /\
            Forall (cell_of_argv E argv) (appended w w')) as Hend.
  { intros pre Ht Hpre. rewrite (appended_app _ _ _ Ht). split.
    - rewrite count_none; [lia|done].
    - eapply Forall_impl; [exact Hpre|]. intros ev Hev.
      intros ? ? ? ? ? ? ? ->. done. }
  unfold program in Hrun. rewrite Hlen in Hrun.
  unfold bind at 1, environ_get at 1, ret at 1, raise at 1 in Hrun.
  destruct (environ !! "TVM_TRACKER_HOST") as [host|];
    [|inversion Hrun; subst; apply (Hend []); [by rewrite app_nil_r|done]].
  unfold bind at 1, environ_get at 1, ret at 1, raise at 1 in Hrun.
  destruct (environ !! "TVM_TRACKER_PORT") as [p|];
    [|inversion Hrun; subst; apply (Hend []); [by rewrite app_nil_r|done]].
  unfold bind at 1, lift at 1 in Hrun.
  destruct (py_int E p) as [port|e];
    [|inversion Hrun; subst; apply (Hend []); [by rewrite app_nil_r|done]].
  unfold bind at 1, argv_get at 1, ret at 1, raise at 1 in Hrun.
  destruct (argv !! 1%nat) as [arch|] eqn:Harch;
    [|inversion Hrun; subst; apply (Hend []); [by rewrite app_nil_r|done]].
  unfold bind at 1, argv_get at 1, ret at 1, raise at 1 in Hrun.
  destruct (argv !! 2%nat) as [mode|] eqn:Hmode;
    [|inversion Hrun; subst; apply (Hend []); [by rewrite app_nil_r|done]].
  destruct (String.eqb_spec mode "remote") as [->|Hne].
  - unfold bind at 1 in Hrun.
    unfold bind at 1, argv_get at 1, ret at 1, raise at 1 in Hrun.
    destruct (argv !! 3%nat) as [key|];
      [|inversion Hrun; subst; apply (Hend []); [by rewrite app_nil_r|done]].
    unfold bind at 1, call at 1 in Hrun.
    destruct (connect_tracker E (trace w) host port) as [tracker|e].
    2:{ inversion Hrun; subst. apply (Hend [EvConnectTracker host port]).
        - by rewrite trace_emit.
        - by repeat constructor. }
    unfold bind at 1, call at 1 in Hrun.
    destruct (request E _ tracker key) as [session|e].
    2:{ inversion Hrun; subst.
        apply (Hend [EvConnectTracker host port; EvRequest key]).
        - by rewrite !trace_emit, <- app_assoc.
        - by repeat constructor. }
    unfold ret at 1 in Hrun.
    eapply (Hcell key arch (Some session) _
              [EvConnectTracker host port; EvRequest key]); [| | | |exact Hrun].
    + by rewrite !trace_emit, <- app_assoc.
    + by repeat constructor.
    + done.
    + split; [done|]. intros Hm. by destruct Hm.
  - unfold bind at 1, ret at 1 in Hrun.
    eapply (Hcell "android" arch None w []); [| | | |exact Hrun].
    + by rewrite app_nil_r.
    + done.
    + done.
    + split; [|done]. intros _ [= ->]. done.
Qed.

Lemma single_configuration_mode_witness :
  (count is_bench_tvm
     (appended initial
        (program (demo_env []) demo_environ
           ["bench.py"; "x86"; "local"; "android"; "cpu"; "float"; "NCHW";
            "caffe2_standard"; "auto"] initial).2) <= 1)%nat.
Proof.
  exact (proj1 (single_configuration_mode (demo_env []) demo_environ
                  ["bench.py"; "x86"; "local"; "android"; "cpu"; "float";
                   "NCHW"; "caffe2_standard"; "auto"] initial
                  ltac:(cbn; lia))).
Defined.

(** ** The sequence of a measurement *)



